(* ===== verification/_CoqProject ===== *)
-Q . S2P
Prelude.v
PyLib.v
Classifier.v
Calendar.v
FileSystem.v
Naming.v
World.v
ActivityLog.v
Backup.v
Organizer.v
Undo.v
Session.v
JsonStore.v
Worker.v
UndoSlot.v
Screens.v
Gui.v
