(* ===== verification/Prelude.v ===== *)
(** * A verification development of the file organizer (src/organizer.py, src/gui.py)

    The program is a Tkinter desktop tool.  Its engine lives in
    src/organizer.py: a classifier ([get_category], [get_size_group]), a
    backup stage ([backup_folder]), the organize loop
    ([FileOrganizerGUI.organize_files_thread]), one global undo slot
    ([UNDO_FILE], written by the organize run and consumed by
    [FileOrganizerGUI.undo_operation]), a per-user activity log
    ([create_log], [load_log]) and a plaintext account store
    ([load_users], [save_users], [login], [register]).  The class
    [FileOrganizerGUI] wires them to buttons; src/gui.py is a second,
    smaller front end that calls the module.

    ** Files, in dependency order, and what they model

    - [Prelude] (this file): the scope [fo_scope], the hint databases [fo]
      and [fo_rw], the tactic [vm_decide], and lemmas on strings, lists and
      finite sets shared by the components (e.g. the pigeonhole lemma
      [nodup_escapes] behind the termination of the naming loop).
    - [PyLib]: the Python library functions the code calls, as CPython
      computes them on byte strings: [str.lower], [str.strip],
      [str.split], [os.path.splitext], [str(int)], the [:02] format,
      [os.path.join] and [os.path.basename] on paths kept as lists of
      components, and the suffixed names [f"{base}_{counter}{ext}"].
    - [Classifier]: [FILE_TYPES], [SIZE_LIMITS], [get_category],
      [get_size_group] (lines 10-22, 43-54).
    - [Calendar]: [datetime.fromtimestamp], [strftime] and [str(datetime)]
      after CPython's [_ord2ymd]/[_ymd2ord], for the year/month folders
      (lines 321-323), the backup directory name (line 62) and the log
      timestamps (line 59).
    - [FileSystem]: the disk as a [gmap] from paths to entries (regular
      file with contents, size, ctime and mtime, or directory) with
      [os.listdir], [os.path.exists]/[isfile]/[getsize]/[getctime],
      [os.makedirs(exist_ok=True)], POSIX [os.rename], [shutil.move] and
      [shutil.copy2], each returning the new map or the exception it
      raises; the well-formedness [wf] (root is a directory, every parent
      is a directory).
    - [Naming]: the duplicate-name [while] loops (lines 328-334 and
      389-393) as [probe]/[free_path], and the interface [FreshNaming]
      (the path exists, is free, is a child of the directory) through
      which the organizer and the undo stage use it.
    - [World]: the process state ([World]: disk, users, undo slot, logs,
      clock, UTC offset, working directory) and the handlers' monad
      [M A = World -> World * (exn + A)], in which an exception keeps the
      changes made before it; the frame combinator [keeps] and its tactic
      [solve_keeps]; [raises_only] and [solve_raises] for the exceptions
      a handler may raise ([py_exn]: any but the fuel marker).
    - [ActivityLog]: [create_log], [load_log] (lines 56-59, 438-455).
    - [Backup]: [backup_folder] (lines 61-69).
    - [Organizer]: [organize_files_thread] (lines 295-353), its loop body
      [organize_item], the loop [organize_loop] and [save_undo].
    - [Undo]: [undo_operation] (lines 368-403) with [restore_item] and
      [restore_loop].
    - [Session]: [ensure_data_dirs], [load_users], [save_users], [login],
      [register], [start_organization], [show_organization_results],
      [logout] and the buttons of each screen, as a function [step] on an
      application state (world, [current_user], screen) and the
      [reachable] states from [init].
    - [JsonStore]: the text of [users.json] and [undo_log.json]:
      [json.dumps] and [json.loads] (a parser on fuel) over null,
      strings, arrays and objects, and the two files' layouts.
    - [Worker]: the worker thread [start_organization] starts, as a
      small-step machine ([phase], [worker_step]: the skip-entry read,
      the backup, the listing, one loop iteration, the undo write) whose
      turns interleave with GUI events in the system [Sys]/[sys_step];
      each turn reads [self.current_user] and the screen when it runs.
    - [UndoSlot]: the spec's abstract one-entry undo store (section 3) as
      a labelled machine [slot_step], and its refinement by the steps of
      the interleaved system of [Worker].
    - [Screens]: the Tk screens ([show_login_screen], [show_main_menu],
      [show_organize_screen], [show_log_screen], [browse_folder]) as the
      contents of their entries and their buttons, and the application at
      the level of the widgets ([Tk], [tk_step]): typing, Browse answers,
      clicks, [<Return>] and worker turns that read the skip entry, with
      the progress text and bar the thread's callbacks update.
    - [Gui]: src/gui.py's [login_gui] and [select_folder].

    ** What the theorems show

    - Organize ([Organizer]): a successful run moves exactly the regular,
      non-skipped files of the folder, each to a distinct destination
      that was free, holding the original file, in the directory
      [folder/category/str(year)/MM/size_group] its extension, ctime and
      size determine ([category_folder_of]), touches nothing else but new
      directories, counts
      the moves per category and records them in the undo slot
      ([organize_files_thread_moves], from the loop invariant [moved_inv]
      of Section [MovedInv]); a run that raises keeps the earlier moves
      and leaves the undo slot as it was
      ([organize_exception_keeps_moves]).  Three defects hold for every
      input: a regular file named like a category folder makes every file
      of that category raise [NotADirectoryError]
      ([organize_category_name_clash]); a file whose name is not valid
      UTF-8 is never organized cleanly: it is moved, then its log line
      raises ([organize_undecodable_name]); a stray comma in the skip
      entry skips every file without an extension
      ([skip_list_trailing_comma]).  Concrete runs reproduce the spec's
      scenarios and these defects on whole runs.  The summary is a count
      map over [CATEGORIES] with positive counts, each the number of
      files moved in that category ([organize_summary_typed]).
    - Calendar ([Calendar]): [fromtimestamp] returns a valid date and
      time denoting exactly the timestamp ([fromtimestamp_correct]), from
      the 400-year periodicity and one cycle checked by evaluation (a
      fact of the library model the year/month folders rest on).
    - Naming ([Naming]): the loop terminates with a free path
      ([free_path_total]) and picks the first free name in the order
      [name], [base_1], [base_2], ... ([free_path_first_free]); the
      fuel-bounded loop equals the reference policy "first absent path of
      the candidate list" ([free_path_equiv]).
    - Backup ([Backup]): the backup directory holds a copy of every
      top-level regular file with its contents and mtime
      ([backup_folder_copies]).
    - Undo ([Undo]): undo changes nothing without an entry of the caller
      and a confirmation ([undo_operation_guarded]); organizing then
      undoing brings every moved file back with its contents
      ([organize_then_undo]); concrete runs show that names are not
      restored and that the slot is shared between users.
    - Session ([Session]): in every reachable state a user is logged in
      exactly off the login screen and is registered
      ([reachable_session_inv], by rule induction on [reachable]); only a
      login with the stored password changes the user
      ([login_requires_password]); no step removes a user, changes a
      password or rewrites a log ([step_keeps_accounts_and_logs]); the
      logs stay valid UTF-8, so [load_log] never shows its read error
      ([reachable_logs_decode], from [step_world_cases], which splits a
      step into no change, a registration, an undo or an organize run);
      from
      every reachable state a registered user is logged in within three
      events ([registered_user_can_login]).
    - Stores ([JsonStore]): [json.loads] reads back what [json.dumps]
      writes ([json_loads_dumps]; induction on the value with the nested
      lists, the parser's fuel bounded by the text's length); so
      [users.json] reads back as the same map of passwords
      ([users_store_roundtrip]) and [undo_log.json] as the same owner and
      records ([undo_store_roundtrip]): the [World] may keep both files
      decoded.
    - Worker thread ([Worker]): every turn of a thread ends it or lowers
      its phase in a well-founded order, whatever the GUI did meanwhile,
      and no turn raises the fuel marker, so the thread ends by finishing
      or by a Python exception ([worker_terminates]); scheduled alone
      right after Start, the thread computes exactly the sequential
      [start_organization] ([start_organization_refines_worker]); the
      session invariant and the well-formed disk hold in every state of
      every interleaving ([sys_reachable_inv]); concrete interleavings
      show that a logout during a run hands the undo entry to the next
      user or to [null], that the summary is lost once the organize
      screen is left, and that of two runs on one folder only the last
      one's moves can be undone.  A run that raises shows no message at
      all ([start_organization_failure_silent]): the error callback reads
      the exception variable Python has already deleted.
    - Undo slot ([UndoSlot]): under every interleaving of GUI events and
      thread turns, each step moves [undo_log.json] along a transition of
      the abstract machine labelled with the user logged in at that step
      (kept; overwritten with a non-empty entry under that user, [None]
      included; deleted by its owner) ([sys_run_refine_undo_slot]); so the
      entry of every reachable state lists records and belongs to a
      registered user or to nobody, and an entry of nobody is never
      deleted, only overwritten ([sys_reachable_slot_owned]).
    - Screens ([Screens]): every widget-level state is a reachable state
      of the payload-level system and shows its screen's widgets
      ([tk_refines_sys]), so the session invariant and the well-formed
      disk hold there too ([tk_reachable_inv]); the worker reads the skip
      entry at its first turn, not at the click
      ([worker_reads_skip_entry_late]); the progress bar runs only while
      an organize thread is alive ([tk_bar_has_thread]), and every
      thread's end stops it, even while another thread still runs
      ([tk_first_thread_stops_shared_bar]).
    - gui.py ([Gui]): [select_folder] raises [AttributeError] after the
      backup, so no session of the window ([gui_run]) removes an entry of
      the disk or shows the success message
      ([gui_session_never_organizes]).
    - Classifier: declared categories, ["Others"], the three size ranges
      and their monotonicity.

    ** Bounds and fuel

    The Python [while] loops that pick a free name are the only unbounded
    loops.  [probe] runs them with fuel [probe_fuel fs = 1 + size fs]: the
    candidates are pairwise distinct paths, so among [2 + size fs] of them
    one is not an entry of the disk ([nodup_escapes]), and the loop never
    runs out ([free_path_total]).  The calendar check [date_ok_cycle]
    evaluates one 400-year cycle (146097 days), which with periodicity
    covers every day number from 1.  Every other loop runs over a list
    ([os.listdir], the undo records) and is structural.  Sizes, times and
    offsets are unbounded integers [Z], as Python's [int].

    ** Not modelled

    The layout of the Tk widgets (frames, labels, fonts, colours; message boxes are [message] values, the
    answers of dialogs are arguments); in [Session] the
    organize run is one step, and in [Worker] a callback posted with
    [root.after] runs with the turn that posts it, a backup or a loop
    iteration is atomic (the progress texts and the bar are modelled in
    [Screens] only);
    organizing [DATA_DIR] or [DATA_DIR/logs] themselves (the stores are
    kept outside the file map; see [World]);
    I/O errors when reading [users.json] or [undo_log.json], and files
    the code does not write (JSON numbers, booleans, escapes above
    [\u00ff], a hand-edited file missing a key); symbolic links, permissions, several volumes;
    daylight-saving changes of the UTC offset; the update of ctime by a
    rename (a renamed file keeps its ctime); user names containing a
    slash (a name is one path component).  Strings are byte strings, so
    [str.lower] and [str.isspace] are their ASCII parts; a file name
    reaches Python through the surrogate escapes of [os.listdir], and
    writing it to a UTF-8 file fails exactly when the bytes are not valid
    UTF-8 ([PyLib.utf8_valid]); reading a file decodes it with CPython's
    error positions and reasons ([PyLib.utf8_err]).  [str(datetime.now())]
    is modelled at whole seconds (the clock is an integer), so the
    microseconds Python appends are not shown. *)

From stdpp Require Export base list gmap strings pretty.
From Stdlib Require Export ZArith Lia.

Declare Scope fo_scope.
Delimit Scope fo_scope with fo.


Create HintDb fo discriminated.
Create Rewrite HintDb fo_rw.

(** ** Tactics *)

(** Close a decidable goal on concrete data by evaluation. *)
Ltac vm_decide := apply (bool_decide_unpack _); vm_compute; exact I.

(** ** Strings *)

(** [String.append] is [simpl never] under stdpp: its two equations. *)
Lemma string_app_nil_l (b : string) : "" +:+ b = b.
Proof. reflexivity. Qed.

Lemma string_app_cons x (a b : string) : String x a +:+ b = String x (a +:+ b).
Proof. reflexivity. Qed.

#[export] Hint Rewrite string_app_nil_l string_app_cons : fo_rw.

Lemma string_app_assoc (a b c : string) : (a +:+ b) +:+ c = a +:+ (b +:+ c).
Proof. induction a as [|x a IH]; autorewrite with fo_rw; [done | by rewrite IH]. Qed.

Lemma string_app_nil_r (a : string) : a +:+ "" = a.
Proof. induction a as [|x a IH]; autorewrite with fo_rw; [done | by rewrite IH]. Qed.

Lemma string_length_app (a b : string) :
  String.length (a +:+ b) = (String.length a + String.length b)%nat.
Proof. induction a as [|x a IH]; autorewrite with fo_rw; simpl; [done | by rewrite IH]. Qed.

(** Cancelling a common suffix. *)
Lemma string_app_inv_tail (s a b : string) : a +:+ s = b +:+ s -> a = b.
Proof.
  revert b. induction a as [|x a IH]; intros [|y b] H; autorewrite with fo_rw in H; try done.
  - apply (f_equal String.length) in H. simpl in H.
    rewrite string_length_app in H. lia.
  - apply (f_equal String.length) in H. simpl in H.
    rewrite string_length_app in H. lia.
  - injection H as -> H. f_equal. by apply IH.
Qed.

#[export] Hint Rewrite string_app_assoc string_app_nil_r : fo_rw.

(** ** Python dict literals

    A dict literal keeps its insertion order; [assoc k d] is [d.get(k)]. *)
Fixpoint assoc {A} (k : string) (d : list (string * A)) : option A :=
  match d with
  | [] => None
  | (k', v) :: d' => if decide (k = k') then Some v else assoc k d'
  end.

(** ** Lists and finite sets *)

(** Pigeonhole: a duplicate-free list longer than a finite set has an element
    outside the set.  This is what makes every "search for a free name" loop
    of the program terminate. *)
Lemma nodup_escapes `{Countable A} (X : gset A) (l : list A) :
  NoDup l -> size X < length l -> exists x, x ∈ l /\ x ∉ X.
Proof.
  intros Hnd Hlt.
  destruct (decide (Forall (fun x => x ∈ X) l)) as [Hall | Hnot].
  - exfalso.
    assert (length l <= length (elements X))%nat as Hle.
    { apply NoDup_incl_length; [by apply NoDup_ListNoDup |].
      intros x Hx. apply list_elem_of_In, elem_of_elements.
      rewrite Forall_forall in Hall. apply Hall. by apply list_elem_of_In. }
    unfold size, set_size in Hlt. simpl in Hlt. lia.
  - pose proof (not_Forall_Exists (fun x => x ∈ X) l Hnot) as Hex.
    apply List.Exists_exists in Hex as (x & Hx & Hn).
    exists x. split; [by apply list_elem_of_In | exact Hn].
Qed.

Lemma fmap_nodup_inj {A B} (f : A -> B) (l : list A) :
  Inj (=) (=) f -> NoDup l -> NoDup (f <$> l).
Proof. intros Hinj Hnd. by apply NoDup_fmap_2. Qed.

#[export] Hint Resolve NoDup_nil_2 : fo.

(** [omap] keeps the keys of an association list distinct when it sends
    distinct keys to distinct keys. *)
Lemma NoDup_fst_omap {K A B} (g : K * A -> option (K * B)) (l : list (K * A)) :
  NoDup l.*1 ->
  (forall p1 p2 q1 q2, p1 ∈ l -> p2 ∈ l -> g p1 = Some q1 -> g p2 = Some q2 -> q1.1 = q2.1 -> p1.1 = p2.1) ->
  NoDup (omap g l).*1.
Proof.
  induction l as [|x l IH]; intros Hnd Hinj; simpl; [constructor |].
  apply NoDup_cons in Hnd as [Hx Hnd].
  assert (IH' : NoDup (omap g l).*1) by (apply IH; [done | intros; eapply Hinj; eauto; by right]).
  destruct (g x) as [q|] eqn:Hg; [| done]. simpl. constructor; [| done].
  intros (q' & Hq' & Hin)%list_elem_of_fmap.
  apply list_elem_of_omap in Hin as (y & Hy & Hgy).
  apply Hx. rewrite (Hinj x y q q'); [| by left | by right | done | done | done].
  apply list_elem_of_fmap. by exists y.
Qed.
