(* ===== verification/PyLib.v ===== *)
(** * The Python library functions the organizer calls

    The code calls [str.lower], [str.strip], [str.split], [os.path.splitext],
    [os.path.join], [os.path.basename], [str] on integers and the [:02]
    format.  This file writes each out as CPython computes it on byte
    strings (ASCII for the case and white-space tables), with the lemmas
    the components use: the [splitext] round trip and the shape of the
    extension, idempotence of [lower], and the injectivity of the
    suffixed names the collision loops build. *)

From S2P Require Import Prelude.
From Stdlib Require Import Ascii.

(** ** Characters and strings *)

(** [str.lower] on one character: [A]..[Z] become [a]..[z]. *)
Definition ascii_lower (c : ascii) : ascii :=
  let n := nat_of_ascii c in
  if (65 <=? n)%nat && (n <=? 90)%nat then ascii_of_nat (n + 32) else c.

Fixpoint lower (s : string) : string :=
  match s with
  | EmptyString => EmptyString
  | String c s' => String (ascii_lower c) (lower s')
  end.

(** [str.isspace] on one byte: [\t \n \v \f \r], [\x1c]..[\x1f] and space. *)
Definition is_py_space (c : ascii) : bool :=
  let n := nat_of_ascii c in
  ((9 <=? n)%nat && (n <=? 13)%nat) || ((28 <=? n)%nat && (n <=? 32)%nat).

Fixpoint lstrip (s : string) : string :=
  match s with
  | EmptyString => EmptyString
  | String c s' => if is_py_space c then lstrip s' else s
  end.

Definition rstrip (s : string) : string := String.rev (lstrip (String.rev s)).

(** [str.strip()] with no argument. *)
Definition strip (s : string) : string := rstrip (lstrip s).

(** [s.split(sep)] for a one-character separator: the pieces between
    separators, empty pieces included, so [""] splits to [[""]]. *)
Fixpoint split_on (sep : ascii) (s : string) : list string :=
  match s with
  | EmptyString => [EmptyString]
  | String c s' =>
      if decide (c = sep) then EmptyString :: split_on sep s'
      else match split_on sep s' with
           | x :: xs => String c x :: xs
           | [] => [String c EmptyString]
           end
  end.

(** ** [os.path.splitext] (posixpath, via genericpath._splitext) *)

(** [p.rfind(c)] on a list of characters. *)
Fixpoint rfind (c : ascii) (l : list ascii) : option nat :=
  match l with
  | [] => None
  | x :: l' =>
      match rfind c l' with
      | Some i => Some (S i)
      | None => if decide (x = c) then Some 0 else None
      end
  end.

(** [_splitext]: split at the last dot when it lies after the last slash
    and some character between the slash and that dot is not a dot;
    otherwise the extension is empty (so [".bashrc"] has none). *)
Definition splitext_chars (l : list ascii) : list ascii * list ascii :=
  let start := match rfind "/" l with Some j => S j | None => 0%nat end in
  match rfind "." l with
  | Some i =>
      if (start <=? i)%nat && existsb (fun c => negb (bool_decide (c = "."%char)))
                                     (take (i - start) (drop start l))
      then (take i l, drop i l)
      else (l, [])
  | None => (l, [])
  end.

Definition splitext (p : string) : string * string :=
  let '(b, e) := splitext_chars (String.list_ascii_of_string p) in
  (String.string_of_list_ascii b, String.string_of_list_ascii e).

(** ** Integers as text *)

(** [str(n)] for an integer. *)
Definition py_str_Z (n : Z) : string := pretty n.
Definition py_str_nat (n : nat) : string := pretty n.

(** [f"{n:02}"]: at least two digits, zero-padded. *)
Definition fmt02 (n : Z) : string :=
  if (0 <=? n)%Z && (n <? 10)%Z then "0" +:+ pretty n else pretty n.

(** [f"{n:04}"], as [%Y] renders a year. *)
Definition fmt04 (n : Z) : string :=
  if (0 <=? n)%Z && (n <? 10)%Z then "000" +:+ pretty n
  else if (0 <=? n)%Z && (n <? 100)%Z then "00" +:+ pretty n
  else if (0 <=? n)%Z && (n <? 1000)%Z then "0" +:+ pretty n
  else pretty n.

(** ** Paths

    A path is the list of its components from the root, so
    [os.path.join(p, x)] for a component [x] without a slash is [p ++ [x]]
    and [os.path.basename] is the last component. *)
Abbreviation Path := (list string).

Definition join (p : Path) (x : string) : Path := p ++ [x].

Definition basename (p : Path) : string := default "" (last p).

(** The name the collision loops build: [f"{base}_{counter}{ext}"]. *)
Definition suffixed (base : string) (counter : nat) (ext : string) : string :=
  base +:+ "_" +:+ py_str_nat counter +:+ ext.

(** ** UTF-8

    A file name is bytes; [os.listdir] decodes it with [surrogateescape],
    so a name that is not valid UTF-8 gets lone surrogates, and writing it
    to a file opened with [encoding="utf-8"] raises [UnicodeEncodeError].
    [utf8_valid] is the strict decoder's acceptance test (no overlong
    forms, no encoded surrogates, nothing above U+10FFFF). *)

Definition byte_in (c : ascii) (lo hi : nat) : bool :=
  (lo <=? nat_of_ascii c)%nat && (nat_of_ascii c <=? hi)%nat.

Fixpoint utf8_valid (s : string) : bool :=
  match s with
  | EmptyString => true
  | String c s1 =>
      let n := nat_of_ascii c in
      if (n <? 128)%nat then utf8_valid s1
      else if (194 <=? n)%nat && (n <=? 223)%nat then
        match s1 with String c2 s2 => byte_in c2 128 191 && utf8_valid s2 | _ => false end
      else if (224 <=? n)%nat && (n <=? 239)%nat then
        match s1 with
        | String c2 (String c3 s3) =>
            byte_in c2 (if (n =? 224)%nat then 160 else 128) (if (n =? 237)%nat then 159 else 191) &&
            byte_in c3 128 191 && utf8_valid s3
        | _ => false
        end
      else if (240 <=? n)%nat && (n <=? 244)%nat then
        match s1 with
        | String c2 (String c3 (String c4 s4)) =>
            byte_in c2 (if (n =? 240)%nat then 144 else 128) (if (n =? 244)%nat then 143 else 191) &&
            byte_in c3 128 191 && byte_in c4 128 191 && utf8_valid s4
        | _ => false
        end
      else false
  end.

(** The first error of [bytes.decode("utf-8")] at offset [pos]: the
    range [start, end_) of bytes it reports and its reason, as CPython's
    decoder finds it (a bad start byte, or a lead byte followed by fewer
    continuation bytes than it announces, the second one checked against
    the narrowed ranges of [E0], [ED], [F0] and [F4]). *)
Fixpoint utf8_err (pos : nat) (s : string) : option (nat * nat * string) :=
  match s with
  | EmptyString => None
  | String c s1 =>
      let n := nat_of_ascii c in
      let cont_err k r := match r with
                          | EmptyString => Some (pos, pos + k, "unexpected end of data")
                          | _ => Some (pos, pos + k, "invalid continuation byte")
                          end in
      if (n <? 128)%nat then utf8_err (S pos) s1
      else if (194 <=? n)%nat && (n <=? 223)%nat then
        match s1 with
        | String c2 s2 => if byte_in c2 128 191 then utf8_err (pos + 2) s2 else cont_err 1 s1
        | EmptyString => cont_err 1 s1
        end
      else if (224 <=? n)%nat && (n <=? 239)%nat then
        match s1 with
        | String c2 s2 =>
            if byte_in c2 (if (n =? 224)%nat then 160 else 128) (if (n =? 237)%nat then 159 else 191) then
              match s2 with
              | String c3 s3 => if byte_in c3 128 191 then utf8_err (pos + 3) s3 else cont_err 2 s2
              | EmptyString => cont_err 2 s2
              end
            else cont_err 1 s1
        | EmptyString => cont_err 1 s1
        end
      else if (240 <=? n)%nat && (n <=? 244)%nat then
        match s1 with
        | String c2 s2 =>
            if byte_in c2 (if (n =? 240)%nat then 144 else 128) (if (n =? 244)%nat then 143 else 191) then
              match s2 with
              | String c3 s3 =>
                  if byte_in c3 128 191 then
                    match s3 with
                    | String c4 s4 => if byte_in c4 128 191 then utf8_err (pos + 4) s4 else cont_err 3 s3
                    | EmptyString => cont_err 3 s3
                    end
                  else cont_err 2 s2
              | EmptyString => cont_err 2 s2
              end
            else cont_err 1 s1
        | EmptyString => cont_err 1 s1
        end
      else Some (pos, S pos, "invalid start byte")
  end.

(** Two lowercase hexadecimal digits, as [%02x]. *)
Definition hex2 (n : nat) : string :=
  let d k := Ascii.ascii_of_nat (if (k <? 10)%nat then 48 + k else 87 + k) in
  String (d (n / 16)) (String (d (n mod 16)) EmptyString).

(** [str(e)] of the [UnicodeDecodeError] for the bytes [s] and the
    error [(start, end_, reason)]: one byte is shown by its value, more by
    their range of positions. *)
Definition decode_error_str (s : string) (e : nat * nat * string) : string :=
  let '(start, end_, reason) := e in
  if (end_ =? S start)%nat then
    "'utf-8' codec can't decode byte 0x" +:+
      hex2 (default 0 (nat_of_ascii <$> String.get start s)) +:+
      " in position " +:+ py_str_nat start +:+ ": " +:+ reason
  else
    "'utf-8' codec can't decode bytes in position " +:+ py_str_nat start +:+ "-" +:+
      py_str_nat (end_ - 1) +:+ ": " +:+ reason.

(** Reading a file in text mode ([newline=None]): ["\r\n"] and a lone
    ["\r"] become ["\n"]. *)
Fixpoint universal_newlines (s : string) : string :=
  match s with
  | EmptyString => EmptyString
  | String c s1 =>
      if (nat_of_ascii c =? 13)%nat then
        match s1 with
        | String d s2 =>
            if (nat_of_ascii d =? 10)%nat then String d (universal_newlines s2)
            else String (Ascii.ascii_of_nat 10) (universal_newlines s1)
        | EmptyString => String (Ascii.ascii_of_nat 10) EmptyString
        end
      else String c (universal_newlines s1)
  end.

(** ** Lemmas *)

Lemma string_of_list_ascii_app (a b : list ascii) :
  String.string_of_list_ascii (a ++ b) = String.string_of_list_ascii a +:+ String.string_of_list_ascii b.
Proof. induction a as [|x a IH]; simpl; [done | by rewrite IH]. Qed.

Lemma splitext_chars_app (l : list ascii) :
  (splitext_chars l).1 ++ (splitext_chars l).2 = l.
Proof.
  unfold splitext_chars. repeat case_match; simpl; try apply app_nil_r; apply take_drop.
Qed.

(** Round trip: [base + ext] gives the name back. *)
Lemma splitext_app (p : string) : (splitext p).1 +:+ (splitext p).2 = p.
Proof.
  unfold splitext. pose proof (splitext_chars_app (String.list_ascii_of_string p)) as H.
  destruct (splitext_chars _) as [b e] eqn:E. simpl in *.
  by rewrite <- string_of_list_ascii_app, H, String.string_of_list_ascii_of_string.
Qed.

Lemma rfind_Some c l i : rfind c l = Some i -> l !! i = Some c /\ c ∉ drop (S i) l.
Proof.
  revert i. induction l as [|x l IH]; intros i H; simpl in H; [done |].
  destruct (rfind c l) as [j|] eqn:Hj.
  - injection H as <-. destruct (IH j eq_refl) as [H1 H2]. simpl. done.
  - case_decide; simplify_eq. simpl. split; [done |].
    intros Hin. destruct (list_elem_of_lookup_1 _ _ Hin) as [k Hk].
    clear Hin IH. revert k Hk Hj. induction l as [|y l IH]; intros k Hk Hj; [done |].
    simpl in Hj. destruct (rfind c l); [done |]. case_decide; [done |].
    destruct k; simpl in Hk; [by simplify_eq | by eapply IH].
Qed.

(** The extension is empty or starts with the last dot of the name. *)
Lemma splitext_chars_ext (l : list ascii) :
  (splitext_chars l).2 = [] \/
  exists rest, (splitext_chars l).2 = "."%char :: rest /\ "."%char ∉ rest.
Proof.
  unfold splitext_chars. destruct (rfind "." l) as [i|] eqn:Hi; [| by left].
  case_match; [| by left]. right.
  destruct (rfind_Some _ _ _ Hi) as [Hl Hd].
  exists (drop (S i) l). split; [| done]. simpl.
  by erewrite drop_S by done.
Qed.

Lemma ascii_lower_idem c : ascii_lower (ascii_lower c) = ascii_lower c.
Proof. destruct c as [[] [] [] [] [] [] [] []]; reflexivity. Qed.

Lemma lower_idem s : lower (lower s) = lower s.
Proof. induction s as [|c s IH]; simpl; [done | by rewrite ascii_lower_idem, IH]. Qed.

Lemma lower_app a b : lower (a +:+ b) = lower a +:+ lower b.
Proof. induction a as [|c a IH]; simpl; [done | by rewrite IH]. Qed.

(** Distinct counters give distinct suffixed names. *)
Lemma suffixed_inj base ext n m : suffixed base n ext = suffixed base m ext -> n = m.
Proof.
  unfold suffixed. intros H.
  apply (inj (String.append base)) in H. apply (inj (String.append "_")) in H.
  apply string_app_inv_tail in H. by apply (inj py_str_nat) in H.
Qed.

(** A suffixed name is never the name it was built from. *)
Lemma suffixed_ne base n ext : suffixed base n ext <> base +:+ ext.
Proof.
  unfold suffixed. intros H. apply (f_equal String.length) in H.
  rewrite !string_length_app in H. simpl in H. lia.
Qed.

Lemma length_join (p : Path) x : length (join p x) = S (length p).
Proof. unfold join. rewrite length_app. simpl. lia. Qed.

Lemma basename_join p x : basename (join p x) = x.
Proof. unfold basename, join. by rewrite last_snoc. Qed.

#[export] Hint Rewrite basename_join lower_idem : fo_rw.

(** ** What [strip] leaves *)

(** Every character is white space. *)
Fixpoint all_space (s : string) : bool :=
  match s with
  | EmptyString => true
  | String c s' => is_py_space c && all_space s'
  end.

Lemma all_space_app a b : all_space (a +:+ b) = all_space a && all_space b.
Proof. induction a as [|c a IH]; [done |]. rewrite string_app_cons. simpl. by rewrite IH, andb_assoc. Qed.

Lemma all_space_rev_app a b : all_space (String.rev_app a b) = all_space a && all_space b.
Proof.
  revert b. induction a as [|c a IH]; intros b; [done |]. simpl. rewrite IH. simpl.
  by destruct (is_py_space c), (all_space a), (all_space b).
Qed.

Lemma rev_app_empty a b : String.rev_app a b = "" -> a = "" /\ b = "".
Proof. revert b. induction a as [|c a IH]; intros b H; [done |]. simpl in H. by apply IH in H as [_ ?]. Qed.

Lemma all_space_lstrip s : all_space (lstrip s) = all_space s.
Proof. induction s as [|c s IH]; [done |]. simpl. destruct (is_py_space c) eqn:E; simpl; by rewrite ?E. Qed.

Lemma lstrip_empty s : lstrip s = "" -> all_space s = true.
Proof. intros H. by rewrite <- all_space_lstrip, H. Qed.

(** [s.strip()] is empty only for a string of white space. *)
Lemma strip_empty s : strip s = "" -> all_space s = true.
Proof.
  unfold strip, rstrip, String.rev. intros H. apply rev_app_empty in H as [H _].
  apply lstrip_empty in H. rewrite all_space_rev_app, andb_true_r in H.
  by rewrite <- all_space_lstrip.
Qed.

(** [str.split] never returns an empty list. *)
Lemma split_on_cons sep s : exists x xs, split_on sep s = x :: xs.
Proof.
  induction s as [|c s [x [xs IH]]]; simpl; [by eexists _, _ |].
  case_decide; [by eexists _, _ | rewrite IH; by eexists _, _].
Qed.

(** Splitting at a separator: [(a + sep + b).split(sep) == a.split(sep) + b.split(sep)]. *)
Lemma split_on_app_sep sep a b :
  split_on sep (a +:+ String sep b) = split_on sep a ++ split_on sep b.
Proof.
  induction a as [|c a IH]; simpl; [by rewrite decide_True |].
  case_decide; [by rewrite IH |]. rewrite IH.
  destruct (split_on_cons sep a) as (x & xs & ->). done.
Qed.

(** ** What [utf8_valid] accepts *)

Lemma byte_in_ascii c lo hi : (nat_of_ascii c < 128)%nat -> (128 <= lo)%nat -> byte_in c lo hi = false.
Proof. intros Hc Hlo. unfold byte_in. apply andb_false_intro1. apply Nat.leb_gt. lia. Qed.

Ltac utf8_low c :=
  rewrite ?(byte_in_ascii c) by (try lia; repeat case_match; lia); simpl; rewrite ?andb_false_r; try done.

(** An ASCII byte is never part of a multi-byte sequence, so a string
    splits at it into two valid halves or is invalid. *)
Lemma utf8_valid_app_ascii a c b : (nat_of_ascii c < 128)%nat ->
  utf8_valid (a +:+ String c b) = utf8_valid a && utf8_valid b.
Proof.
  intros Hc. remember (String.length a) as n eqn:Hn. revert a Hn.
  induction n as [n IH] using lt_wf_ind. intros [|c1 a1] Hn; simpl.
  { by rewrite (proj2 (Nat.ltb_lt _ _) Hc). }
  simpl in Hn.
  destruct (nat_of_ascii c1 <? 128)%nat; [apply (IH (String.length a1)); [lia | done] |].
  destruct (_ && _).
  { destruct a1 as [|c2 a2]; simpl; [utf8_low c |].
    rewrite (IH (String.length a2)); [apply andb_assoc | simpl in Hn; lia | done]. }
  destruct (_ && _).
  { destruct a1 as [|c2 [|c3 a3]]; simpl; [destruct b; utf8_low c | utf8_low c |].
    rewrite (IH (String.length a3)); [by rewrite !andb_assoc | simpl in Hn; lia | done]. }
  destruct (_ && _); [| done].
  destruct a1 as [|c2 [|c3 [|c4 a4]]]; simpl;
    [destruct b as [|? [|? ?]]; utf8_low c | destruct b; utf8_low c | utf8_low c |].
  rewrite (IH (String.length a4)); [by rewrite !andb_assoc | simpl in Hn; lia | done].
Qed.

Lemma utf8_valid_ascii_cons c s : (nat_of_ascii c < 128)%nat -> utf8_valid (String c s) = utf8_valid s.
Proof. intros Hc. simpl. by rewrite (proj2 (Nat.ltb_lt _ _) Hc). Qed.

Lemma utf8_valid_pretty_N_go x s y : utf8_valid (pretty_N_go x s +:+ y) = utf8_valid (s +:+ y).
Proof.
  revert s. induction (N.lt_wf_0 x) as [x _ IH]; intros s.
  destruct (decide (x = 0)%N) as [-> | Hx]; [by rewrite pretty_N_go_0 |].
  rewrite pretty_N_go_step by lia. rewrite IH by (apply N.div_lt; lia).
  rewrite string_app_cons, utf8_valid_ascii_cons; [done |].
  unfold pretty_N_char. repeat case_match; vm_compute; lia.
Qed.
(** The digits of [str(counter)] are ASCII. *)
Lemma utf8_valid_py_str_nat n y : utf8_valid (py_str_nat n +:+ y) = utf8_valid y.
Proof.
  unfold py_str_nat. cbv [pretty pretty_nat pretty_N]. case_decide; [done |].
  by rewrite utf8_valid_pretty_N_go.
Qed.
(** [f"{base}_{counter}{ext}"] of a valid name is valid. *)
Lemma utf8_valid_suffixed name k :
  utf8_valid name = true -> utf8_valid (suffixed (splitext name).1 k (splitext name).2) = true.
Proof.
  rewrite <- (splitext_app name) at 1. intros Hn. unfold suffixed.
  assert (Hsplit : utf8_valid (splitext name).1 = true /\ utf8_valid (splitext name).2 = true).
  { unfold splitext in *. pose proof (splitext_chars_ext (String.list_ascii_of_string name)) as Hx.
    destruct (splitext_chars _) as [b e]. cbn [fst snd] in *.
    destruct Hx as [-> | (r & -> & _)]; cbn [String.string_of_list_ascii] in *.
    - by rewrite string_app_nil_r in Hn.
    - rewrite utf8_valid_app_ascii in Hn by (vm_compute; lia). by apply andb_true_iff in Hn. }
  destruct Hsplit as [Hb He].
  change ("_" +:+ ?x) with (String "_" x). rewrite utf8_valid_app_ascii by (vm_compute; lia).
  by rewrite Hb, utf8_valid_py_str_nat, He.
Qed.

(** A valid prefix ends on a character boundary. *)
Lemma utf8_valid_app_l a b : utf8_valid a = true -> utf8_valid (a +:+ b) = utf8_valid b.
Proof.
  remember (String.length a) as n eqn:Hn. revert a Hn.
  induction n as [n IH] using lt_wf_ind. intros [|c1 a1] Hn Ha; [done |].
  rewrite string_app_cons. cbn [utf8_valid] in Ha |- *. cbn [String.length] in Hn.
  destruct (nat_of_ascii c1 <? 128)%nat; [apply (IH (String.length a1)); [lia | done | done] |].
  destruct (_ && _).
  { destruct a1 as [|c2 a2]; [done |]. rewrite string_app_cons.
    apply andb_true_iff in Ha as [-> Ha]. cbn [String.length] in Hn.
    apply (IH (String.length a2)); [lia | done | done]. }
  destruct (_ && _).
  { destruct a1 as [|c2 [|c3 a3]]; [done | done |]. rewrite !string_app_cons.
    apply andb_true_iff in Ha as [-> Ha3]. cbn [String.length] in Hn.
    apply (IH (String.length a3)); [lia | done | done]. }
  destruct (_ && _); [| done].
  destruct a1 as [|c2 [|c3 [|c4 a4]]]; [done | done | done |]. rewrite !string_app_cons.
  apply andb_true_iff in Ha as [-> Ha4]. cbn [String.length] in Hn.
  apply (IH (String.length a4)); [lia | done | done].
Qed.

Lemma utf8_valid_pretty_N (x : N) y : utf8_valid (pretty x +:+ y) = utf8_valid y.
Proof. unfold pretty, pretty_N. case_decide; [done |]. by rewrite utf8_valid_pretty_N_go. Qed.

Lemma utf8_valid_pretty_Z (z : Z) y : utf8_valid (pretty z +:+ y) = utf8_valid y.
Proof.
  destruct z as [|p|p]; [done | apply utf8_valid_pretty_N |].
  cbv [pretty pretty_Z]. rewrite string_app_assoc. cbn [String.append]. apply utf8_valid_pretty_N.
Qed.

Lemma utf8_valid_fmt02 n y : utf8_valid (fmt02 n +:+ y) = utf8_valid y.
Proof. unfold fmt02. case_match; [rewrite string_app_assoc; simpl |]; apply utf8_valid_pretty_Z. Qed.

Lemma utf8_valid_fmt04 n y : utf8_valid (fmt04 n +:+ y) = utf8_valid y.
Proof. unfold fmt04. repeat case_match; try rewrite string_app_assoc; simpl; apply utf8_valid_pretty_Z. Qed.

Local Ltac utf8_rec IH := eapply IH; [| reflexivity]; cbn [String.length] in *; lia.
Local Ltac utf8_no := simpl; split; intros Hx; discriminate Hx.

(** The decoder reports no error exactly on the strings [utf8_valid]
    accepts. *)
Lemma utf8_err_valid pos s : utf8_err pos s = None <-> utf8_valid s = true.
Proof.
  remember (String.length s) as n eqn:Hn. revert pos s Hn.
  induction n as [n IH] using lt_wf_ind. intros pos [|c s1] Hn; [done |].
  cbn [utf8_valid utf8_err]. cbn [String.length] in Hn.
  destruct (nat_of_ascii c <? 128)%nat; [utf8_rec IH |].
  destruct ((194 <=? nat_of_ascii c)%nat && (nat_of_ascii c <=? 223)%nat).
  { destruct s1 as [|c2 s2]; [utf8_no |].
    destruct (byte_in c2 128 191); cbn [andb]; [utf8_rec IH | utf8_no]. }
  destruct ((224 <=? nat_of_ascii c)%nat && (nat_of_ascii c <=? 239)%nat).
  { destruct s1 as [|c2 [|c3 s3]]; [utf8_no | destruct (byte_in c2 _ _); utf8_no |].
    destruct (byte_in c2 _ _); cbn [andb]; [| utf8_no].
    destruct (byte_in c3 128 191); cbn [andb]; [utf8_rec IH | utf8_no]. }
  destruct ((240 <=? nat_of_ascii c)%nat && (nat_of_ascii c <=? 244)%nat); [| utf8_no].
  destruct s1 as [|c2 [|c3 [|c4 s4]]];
    [utf8_no | destruct (byte_in c2 _ _); utf8_no | destruct (byte_in c2 _ _), (byte_in c3 128 191); utf8_no |].
  destruct (byte_in c2 _ _); cbn [andb]; [| utf8_no].
  destruct (byte_in c3 128 191); cbn [andb]; [| utf8_no].
  destruct (byte_in c4 128 191); cbn [andb]; [utf8_rec IH | utf8_no].
Qed.

(** Newline translation only turns white space into white space. *)
Lemma all_space_universal_newlines s : all_space (universal_newlines s) = all_space s.
Proof.
  remember (String.length s) as n eqn:Hn. revert s Hn.
  induction n as [n IH] using lt_wf_ind. intros [|c s1] Hn; [done |]. cbn [String.length] in Hn.
  cbn [universal_newlines]. destruct (nat_of_ascii c =? 13)%nat eqn:Hc.
  - apply Nat.eqb_eq in Hc. assert (Hcs : is_py_space c = true).
    { rewrite <- (ascii_nat_embedding c), Hc. reflexivity. }
    destruct s1 as [|d s2]; [simpl; by rewrite Hcs |].
    destruct (nat_of_ascii d =? 10)%nat eqn:Hd.
    + apply Nat.eqb_eq in Hd. assert (Hds : is_py_space d = true).
      { rewrite <- (ascii_nat_embedding d), Hd. reflexivity. }
      cbn [all_space]. rewrite Hcs, Hds, (IH (String.length s2)); [done | simpl in Hn; lia | done].
    + cbn [all_space]. rewrite (IH (S (String.length s2))); [| simpl in Hn; lia | done].
      cbn [all_space]. by rewrite Hcs.
  - cbn [all_space]. by rewrite (IH (String.length s1)); [| lia | done].
Qed.
