(* ===== verification/Classifier.v ===== *)
(** * Classifier: [FILE_TYPES], [SIZE_LIMITS], [get_category], [get_size_group]

    [src/organizer.py] lines 10-22 and 43-54.  [FILE_TYPES] is a Python
    dict, iterated in insertion order, so it is an association list here;
    [SIZE_LIMITS] maps a bucket name to a byte bound, the last one
    [float("inf")].  The theorems: [get_category] returns the declared
    category of every listed extension, in any letter case, and ["Others"]
    for every other; the size buckets are the three ranges
    [[0, 1 MiB]], [(1 MiB, 10 MiB]], [(10 MiB, inf)] and are monotone. *)

From S2P Require Import Prelude PyLib.

(** ** Data *)

Definition FILE_TYPES : list (string * list string) :=
  [("Images", [".jpg"; ".jpeg"; ".png"; ".gif"; ".bmp"; ".tiff"; ".svg"]);
   ("Documents", [".pdf"; ".doc"; ".docx"; ".txt"; ".ppt"; ".pptx"; ".xls"; ".xlsx"; ".csv"]);
   ("Videos", [".mp4"; ".avi"; ".mov"; ".mkv"; ".flv"; ".wmv"]);
   ("Audio", [".mp3"; ".wav"; ".aac"; ".flac"; ".ogg"; ".m4a"]);
   ("Archives", [".zip"; ".rar"; ".tar"; ".gz"; ".7z"])].

(** A bound of [SIZE_LIMITS]: a byte count or [float("inf")]. *)
Inductive limit := Bytes (n : Z) | Infinity.

Definition SIZE_LIMITS : list (string * limit) :=
  [("Small", Bytes (1 * 1024 * 1024)); ("Medium", Bytes (10 * 1024 * 1024));
   ("Large", Infinity)].

(** [SIZE_LIMITS[name]] for the keys the code uses. *)
Definition size_limit (name : string) : limit :=
  default Infinity (assoc name SIZE_LIMITS).

(** [size <= limit] with Python's comparison of an int and a float. *)
Definition le_limit (size : Z) (l : limit) : bool :=
  match l with Bytes n => (size <=? n)%Z | Infinity => true end.

(** ** Operations *)

(** [get_category]: the first category whose list holds [extension.lower()]. *)
Fixpoint find_category (e : string) (types : list (string * list string)) : string :=
  match types with
  | [] => "Others"
  | (category, exts) :: rest =>
      if bool_decide (e ∈ exts) then category else find_category e rest
  end.

Definition get_category (extension : string) : string :=
  find_category (lower extension) FILE_TYPES.

Definition get_size_group (size : Z) : string :=
  if le_limit size (size_limit "Small") then "Small"
  else if le_limit size (size_limit "Medium") then "Medium"
  else "Large".

(** The labels [get_category] can return. *)
Definition CATEGORIES : list string := (fst <$> FILE_TYPES) ++ ["Others"].

(** ** Lemmas *)

Lemma find_category_in e types :
  find_category e types ∈ (fst <$> types) ++ ["Others"].
Proof.
  induction types as [|[c exts] types IH]; simpl; [by left |].
  case_bool_decide; [by left | by right].
Qed.

Lemma find_category_declared e c exts types :
  NoDup (concat (snd <$> types)) -> (c, exts) ∈ types -> e ∈ exts ->
  find_category e types = c.
Proof.
  induction types as [|[c' exts'] types IH]; intros Hnd Hin He; [set_solver |].
  simpl in *. apply NoDup_app in Hnd as (_ & Hdisj & Hnd).
  apply elem_of_cons in Hin as [Heq | Hin].
  - simplify_eq. by rewrite bool_decide_eq_true_2.
  - rewrite bool_decide_eq_false_2; [by apply IH |].
    intros He'. apply (Hdisj e He'). apply list_elem_of_In, in_concat.
    exists exts. split; [| by apply list_elem_of_In].
    apply list_elem_of_In, list_elem_of_fmap. by exists (c, exts).
Qed.

Lemma find_category_others e types :
  (forall c exts, (c, exts) ∈ types -> e ∉ exts) -> find_category e types = "Others".
Proof.
  induction types as [|[c exts] types IH]; intros H; simpl; [done |].
  rewrite bool_decide_eq_false_2; [| by eapply H; left].
  apply IH. intros c' exts' Hin. eapply H. by right.
Qed.

(** The extension lists of [FILE_TYPES] are pairwise disjoint. *)
Lemma FILE_TYPES_nodup : NoDup (concat (snd <$> FILE_TYPES)).
Proof. apply NoDup_ListNoDup. vm_compute. repeat constructor; vm_compute; intuition discriminate. Qed.

(** Rank of a size bucket, in the order of [SIZE_LIMITS]. *)
Definition bucket_rank (g : string) : nat :=
  if decide (g = "Small") then 0 else if decide (g = "Medium") then 1 else 2.

Lemma get_size_group_unfold size :
  get_size_group size =
  if (size <=? 1048576)%Z then "Small" else if (size <=? 10485760)%Z then "Medium" else "Large".
Proof. reflexivity. Qed.

(** ** Properties *)

(** [get_category] returns the category [FILE_TYPES] declares for an
    extension, whatever the letter case of the extension it is given. *)
Theorem get_category_declared (ext c : string) (exts : list string) :
  (c, exts) ∈ FILE_TYPES -> lower ext ∈ exts -> get_category ext = c.
Proof. intros Hin He. by eapply find_category_declared, He; [apply FILE_TYPES_nodup |]. Qed.

Lemma get_category_declared_witness :
  ("Images", [".jpg"; ".jpeg"; ".png"; ".gif"; ".bmp"; ".tiff"; ".svg"]) ∈ FILE_TYPES /\
  lower ".JPG" ∈ [".jpg"; ".jpeg"; ".png"; ".gif"; ".bmp"; ".tiff"; ".svg"] /\
  get_category ".JPG" = "Images".
Proof.
  assert (H1 : ("Images", [".jpg"; ".jpeg"; ".png"; ".gif"; ".bmp"; ".tiff"; ".svg"]) ∈ FILE_TYPES)
    by (left).
  assert (H2 : lower ".JPG" ∈ [".jpg"; ".jpeg"; ".png"; ".gif"; ".bmp"; ".tiff"; ".svg"])
    by vm_decide.
  split; [exact H1 | split; [exact H2 | exact (get_category_declared ".JPG" _ _ H1 H2)]].
Defined.

(** An extension that no category of [FILE_TYPES] lists, in any letter
    case, is classified as ["Others"]. *)
Theorem get_category_others (ext : string) :
  (forall c exts, (c, exts) ∈ FILE_TYPES -> lower ext ∉ exts) -> get_category ext = "Others".
Proof. apply find_category_others. Qed.

Lemma get_category_others_witness :
  (forall c exts, (c, exts) ∈ FILE_TYPES -> lower ".PY" ∉ exts) /\ get_category ".PY" = "Others".
Proof.
  assert (H : forall c exts, (c, exts) ∈ FILE_TYPES -> lower ".PY" ∉ exts).
  { intros c exts Hin. unfold FILE_TYPES in Hin.
    repeat (apply elem_of_cons in Hin as [Hin | Hin]; [simplify_eq; vm_decide |]).
    by apply elem_of_nil in Hin. }
  split; [exact H | exact (get_category_others ".PY" H)].
Defined.

(** [C27] The size buckets are the three half-open byte ranges of the spec:
    at most 1 MiB is ["Small"], up to 10 MiB is ["Medium"], above is
    ["Large"]; each boundary value belongs to the smaller bucket. *)
Theorem get_size_group_ranges (size : Z) :
  (get_size_group size = "Small" <-> (size <= 2 ^ 20)%Z) /\
  (get_size_group size = "Medium" <-> (2 ^ 20 < size <= 10 * 2 ^ 20)%Z) /\
  (get_size_group size = "Large" <-> (10 * 2 ^ 20 < size)%Z).
Proof.
  rewrite get_size_group_unfold.
  destruct (Z.leb_spec size 1048576); [| destruct (Z.leb_spec size 10485760)];
    repeat split; intros; simplify_eq; lia.
Qed.

(** A larger file never lands in a smaller bucket. *)
Theorem get_size_group_monotone (s1 s2 : Z) :
  (s1 <= s2)%Z -> (bucket_rank (get_size_group s1) <= bucket_rank (get_size_group s2))%nat.
Proof.
  intros Hle. rewrite !get_size_group_unfold.
  destruct (Z.leb_spec s1 1048576), (Z.leb_spec s2 1048576),
    (Z.leb_spec s1 10485760), (Z.leb_spec s2 10485760); vm_compute; lia.
Qed.

Lemma get_size_group_monotone_witness :
  (1048576 <= 1048577)%Z /\
  (bucket_rank (get_size_group 1048576) <= bucket_rank (get_size_group 1048577))%nat.
Proof. split; [lia | apply get_size_group_monotone; lia]. Defined.
