(* ===== verification/Calendar.v ===== *)
(** * Calendar arithmetic behind [datetime.fromtimestamp], [datetime.now]
      and [strftime]

    [organize_files_thread] (src/organizer.py lines 321-323) takes the year
    and month of a file's [ctime]; [backup_folder] (line 62) names its
    directory with [strftime("%Y-%m-%d_%H-%M-%S")]; [create_log] (line 59)
    prefixes each line with [str(datetime.now())].  Those library calls
    are the proleptic Gregorian calendar of CPython's [datetime] module,
    written here after its reference implementation ([_ord2ymd],
    [_ymd2ord], [_days_before_year]).  Time is an integer count of seconds
    since the Unix epoch; local time adds a fixed UTC offset [tz] (daylight
    saving changes are not modelled); microseconds are always 0, so
    [str(datetime)] never shows a fraction.

    The theorems: the calendar repeats every 400 years ([ord2ymd_400],
    [ymd2ord_400]); one cycle of 146097 days is checked by evaluation
    ([date_ok_cycle]); hence [_ord2ymd] returns a valid date that
    [_ymd2ord] maps back to its day number, for every day number from 1
    ([ord2ymd_valid]), and [fromtimestamp] returns a valid date and time
    denoting exactly the timestamp ([fromtimestamp_correct]). *)

From S2P Require Import Prelude PyLib.

#[local] Open Scope Z_scope.

(** ** Tables of [datetime] *)

Definition DAYS_IN_MONTH (m : Z) : Z :=
  match m with
  | 1 => 31 | 2 => 28 | 3 => 31 | 4 => 30 | 5 => 31 | 6 => 30
  | 7 => 31 | 8 => 31 | 9 => 30 | 10 => 31 | 11 => 30 | 12 => 31 | _ => -1
  end.

Definition DAYS_BEFORE_MONTH (m : Z) : Z :=
  match m with
  | 1 => 0 | 2 => 31 | 3 => 59 | 4 => 90 | 5 => 120 | 6 => 151
  | 7 => 181 | 8 => 212 | 9 => 243 | 10 => 273 | 11 => 304 | 12 => 334 | _ => -1
  end.

Definition is_leap (y : Z) : bool :=
  (y mod 4 =? 0) && (negb (y mod 100 =? 0) || (y mod 400 =? 0)).

Definition days_in_month (y m : Z) : Z :=
  if (m =? 2) && is_leap y then 29 else DAYS_IN_MONTH m.

Definition days_before_year (y : Z) : Z :=
  let y' := y - 1 in y' * 365 + y' / 4 - y' / 100 + y' / 400.

Definition days_before_month (y m : Z) : Z :=
  DAYS_BEFORE_MONTH m + (if (m >? 2) && is_leap y then 1 else 0).

(** [_ymd2ord]: the day number of a date, 0001-01-01 being day 1. *)
Definition ymd2ord (y m d : Z) : Z := days_before_year y + days_before_month y m + d.

Definition DI400Y : Z := 146097.
Definition DI100Y : Z := 36524.
Definition DI4Y : Z := 1461.

(** [_ord2ymd]: the date of a day number, by the 400/100/4/1-year cycles. *)
Definition ord2ymd (n0 : Z) : Z * Z * Z :=
  let n := n0 - 1 in
  let n400 := n / DI400Y in let n := n mod DI400Y in
  let year := n400 * 400 + 1 in
  let n100 := n / DI100Y in let n := n mod DI100Y in
  let n4 := n / DI4Y in let n := n mod DI4Y in
  let n1 := n / 365 in let n := n mod 365 in
  let year := year + n100 * 100 + n4 * 4 + n1 in
  if (n1 =? 4) || (n100 =? 4) then (year - 1, 12, 31)
  else
    let leapyear := (n1 =? 3) && (negb (n4 =? 24) || (n100 =? 3)) in
    let month := Z.shiftr (n + 50) 5 in
    let preceding := DAYS_BEFORE_MONTH month + (if (month >? 2) && leapyear then 1 else 0) in
    let '(month, preceding) :=
      if preceding >? n
      then (month - 1,
            preceding - (DAYS_IN_MONTH (month - 1) +
                         (if (month - 1 =? 2) && leapyear then 1 else 0)))
      else (month, preceding) in
    (year, month, n - preceding + 1).

(** The day number of 1970-01-01. *)
Definition EPOCH_ORD : Z := 719163.

(** A broken-down local time, as [datetime] keeps it. *)
Record datetime := mkDatetime {
  dt_year : Z; dt_month : Z; dt_day : Z;
  dt_hour : Z; dt_minute : Z; dt_second : Z }.

(** [datetime.fromtimestamp(t)] in a zone [tz] seconds east of UTC. *)
Definition fromtimestamp (tz t : Z) : datetime :=
  let s := t + tz in
  let '(y, m, d) := ord2ymd (s / 86400 + EPOCH_ORD) in
  let r := s mod 86400 in
  mkDatetime y m d (r / 3600) ((r mod 3600) / 60) (r mod 60).

(** [strftime("%Y-%m-%d_%H-%M-%S")]. *)
Definition strftime_backup (d : datetime) : string :=
  fmt04 (dt_year d) +:+ "-" +:+ fmt02 (dt_month d) +:+ "-" +:+ fmt02 (dt_day d) +:+ "_" +:+
  fmt02 (dt_hour d) +:+ "-" +:+ fmt02 (dt_minute d) +:+ "-" +:+ fmt02 (dt_second d).

(** [str(d)] for a datetime with no microseconds: ["YYYY-MM-DD HH:MM:SS"]. *)
Definition str_datetime (d : datetime) : string :=
  fmt04 (dt_year d) +:+ "-" +:+ fmt02 (dt_month d) +:+ "-" +:+ fmt02 (dt_day d) +:+ " " +:+
  fmt02 (dt_hour d) +:+ ":" +:+ fmt02 (dt_minute d) +:+ ":" +:+ fmt02 (dt_second d).

Example fromtimestamp_2024_03_10 :
  fromtimestamp 0 1710072000 = mkDatetime 2024 3 10 12 0 0.
Proof. vm_compute. reflexivity. Qed.

(** ** The calendar is periodic over 400 years *)

Lemma is_leap_400 y : is_leap (y + 400) = is_leap y.
Proof.
  unfold is_leap.
  replace (y + 400) with (y + 100 * 4) by lia. rewrite Z.mod_add by lia.
  replace (y + 100 * 4) with (y + 4 * 100) by lia. rewrite Z.mod_add by lia.
  replace (y + 4 * 100) with (y + 1 * 400) by lia. rewrite Z.mod_add by lia. done.
Qed.

Lemma days_in_month_400 y m : days_in_month (y + 400) m = days_in_month y m.
Proof. unfold days_in_month. by rewrite is_leap_400. Qed.

Lemma ymd2ord_400 y m d : ymd2ord (y + 400) m d = ymd2ord y m d + DI400Y.
Proof.
  unfold ymd2ord, days_before_year, days_before_month, DI400Y. rewrite is_leap_400.
  replace (y + 400 - 1) with ((y - 1) + 100 * 4) by lia. rewrite Z.div_add by lia.
  replace ((y - 1) + 100 * 4) with ((y - 1) + 4 * 100) by lia. rewrite Z.div_add by lia.
  replace ((y - 1) + 4 * 100) with ((y - 1) + 1 * 400) by lia. rewrite Z.div_add by lia.
  lia.
Qed.

Lemma ord2ymd_400 n : ord2ymd (n + DI400Y) = let '(y, m, d) := ord2ymd n in (y + 400, m, d).
Proof.
  unfold ord2ymd. replace (n + DI400Y - 1) with ((n - 1) + 1 * DI400Y) by lia.
  rewrite Z.div_add, Z.mod_add by (unfold DI400Y; lia).
  cbv zeta. repeat case_match; simplify_eq;
    (apply pair_equal_spec; split; [apply pair_equal_spec; split |]); lia.
Qed.

(** The checks a date of [_ord2ymd] passes. *)
Definition date_ok (n : Z) : bool :=
  let '(y, m, d) := ord2ymd n in
  (1 <=? y) && (1 <=? m) && (m <=? 12) && (1 <=? d) && (d <=? days_in_month y m) &&
  (ymd2ord y m d =? n).

(** [f] holds on [start], [start + 1], ..., [start + k - 1]. *)
Fixpoint check_range (f : Z -> bool) (start : Z) (k : nat) : bool :=
  match k with O => true | S k' => f start && check_range f (start + 1) k' end.

Lemma check_range_spec f start k n :
  check_range f start k = true -> start <= n < start + Z.of_nat k -> f n = true.
Proof.
  revert start. induction k as [|k IH]; intros start H Hn; simpl in H; [lia |].
  apply andb_true_iff in H as [Hs Hk].
  destruct (decide (n = start)) as [-> | Hne]; [done |]. apply (IH (start + 1)); [done | lia].
Qed.

(** One whole cycle, checked by evaluation. *)
Lemma date_ok_cycle : check_range date_ok 1 (Z.to_nat DI400Y) = true.
Proof. vm_compute. reflexivity. Qed.

Lemma date_ok_first_cycle n : 1 <= n <= DI400Y -> date_ok n = true.
Proof.
  intros Hn. apply (check_range_spec _ _ _ _ date_ok_cycle).
  rewrite Z2Nat.id by (unfold DI400Y; lia). lia.
Qed.

Lemma date_ok_400 n : date_ok n = true -> date_ok (n + DI400Y) = true.
Proof.
  unfold date_ok. rewrite ord2ymd_400. destruct (ord2ymd n) as [[y m] d].
  rewrite days_in_month_400, ymd2ord_400. intros H. repeat rewrite andb_true_iff in *. lia.
Qed.

Lemma date_ok_all n : 1 <= n -> date_ok n = true.
Proof.
  intros Hn. set (r := (n - 1) mod DI400Y + 1). set (k := Z.to_nat ((n - 1) / DI400Y)).
  assert (Hr : 1 <= r <= DI400Y) by (unfold r, DI400Y; pose proof (Z.mod_pos_bound (n - 1) 146097); lia).
  assert (Hnk : n = r + Z.of_nat k * DI400Y).
  { unfold r, k. rewrite Z2Nat.id by (apply Z.div_pos; unfold DI400Y; lia).
    pose proof (Z.div_mod (n - 1) DI400Y) as Hd. unfold DI400Y in *. lia. }
  rewrite Hnk. clear Hnk. induction k as [|k IH]; [rewrite Z.add_0_r; by apply date_ok_first_cycle |].
  replace (r + Z.of_nat (S k) * DI400Y) with ((r + Z.of_nat k * DI400Y) + DI400Y) by lia.
  by apply date_ok_400.
Qed.

(** ** Properties *)

(** [_ord2ymd] is correct on every day number from 1 (0001-01-01):
    it returns a valid date (month 1 to 12, day within the month, leap
    years included) whose day number by [_ymd2ord] is the one it started
    from. *)
Theorem ord2ymd_valid (n : Z) :
  1 <= n ->
  let '(y, m, d) := ord2ymd n in
  1 <= y /\ 1 <= m <= 12 /\ 1 <= d <= days_in_month y m /\ ymd2ord y m d = n.
Proof.
  intros Hn. pose proof (date_ok_all n Hn) as H. unfold date_ok in H.
  destruct (ord2ymd n) as [[y m] d]. repeat rewrite andb_true_iff in H.
  rewrite !Z.leb_le, Z.eqb_eq in H. lia.
Qed.

(** [datetime.fromtimestamp] is correct: for every time whose local
    date is from year 1 on, the broken-down time is a valid date and
    clock time, and it denotes exactly the local time in seconds since
    the epoch. *)
Theorem fromtimestamp_correct (tz t : Z) :
  1 <= (t + tz) / 86400 + EPOCH_ORD ->
  let d := fromtimestamp tz t in
  1 <= dt_month d <= 12 /\ 1 <= dt_day d <= days_in_month (dt_year d) (dt_month d) /\
  0 <= dt_hour d < 24 /\ 0 <= dt_minute d < 60 /\ 0 <= dt_second d < 60 /\
  (ymd2ord (dt_year d) (dt_month d) (dt_day d) - EPOCH_ORD) * 86400 +
    dt_hour d * 3600 + dt_minute d * 60 + dt_second d = t + tz.
Proof.
  intros Hn. unfold fromtimestamp. pose proof (ord2ymd_valid _ Hn) as Hv.
  destruct (ord2ymd _) as [[y m] d]. simpl.
  pose proof (Z.div_mod (t + tz) 86400 ltac:(lia)) as Hs.
  pose proof (Z.mod_pos_bound (t + tz) 86400 ltac:(lia)) as Hr.
  set (r := (t + tz) mod 86400) in *.
  pose proof (Z.div_mod r 3600 ltac:(lia)). pose proof (Z.mod_pos_bound r 3600 ltac:(lia)).
  pose proof (Z.div_mod (r mod 3600) 60 ltac:(lia)). pose proof (Z.mod_pos_bound (r mod 3600) 60 ltac:(lia)).
  assert (Hmm : (r mod 3600) mod 60 = r mod 60).
  { rewrite <- (Z.mod_mod_divide r 3600 60); [done | by exists 60]. }
  rewrite <- Hmm. split_and!; try lia;
    first [apply Z.div_pos; lia | apply Z.div_lt_upper_bound; lia | apply Z.mod_pos_bound; lia].
Qed.

Lemma fromtimestamp_correct_witness :
  1 <= (1710072000 + 3600) / 86400 + EPOCH_ORD /\
  let d := fromtimestamp 3600 1710072000 in
  1 <= dt_month d <= 12 /\ 1 <= dt_day d <= days_in_month (dt_year d) (dt_month d) /\
  0 <= dt_hour d < 24 /\ 0 <= dt_minute d < 60 /\ 0 <= dt_second d < 60 /\
  (ymd2ord (dt_year d) (dt_month d) (dt_day d) - EPOCH_ORD) * 86400 +
    dt_hour d * 3600 + dt_minute d * 60 + dt_second d = 1710072000 + 3600.
Proof.
  assert (H : 1 <= (1710072000 + 3600) / 86400 + EPOCH_ORD) by (vm_compute; discriminate).
  split; [exact H | exact (fromtimestamp_correct 3600 1710072000 H)].
Defined.
