(* ===== verification/FileSystem.v ===== *)
(** * The file system as the organizer sees it

    The engine calls [os.listdir], [os.path.isfile], [os.path.exists],
    [os.path.getsize], [os.path.getctime], [os.makedirs(exist_ok=True)],
    [shutil.move] and [shutil.copy2] (src/organizer.py lines 61-69,
    310-336, 384-395).  The file system is a finite map from absolute paths
    (lists of components) to entries: a regular file with its bytes, size
    and times, or a directory.  Each library call is a function returning
    the new map or the Python exception it raises.  Well-formedness
    ([wf]): the root is a directory and the parent of every entry is a
    directory; [makedirs], [copy2], [os.rename] and [shutil.move], of
    files and of whole directory trees, preserve it ([makedirs_ok],
    [copy2_wf], [rename_wf], [shutil_move_wf]).  A renamed file keeps its
    ctime (Linux would update it).

    Not modelled: symbolic links, permissions (no [PermissionError]),
    several volumes (so [shutil.move] never falls back to copy and delete),
    and the metadata of directories, whose size and times the code never
    reads. *)

From S2P Require Import Prelude PyLib.

(** ** Data *)

(** A regular file: contents, [st_size], [st_ctime], [st_mtime]. *)
Record file := mkFile { f_data : string; f_size : Z; f_ctime : Z; f_mtime : Z }.

Inductive entry := File (f : file) | Dir.

Abbreviation FS := (gmap Path entry).

(** The exceptions the modelled calls raise. *)
Inductive exn :=
  | FileNotFoundError | FileExistsError | NotADirectoryError | IsADirectoryError
  | InvalidArgument      (** [OSError(EINVAL)]: a directory moved into itself *)
  | DirectoryNotEmpty    (** [OSError(ENOTEMPTY)] *)
  | ShutilError          (** [shutil.Error] and [shutil.SameFileError] *)
  | AttributeError       (** a missing attribute of a module *)
  | TypeError            (** [os.path.join] given [None] *)
  | TclError             (** a method of a destroyed Tk widget *)
  | UnicodeEncodeError   (** text with a lone surrogate written as UTF-8 *)
  | FuelExhausted.       (** not raised by Python: a modelled [while] loop ran out of
                             fuel; [Naming.free_path_total] shows it never happens *)

#[export] Instance entry_eq_dec : EqDecision entry.
Proof. intros [[a b c d]|] [[a' b' c' d']|]; [| right; done | right; done | left; done].
  destruct (decide (a = a')), (decide (b = b')), (decide (c = c')), (decide (d = d'));
    [left; by subst | right; congruence ..]. Defined.

#[export] Instance exn_eq_dec : EqDecision exn.
Proof. solve_decision. Defined.

(** ** Queries *)

Definition path_exists (fs : FS) (p : Path) : bool := bool_decide (is_Some (fs !! p)).

Definition isfile (fs : FS) (p : Path) : bool :=
  match fs !! p with Some (File _) => true | _ => false end.

Definition isdir (fs : FS) (p : Path) : bool :=
  match fs !! p with Some Dir => true | _ => false end.

(** [os.stat] of a regular file; the code only asks for files [isfile]
    has just accepted, so directories are not given a size. *)
Definition stat_file (fs : FS) (p : Path) : exn + file :=
  match fs !! p with
  | Some (File f) => inr f
  | Some Dir => inl IsADirectoryError
  | None => inl FileNotFoundError
  end.

Definition getsize (fs : FS) (p : Path) : exn + Z :=
  match stat_file fs p with inr f => inr (f_size f) | inl e => inl e end.
Definition getctime (fs : FS) (p : Path) : exn + Z :=
  match stat_file fs p with inr f => inr (f_ctime f) | inl e => inl e end.

Definition parent (p : Path) : Path := removelast p.

(** The name of [k] inside directory [d], when [k] is a child of [d]. *)
Fixpoint child_name (d k : Path) : option string :=
  match d, k with
  | [], [x] => Some x
  | y :: d', x :: k' => if decide (y = x) then child_name d' k' else None
  | _, _ => None
  end.

(** [os.listdir(d)]: the children of [d] in the map's order (the order of
    [os.listdir] is arbitrary). *)
Definition listdir (fs : FS) (d : Path) : exn + list string :=
  match fs !! d with
  | None => inl FileNotFoundError
  | Some (File _) => inl NotADirectoryError
  | Some Dir => inr (omap (fun '(k, _) => child_name d k) (map_to_list fs))
  end.

(** ** Operations *)

(** [os.makedirs(p, exist_ok=True)]: create each missing directory from the
    root down; an existing file on the way raises. *)
Fixpoint makedirs_go (fs : FS) (cur : Path) (rest : list string) : exn + FS :=
  match rest with
  | [] => inr fs
  | x :: rest' =>
      let p := cur ++ [x] in
      match fs !! p with
      | Some Dir => makedirs_go fs p rest'
      | Some (File _) => inl (if rest' is [] then FileExistsError else NotADirectoryError)
      | None => makedirs_go (<[p := Dir]> fs) p rest'
      end
  end.

Definition makedirs (fs : FS) (p : Path) : exn + FS := makedirs_go fs [] p.

(** The check [rename] and [open] make on the directory that will hold [p]. *)
Definition parent_check (fs : FS) (p : Path) : option exn :=
  match p with
  | [] => Some FileNotFoundError
  | _ => match fs !! parent p with
         | Some Dir => None
         | Some (File _) => Some NotADirectoryError
         | None => Some FileNotFoundError
         end
  end.

(** Moving the subtree at [src] to [dst]. *)
Definition move_tree (src dst : Path) (fs : FS) : FS :=
  filter (fun ke => ¬ src `prefix_of` ke.1) fs ∪
  list_to_map (omap (fun '(k, e) => if decide (src `prefix_of` k)
                                     then Some (dst ++ drop (length src) k, e) else None)
                    (map_to_list fs)).

Definition dir_empty (fs : FS) (d : Path) : bool :=
  bool_decide (omap (fun '(k, _) => child_name d k) (map_to_list fs) = []).

(** [os.rename(src, dst)] (POSIX): a file replaces a file; a directory
    replaces an empty directory. *)
Definition rename (fs : FS) (src dst : Path) : exn + FS :=
  match fs !! src with
  | None => inl FileNotFoundError
  | Some e =>
      match parent_check fs dst with
      | Some err => inl err
      | None =>
          match e with
          | File f =>
              if isdir fs dst then inl IsADirectoryError
              else inr (<[dst := File f]> (delete src fs))
          | Dir =>
              if decide (src = dst) then inr fs
              else if decide (src `prefix_of` dst) then inl InvalidArgument
              else match fs !! dst with
                   | Some (File _) => inl NotADirectoryError
                   | Some Dir =>
                       if dir_empty fs dst then inr (move_tree src dst (delete dst fs))
                       else inl DirectoryNotEmpty
                   | None => inr (move_tree src dst fs)
                   end
          end
      end
  end.

(** [shutil.move(src, dst)] on one volume: into [dst] when it is a
    directory (refusing an existing name there), else a rename. *)
Definition shutil_move (fs : FS) (src dst : Path) : exn + FS :=
  if isdir fs dst then
    let real_dst := join dst (basename src) in
    if path_exists fs real_dst then inl ShutilError else rename fs src real_dst
  else rename fs src dst.

(** [shutil.copy2(src, dst)] at time [now]: the copy has the contents and
    modification time of [src] and a fresh [ctime]. *)
Definition copy2 (now : Z) (fs : FS) (src dst : Path) : exn + FS :=
  let real_dst := if isdir fs dst then join dst (basename src) else dst in
  match fs !! src with
  | None => inl FileNotFoundError
  | Some Dir => inl IsADirectoryError
  | Some (File f) =>
      if decide (real_dst = src) then inl ShutilError
      else match parent_check fs real_dst with
           | Some err => inl err
           | None =>
               if isdir fs real_dst then inl IsADirectoryError
               else inr (<[real_dst := File (mkFile (f_data f) (f_size f) now (f_mtime f))]> fs)
           end
  end.

(** ** Well-formedness *)

Definition wf (fs : FS) : Prop :=
  fs !! [] = Some Dir /\ forall p x e, fs !! (p ++ [x]) = Some e -> fs !! p = Some Dir.

(** ** Laws *)

(** [fs'] is [fs] with some directories added where nothing was. *)
Definition grows_by_dirs (fs fs' : FS) : Prop :=
  forall p, fs' !! p = fs !! p \/ (fs !! p = None /\ fs' !! p = Some Dir).

#[export] Instance grows_by_dirs_preorder : PreOrder grows_by_dirs.
Proof.
  constructor; [intros fs p; by left |].
  intros fs1 fs2 fs3 H12 H23 p.
  destruct (H12 p) as [E12 | [E1 E2]], (H23 p) as [E23 | [E2' E3]];
    [left; congruence | right; split; congruence | right; split; congruence | congruence].
Qed.

Lemma grows_by_dirs_file fs fs' p f :
  grows_by_dirs fs fs' -> fs !! p = Some (File f) -> fs' !! p = Some (File f).
Proof. intros H Hp. destruct (H p) as [-> | [? ?]]; congruence. Qed.

Lemma grows_by_dirs_some fs fs' p e :
  grows_by_dirs fs fs' -> fs !! p = Some e -> fs' !! p = Some e.
Proof. intros H Hp. destruct (H p) as [-> | [? ?]]; congruence. Qed.

Lemma path_exists_false fs p : path_exists fs p = false <-> fs !! p = None.
Proof.
  unfold path_exists. rewrite bool_decide_eq_false.
  destruct (fs !! p); split; intros H; [by destruct H | done | done | intros [? ?]; done].
Qed.

Lemma path_exists_true fs p : path_exists fs p = true <-> is_Some (fs !! p).
Proof. unfold path_exists. by rewrite bool_decide_eq_true. Qed.

Lemma isfile_true fs p : isfile fs p = true <-> exists f, fs !! p = Some (File f).
Proof.
  unfold isfile. destruct (fs !! p) as [[f|]|]; split; try done; [by exists f | by intros [? ?] ..].
Qed.

Lemma path_snoc (p : Path) : p <> [] -> p = parent p ++ [basename p].
Proof.
  intros Hp. unfold parent, basename.
  destruct (exists_last Hp) as (q & x & ->). by rewrite removelast_last, last_snoc.
Qed.

Lemma parent_snoc (p : Path) x : parent (p ++ [x]) = p.
Proof. apply removelast_last. Qed.

Lemma parent_join (p : Path) x : parent (join p x) = p.
Proof. apply removelast_last. Qed.

#[export] Hint Rewrite parent_snoc parent_join : fo_rw.

Lemma parent_check_ok fs p :
  parent_check fs p = None -> p <> [] /\ fs !! parent p = Some Dir.
Proof.
  unfold parent_check. destruct p as [|x p]; [done |].
  destruct (fs !! parent (x :: p)) as [[f|]|]; naive_solver.
Qed.

Lemma parent_check_dir fs p :
  p <> [] -> fs !! parent p = Some Dir -> parent_check fs p = None.
Proof. intros Hne Hp. destruct p as [|x p]; [done |]. unfold parent_check. by rewrite Hp. Qed.

Lemma wf_parent fs p x e : wf fs -> fs !! (p ++ [x]) = Some e -> fs !! p = Some Dir.
Proof. intros [_ H]. apply H. Qed.

(** A file, or a path that is absent or a file, has no children. *)
Lemma wf_no_child fs p x : wf fs -> fs !! p <> Some Dir -> fs !! (p ++ [x]) = None.
Proof.
  intros Hwf Hp. destruct (fs !! (p ++ [x])) as [e|] eqn:E; [| done].
  by apply (wf_parent _ _ _ _ Hwf) in E.
Qed.

Lemma wf_insert fs p e :
  wf fs -> p <> [] -> fs !! parent p = Some Dir ->
  (e = Dir \/ fs !! p <> Some Dir) -> wf (<[p := e]> fs).
Proof.
  intros [Hroot Hwf] Hne Hpar He.
  destruct (exists_last Hne) as (p0 & x0 & ->). rewrite parent_snoc in Hpar. split.
  - rewrite lookup_insert_ne; [done | by destruct p0].
  - intros q x e'. destruct (decide (p0 ++ [x0] = q ++ [x])) as [Heq | Hneq].
    + apply app_inj_tail in Heq as [<- <-]. intros _.
      rewrite lookup_insert_ne; [done |]. intros Heq.
      apply (f_equal length) in Heq. rewrite length_app in Heq. simpl in Heq. lia.
    + rewrite lookup_insert_ne by done. intros Hq. apply Hwf in Hq.
      destruct (decide (p0 ++ [x0] = q)) as [<- | Hq'].
      * rewrite lookup_insert_eq. destruct He as [-> | He]; [done | congruence].
      * by rewrite lookup_insert_ne.
Qed.

Lemma wf_delete fs p : wf fs -> p <> [] -> fs !! p <> Some Dir -> wf (delete p fs).
Proof.
  intros [Hroot Hwf] Hne Hp. split.
  - rewrite lookup_delete_ne; [done | congruence].
  - intros q x e. destruct (decide (p = q ++ [x])) as [-> | Hne'].
    + by rewrite lookup_delete_eq.
    + rewrite lookup_delete_ne by done. intros Hq.
      destruct (decide (p = q)) as [-> | Hpq].
      * exfalso. by rewrite (wf_no_child fs q x (conj Hroot Hwf) Hp) in Hq.
      * rewrite lookup_delete_ne by done. by eapply Hwf.
Qed.

Lemma makedirs_go_grows fs cur rest fs' :
  makedirs_go fs cur rest = inr fs' -> grows_by_dirs fs fs'.
Proof.
  revert fs cur. induction rest as [|x rest IH]; intros fs cur H; simpl in H.
  - injection H as <-. reflexivity.
  - destruct (fs !! (cur ++ [x])) as [[f|]|] eqn:E; [done | by eapply IH |].
    etrans; [| by eapply IH]. intros p.
    destruct (decide (cur ++ [x] = p)) as [<- | Hne].
    + right. by rewrite lookup_insert_eq.
    + left. by rewrite lookup_insert_ne.
Qed.

(** [makedirs] only adds directories, ends with a directory at the target,
    and keeps the file system well formed. *)
Lemma makedirs_go_ok fs cur rest fs' :
  fs !! cur = Some Dir -> makedirs_go fs cur rest = inr fs' ->
  grows_by_dirs fs fs' /\ fs' !! (cur ++ rest) = Some Dir /\ (wf fs -> wf fs').
Proof.
  revert fs cur. induction rest as [|x rest IH]; intros fs cur Hcur H; simpl in H.
  - injection H as <-. rewrite app_nil_r. split_and!; [reflexivity | done | done].
  - destruct (fs !! (cur ++ [x])) as [[f|]|] eqn:E; [done | |].
    + destruct (IH _ _ E H) as (Hg & Hd & Hw). rewrite <- app_assoc in Hd. by split_and!.
    + assert (Hcur' : <[cur ++ [x] := Dir]> fs !! (cur ++ [x]) = Some Dir)
        by apply lookup_insert_eq.
      destruct (IH _ _ Hcur' H) as (Hg & Hd & Hw). rewrite <- app_assoc in Hd.
      split_and!; [| done |].
      * etrans; [| exact Hg]. intros p.
        destruct (decide (cur ++ [x] = p)) as [<- | Hne].
        { right. by rewrite lookup_insert_eq. }
        left. by rewrite lookup_insert_ne.
      * intros Hwf. apply Hw. apply wf_insert; [done | by destruct cur | | by left].
        by rewrite parent_snoc.
Qed.

Lemma makedirs_ok fs p fs' :
  wf fs -> makedirs fs p = inr fs' ->
  grows_by_dirs fs fs' /\ fs' !! p = Some Dir /\ wf fs'.
Proof.
  intros Hwf H. destruct (makedirs_go_ok fs [] p fs') as (? & ? & ?); [apply Hwf | done |].
  naive_solver.
Qed.

(** [os.makedirs] raises only [FileExistsError] or [NotADirectoryError]. *)
Lemma makedirs_go_err fs cur rest e :
  makedirs_go fs cur rest = inl e -> e = FileExistsError \/ e = NotADirectoryError.
Proof.
  revert fs cur. induction rest as [|x rest IH]; intros fs cur H; simpl in H; [done |].
  destruct (fs !! (cur ++ [x])) as [[f|]|]; [| by eapply IH | by eapply IH].
  injection H as <-. destruct rest; [by left | by right].
Qed.

(** ** Python's exceptions only

    The operations of the file system raise the exceptions of [os] and
    [shutil]; none raises [FuelExhausted], the marker of a modelled loop
    that ran out of fuel. *)
Definition py_raised {A} (r : exn + A) : Prop := forall e, r = inl e -> e <> FuelExhausted.

Ltac solve_py_raised := intros ?e; repeat case_match; intros ?Hr; simplify_eq; done.

Lemma parent_check_py fs p e : parent_check fs p = Some e -> e <> FuelExhausted.
Proof. unfold parent_check. repeat case_match; intros ?; simplify_eq; done. Qed.

Lemma stat_file_py fs p : py_raised (stat_file fs p).
Proof. unfold stat_file. solve_py_raised. Qed.

Lemma getsize_py fs p : py_raised (getsize fs p).
Proof. unfold getsize. intros e. case_match; [| done]. intros [= <-]. by eapply stat_file_py. Qed.

Lemma getctime_py fs p : py_raised (getctime fs p).
Proof. unfold getctime. intros e. case_match; [| done]. intros [= <-]. by eapply stat_file_py. Qed.

Lemma listdir_py fs d : py_raised (listdir fs d).
Proof. unfold listdir. solve_py_raised. Qed.

Lemma rename_py fs src dst : py_raised (rename fs src dst).
Proof.
  unfold rename. intros e. destruct (parent_check fs dst) eqn:Hp; repeat case_match; intros ?; simplify_eq;
    try done; by eapply parent_check_py.
Qed.

Lemma shutil_move_py fs src dst : py_raised (shutil_move fs src dst).
Proof. unfold shutil_move. repeat case_match; [intros e [= <-]; done | apply rename_py ..]. Qed.

Lemma copy2_py now fs src dst : py_raised (copy2 now fs src dst).
Proof.
  unfold copy2. intros e. repeat case_match; intros ?; simplify_eq; try done; by eapply parent_check_py.
Qed.

(** A regular file on the way to a deeper directory: [makedirs] raises
    [NotADirectoryError], whatever it created before reaching it. *)
Lemma makedirs_go_file fs cur pre x y rest f :
  fs !! (cur ++ pre ++ [x]) = Some (File f) ->
  makedirs_go fs cur (pre ++ x :: y :: rest) = inl NotADirectoryError.
Proof.
  revert fs cur. induction pre as [|p pre IH]; intros fs cur Hf; simpl.
  - simpl in Hf. by rewrite Hf.
  - change (p :: pre) with ([p] ++ pre) in Hf. rewrite <- (app_assoc [p]), app_assoc in Hf.
    destruct (fs !! (cur ++ [p])) as [[g|]|] eqn:E.
    + by destruct pre.
    + by apply IH.
    + apply IH. rewrite lookup_insert_ne; [done |].
      intros Heq. apply (f_equal length) in Heq. rewrite !length_app in Heq. simpl in Heq. lia.
Qed.

Lemma makedirs_py fs p : py_raised (makedirs fs p).
Proof. intros e He. by destruct (makedirs_go_err _ _ _ _ He) as [-> | ->]. Qed.

(** Renaming a file onto a path that is not a directory. *)
Lemma rename_file fs src dst f :
  fs !! src = Some (File f) -> dst <> [] -> fs !! parent dst = Some Dir -> fs !! dst <> Some Dir ->
  rename fs src dst = inr (<[dst := File f]> (delete src fs)).
Proof.
  intros Hs Hne Hp Hd. unfold rename, isdir. rewrite Hs, parent_check_dir by done.
  by destruct (fs !! dst) as [[]|].
Qed.

Lemma rename_file_inv fs src dst f fs' :
  fs !! src = Some (File f) -> rename fs src dst = inr fs' ->
  dst <> [] /\ fs !! parent dst = Some Dir /\ fs !! dst <> Some Dir /\
  fs' = <[dst := File f]> (delete src fs).
Proof.
  intros Hs H. unfold rename in H. rewrite Hs in H.
  destruct (parent_check fs dst) eqn:Hc; [done |].
  apply parent_check_ok in Hc as [Hne Hp]. unfold isdir in H.
  destruct (fs !! dst) as [[]|] eqn:Hd; simplify_eq; naive_solver.
Qed.

Lemma wf_rename_file fs src dst f :
  wf fs -> fs !! src = Some (File f) -> dst <> [] -> fs !! parent dst = Some Dir ->
  fs !! dst <> Some Dir -> wf (<[dst := File f]> (delete src fs)).
Proof.
  intros Hwf Hs Hne Hp Hd.
  assert (Hsne : src <> []) by (intros ->; destruct Hwf; congruence).
  apply wf_insert; [apply wf_delete; [done | done | congruence] | done | |].
  - rewrite lookup_delete_ne; [done |]. intros Heq. congruence.
  - right. destruct (decide (src = dst)) as [-> | Hne'];
      [by rewrite lookup_delete_eq | by rewrite lookup_delete_ne].
Qed.

(** [copy2] writes one regular file where no directory is. *)
Lemma copy2_inv now fs src dst fs' :
  copy2 now fs src dst = inr fs' ->
  exists real f, fs !! src = Some (File f) /\ real <> src /\ real <> [] /\
    fs !! parent real = Some Dir /\ fs !! real <> Some Dir /\
    fs' = <[real := File (mkFile (f_data f) (f_size f) now (f_mtime f))]> fs.
Proof.
  intros H. unfold copy2 in H. set (real := if isdir fs dst then _ else _) in H.
  destruct (fs !! src) as [[f|]|] eqn:Hs; try done.
  destruct (decide (real = src)) as [|Hne]; [done |].
  destruct (parent_check fs real) eqn:Hc; [done |]. apply parent_check_ok in Hc as [Hr Hp].
  unfold isdir in H. destruct (fs !! real) as [[]|] eqn:Hd; simplify_eq;
    (exists real, f; split_and!; [done | done | done | done | congruence | done]).
Qed.

(** [copy2] into a directory writes [dst/basename(src)]. *)
Lemma copy2_into_dir now fs src dst fs' :
  fs !! dst = Some Dir -> copy2 now fs src dst = inr fs' ->
  exists f, fs !! src = Some (File f) /\
    fs' = <[join dst (basename src) := File (mkFile (f_data f) (f_size f) now (f_mtime f))]> fs.
Proof.
  intros Hd H. unfold copy2, isdir in H. rewrite Hd in H. simpl in H.
  repeat case_match; simplify_eq; eauto.
Qed.

Lemma copy2_wf now fs src dst fs' : wf fs -> copy2 now fs src dst = inr fs' -> wf fs'.
Proof.
  intros Hwf H. destruct (copy2_inv _ _ _ _ _ H) as (real & f & _ & _ & Hr & Hp & Hd & ->).
  apply wf_insert; [done | done | done | by right].
Qed.

(** Directories stay directories. *)
Definition dirs_kept (fs fs' : FS) : Prop := forall p, fs !! p = Some Dir -> fs' !! p = Some Dir.

#[export] Instance dirs_kept_preorder : PreOrder dirs_kept.
Proof. split; [intros fs p; done | intros fs1 fs2 fs3 H12 H23 p Hp; by apply H23, H12]. Qed.

Lemma grows_by_dirs_kept fs fs' : grows_by_dirs fs fs' -> dirs_kept fs fs'.
Proof. intros H p Hp. by apply (grows_by_dirs_some fs). Qed.

Lemma makedirs_dirs_kept fs p fs' : makedirs fs p = inr fs' -> dirs_kept fs fs'.
Proof. intros H. by eapply grows_by_dirs_kept, makedirs_go_grows. Qed.

Lemma copy2_dirs_kept now fs src dst fs' : copy2 now fs src dst = inr fs' -> dirs_kept fs fs'.
Proof.
  intros H q Hq. destruct (copy2_inv _ _ _ _ _ H) as (real & f & _ & _ & _ & _ & Hd & ->).
  rewrite lookup_insert_ne; [done | congruence].
Qed.

(** After a move from [src] to [dst], other paths are unchanged. *)
Lemma lookup_moved (fs : FS) src dst e q :
  q <> dst -> q <> src -> (<[dst := e]> (delete src fs)) !! q = fs !! q.
Proof. intros H1 H2. rewrite lookup_insert_ne by congruence. by rewrite lookup_delete_ne by congruence. Qed.

(** [shutil.move] of a file to a fresh path whose directory exists. *)
Lemma shutil_move_fresh fs src dst f :
  fs !! src = Some (File f) -> dst <> [] -> fs !! parent dst = Some Dir -> fs !! dst = None ->
  shutil_move fs src dst = inr (<[dst := File f]> (delete src fs)).
Proof.
  intros Hs Hne Hp Hd. unfold shutil_move, isdir. rewrite Hd.
  apply rename_file; [done | done | done | congruence].
Qed.

Lemma child_name_spec d k x : child_name d k = Some x <-> k = d ++ [x].
Proof.
  revert k. induction d as [|y d IH]; intros [|z k]; simpl.
  - split; [done | by intros ?].
  - destruct k; split; intros H; simplify_eq; done.
  - split; [done | by intros ?].
  - case_decide as Hyz; [rewrite IH; split; intros H; simplify_eq; done |].
    split; [done | intros H; by simplify_eq].
Qed.

Lemma listdir_elem fs d items x :
  listdir fs d = inr items -> x ∈ items <-> is_Some (fs !! (d ++ [x])).
Proof.
  unfold listdir. destruct (fs !! d) as [[]|]; intros H; simplify_eq.
  rewrite list_elem_of_omap. split.
  - intros ([k e] & Hin & Hc). apply child_name_spec in Hc as ->.
    apply elem_of_map_to_list in Hin. by eexists.
  - intros [e He]. exists (d ++ [x], e). split; [by apply elem_of_map_to_list |].
    by apply child_name_spec.
Qed.

Lemma listdir_dir fs d items : listdir fs d = inr items -> fs !! d = Some Dir.
Proof. unfold listdir. by repeat case_match. Qed.

Lemma listdir_nodup fs d items : listdir fs d = inr items -> NoDup items.
Proof.
  unfold listdir. destruct (fs !! d) as [[]|]; intros H; simplify_eq.
  pose proof (NoDup_fst_map_to_list fs) as Hnd. revert Hnd.
  generalize (map_to_list fs). intros l. induction l as [|[k e] l IH]; intros Hnd; simpl.
  - constructor.
  - apply NoDup_cons in Hnd as [Hk Hnd]. destruct (child_name d k) as [x|] eqn:Hc; [| by apply IH].
    constructor; [| by apply IH]. intros Hx. apply list_elem_of_omap in Hx as ([k' e'] & Hin & Hc').
    apply child_name_spec in Hc, Hc'. subst. apply Hk. simpl.
    apply list_elem_of_fmap. exists (d ++ [x], e'). split; [done | exact Hin].
Qed.

(** A decision procedure for [wf], to check concrete disks by evaluation. *)
Definition wf_check (fs : FS) : bool :=
  bool_decide (fs !! [] = Some Dir) &&
  forallb (fun kv => match kv.1 with [] => true | _ :: _ => isdir fs (parent kv.1) end)
          (map_to_list fs).

Lemma wf_check_sound fs : wf_check fs = true -> wf fs.
Proof.
  unfold wf_check. intros [Hr Hall]%andb_prop. split; [by apply bool_decide_eq_true in Hr |].
  intros p x e He. apply forallb_forall with (x := (p ++ [x], e)) in Hall;
    [| by apply list_elem_of_In, elem_of_map_to_list].
  simpl in Hall. destruct (p ++ [x]) eqn:E; [by destruct p |].
  rewrite <- E, parent_snoc in Hall. unfold isdir in Hall.
  by destruct (fs !! p) as [[]|].
Qed.

(** ** Renaming a directory keeps the disk well formed *)

(** Below a missing path there is nothing. *)
Lemma wf_subtree_none (fs : FS) (d r : Path) : wf fs -> fs !! d = None -> fs !! (d ++ r) = None.
Proof.
  intros Hwf Hd. induction r as [|x r IH] using rev_ind; [by rewrite app_nil_r |].
  rewrite app_assoc. destruct (fs !! ((d ++ r) ++ [x])) as [e|] eqn:E; [| done].
  by rewrite (wf_parent _ _ _ _ Hwf E) in IH.
Qed.

Lemma dir_empty_spec (fs : FS) (d : Path) x : dir_empty fs d = true -> fs !! (d ++ [x]) = None.
Proof.
  unfold dir_empty. rewrite bool_decide_eq_true. intros H.
  destruct (fs !! (d ++ [x])) as [e|] eqn:E; [exfalso | done].
  assert (Hin : x ∈ omap (fun '(k, _) => child_name d k) (map_to_list fs)).
  { apply list_elem_of_omap. exists (d ++ [x], e). split; [by apply elem_of_map_to_list |].
    by apply child_name_spec. }
  rewrite H in Hin. by apply not_elem_of_nil in Hin.
Qed.

(** Deleting an empty directory. *)
Lemma wf_delete_empty (fs : FS) (d : Path) :
  wf fs -> d <> [] -> (forall x, fs !! (d ++ [x]) = None) -> wf (delete d fs).
Proof.
  intros [Hr Hp] Hne Hempty. split; [by rewrite lookup_delete_ne |].
  intros p x e. destruct (decide (d = p ++ [x])) as [<- | Hne1]; [by rewrite lookup_delete_eq |].
  rewrite lookup_delete_ne by done. intros He.
  destruct (decide (d = p)) as [-> | Hne2]; [by rewrite Hempty in He |].
  rewrite lookup_delete_ne by done. by eapply Hp.
Qed.

Lemma lookup_move_tree_right (src dst : Path) (fs : FS) (q : Path) (e : entry) :
  (list_to_map (omap (fun '(k, e) => if decide (src `prefix_of` k)
                                      then Some (dst ++ drop (length src) k, e) else None)
                     (map_to_list fs)) : FS) !! q = Some e <->
  exists r, q = dst ++ r /\ fs !! (src ++ r) = Some e.
Proof.
  rewrite <- elem_of_list_to_map.
  - rewrite list_elem_of_omap. split.
    + intros ([k e'] & Hk%elem_of_map_to_list & Hg). case_decide as Hp; [| done].
      injection Hg as <- <-. destruct Hp as [r ->]. exists r.
      by rewrite drop_app_length.
    + intros (r & -> & Hr). exists (src ++ r, e). split; [by apply elem_of_map_to_list |].
      rewrite decide_True by (by exists r). by rewrite drop_app_length.
  - apply NoDup_fst_omap; [apply NoDup_fst_map_to_list |].
    intros [k1 e1] [k2 e2] q1 q2 _ _ H1 H2 Hq.
    case_decide as P1; [| done]. case_decide as P2; [| done].
    injection H1 as <-. injection H2 as <-. simpl in *.
    destruct P1 as [r1 ->], P2 as [r2 ->]. rewrite !drop_app_length in Hq.
    by apply app_inv_head in Hq as ->.
Qed.

(** What [move_tree] holds, when nothing is at or below [dst]. *)
Lemma lookup_move_tree (src dst : Path) (fs : FS) (q : Path) (e : entry) :
  (forall r, fs !! (dst ++ r) = None) ->
  move_tree src dst fs !! q = Some e <->
  (fs !! q = Some e /\ ¬ src `prefix_of` q) \/ (exists r, q = dst ++ r /\ fs !! (src ++ r) = Some e).
Proof.
  intros Hfree. unfold move_tree. rewrite lookup_union_Some_raw, map_lookup_filter_Some.
  rewrite lookup_move_tree_right. split; [naive_solver |].
  intros [? | (r & -> & Hr)]; [by left | right]. split; [| by exists r].
  apply map_lookup_filter_None. left. apply Hfree.
Qed.

Lemma wf_move_tree (fs : FS) (src dst : Path) :
  wf fs -> fs !! src = Some Dir -> src <> [] -> ¬ src `prefix_of` dst -> dst <> [] ->
  fs !! parent dst = Some Dir -> (forall r, fs !! (dst ++ r) = None) ->
  wf (move_tree src dst fs).
Proof.
  intros Hwf Hsrc Hsne Hpre Hdne Hpar Hfree.
  split.
  - apply lookup_move_tree; [done |]. left. split; [apply Hwf |].
    by intros ->%prefix_nil_inv.
  - intros p x e He. apply (lookup_move_tree _ _ _ _ _ Hfree) in He as [[He Hp] | (r & Heq & Hr)].
    + apply lookup_move_tree; [done |]. left. split; [exact (wf_parent _ _ _ _ Hwf He) |].
      intros Hsp. apply Hp. by apply prefix_app_r.
    + apply lookup_move_tree; [done |]. destruct r as [|y r _] using rev_ind.
      * rewrite app_nil_r in Heq. subst dst. rewrite parent_snoc in Hpar.
        left. split; [done |]. intros Hsp. apply Hpre. by apply prefix_app_r.
      * rewrite app_assoc in Heq. apply app_inj_tail in Heq as [-> ->].
        right. exists r. split; [done |]. rewrite app_assoc in Hr. exact (wf_parent _ _ _ _ Hwf Hr).
Qed.

Lemma parent_ne (p : Path) : p <> [] -> parent p <> p.
Proof.
  intros Hp Heq. rewrite (path_snoc p Hp) in Heq at 2.
  apply (f_equal length) in Heq. rewrite length_app in Heq. simpl in Heq. lia.
Qed.

(** [os.rename] keeps the disk well formed, for files and directories. *)
Lemma rename_wf fs src dst fs' : wf fs -> rename fs src dst = inr fs' -> wf fs'.
Proof.
  intros Hwf H. unfold rename in H.
  destruct (fs !! src) as [e|] eqn:Hs; [| done].
  destruct (parent_check fs dst) eqn:Hc; [done |]. apply parent_check_ok in Hc as [Hdne Hpar].
  destruct e as [f|].
  - unfold isdir in H. destruct (fs !! dst) as [[]|] eqn:Hd; simplify_eq;
      (apply (wf_rename_file _ _ _ f); [done | done | done | done | congruence]).
  - case_decide as Heq; [by simplify_eq |]. case_decide as Hpre; [done |].
    assert (Hsne : src <> []) by (intros ->; apply Hpre, prefix_nil).
    destruct (fs !! dst) as [[f|]|] eqn:Hd; [done | |].
    + destruct (dir_empty fs dst) eqn:He; [| done]. injection H as <-.
      apply wf_move_tree; [| by rewrite lookup_delete_ne | done | done | done
                            | rewrite lookup_delete_ne; [done | by apply not_eq_sym, parent_ne] |].
      * apply wf_delete_empty; [done | done | intros x; by apply dir_empty_spec].
      * intros [|x r]; [by rewrite app_nil_r, lookup_delete_eq |].
        rewrite lookup_delete_ne.
        -- change (x :: r) with ([x] ++ r). rewrite app_assoc.
           apply wf_subtree_none; [done | by apply dir_empty_spec].
        -- intros Heq'. apply (f_equal length) in Heq'. rewrite length_app in Heq'. simpl in Heq'. lia.
    + injection H as <-. apply wf_move_tree; try done. intros r. by apply wf_subtree_none.
Qed.

Lemma shutil_move_wf fs src dst fs' : wf fs -> shutil_move fs src dst = inr fs' -> wf fs'.
Proof.
  intros Hwf. unfold shutil_move. case_match; [case_match; [done |] |]; by apply rename_wf.
Qed.
