(* ===== verification/Naming.v ===== *)
(** * The collision-avoiding naming loop

    Both the organizer (src/organizer.py lines 329-334) and the undo stage
    (lines 386-393) pick a destination by the same loop: try the file's own
    name in the target directory; while that path exists, try
    [f"{base}_{counter}{ext}"] for [counter = 1, 2, ...].  The Python loop
    is unbounded; [probe] runs it with fuel.  The theorems: with fuel one
    more than the number of entries of the file system the loop always
    finds a free path ([free_path_total]), which is the first free
    candidate in the order the code tries them ([probe_first_free]). *)

From S2P Require Import Prelude PyLib FileSystem.

(** One iteration per remaining unit of [fuel]: [cand] is the current
    [new_path], [counter] the next suffix. *)
Fixpoint probe (fs : FS) (dir : Path) (base ext : string) (counter fuel : nat)
    (cand : Path) : option Path :=
  if path_exists fs cand then
    match fuel with
    | O => None
    | S fuel' => probe fs dir base ext (S counter) fuel' (join dir (suffixed base counter ext))
    end
  else Some cand.

(** Enough fuel for any file system: one more than its number of entries. *)
Definition probe_fuel (fs : FS) : nat := S (size fs).

(** [new_path = join(dir, name); counter = 1; while exists(new_path): ...],
    with [base, ext = os.path.splitext(name)]. *)
Definition free_path (fs : FS) (dir : Path) (name : string) : option Path :=
  let '(base, ext) := splitext name in
  probe fs dir base ext 1 (probe_fuel fs) (join dir name).

(** The candidates after the first: [base_c], [base_(c+1)], ... *)
Definition candidates (dir : Path) (base ext : string) (c n : nat) : list Path :=
  (fun k => join dir (suffixed base k ext)) <$> seq c n.

(** ** Lemmas *)

Lemma join_inj dir : Inj (=) (=) (join dir).
Proof. intros x y H. unfold join in H. by apply app_inj_tail in H as [_ ?]. Qed.

Lemma candidates_nodup dir base ext c n : NoDup (candidates dir base ext c n).
Proof.
  apply NoDup_fmap_2_strong; [| apply NoDup_seq].
  intros x y _ _ H. apply (inj (join dir)) in H. by apply suffixed_inj in H.
Qed.

Lemma probe_none_cand fs dir base ext c fuel cand :
  probe fs dir base ext c fuel cand = None -> is_Some (fs !! cand).
Proof.
  destruct fuel; simpl; destruct (path_exists fs cand) eqn:E; try done;
    intros _; by apply path_exists_true.
Qed.

(** Running out of fuel means every candidate tried existed. *)
Lemma probe_none fs dir base ext c fuel cand :
  probe fs dir base ext c fuel cand = None ->
  Forall (fun p => p ∈ dom fs) (candidates dir base ext c fuel).
Proof.
  revert c cand. induction fuel as [|fuel IH]; intros c cand H; simpl in H;
    [by constructor |].
  destruct (path_exists fs cand) eqn:E; [| done].
  constructor; [apply elem_of_dom; by eapply probe_none_cand | exact (IH _ _ H)].
Qed.

(** What [probe] returns is free, and is the first candidate or a suffixed
    name with a counter at least [c]. *)
Lemma probe_some fs dir base ext c fuel cand p :
  probe fs dir base ext c fuel cand = Some p ->
  fs !! p = None /\ (p = cand \/ exists k, (c <= k)%nat /\ p = join dir (suffixed base k ext)).
Proof.
  revert c cand. induction fuel as [|fuel IH]; intros c cand H; simpl in H;
    destruct (path_exists fs cand) eqn:E; simplify_eq.
  - split; [by apply path_exists_false | by left].
  - destruct (IH _ _ H) as [Hf [-> | (k & Hk & ->)]]; split; [done | | done |].
    + right. exists c. split; [lia | done].
    + right. exists k. split; [lia | done].
  - split; [by apply path_exists_false | by left].
Qed.

(** [probe] returns the first free candidate: every earlier one existed. *)
Lemma probe_first_free fs dir base ext c fuel cand k :
  probe fs dir base ext c fuel cand = Some (join dir (suffixed base k ext)) ->
  join dir (suffixed base k ext) <> cand ->
  is_Some (fs !! cand) /\ forall j, (c <= j < k)%nat -> is_Some (fs !! join dir (suffixed base j ext)).
Proof.
  revert c cand. induction fuel as [|fuel IH]; intros c cand H Hne; simpl in H;
    destruct (path_exists fs cand) eqn:E; simplify_eq.
  split; [by apply path_exists_true |].
  destruct (decide (join dir (suffixed base k ext) = join dir (suffixed base c ext))) as [Heq | Hne'].
  - apply (inj (join dir)), suffixed_inj in Heq as ->. intros j Hj. lia.
  - destruct (IH _ _ H Hne') as [Hc Hj]. intros j Hj'.
    destruct (decide (j = c)) as [-> | ?]; [done |]. apply Hj. lia.
Qed.

Lemma free_path_exists (fs : FS) (dir : Path) (name : string) :
  exists p, free_path fs dir name = Some p /\ fs !! p = None.
Proof.
  unfold free_path. destruct (splitext name) as [base ext].
  destruct (probe _ _ _ _ _ _ _) as [p|] eqn:E.
  - exists p. split; [done | by destruct (probe_some _ _ _ _ _ _ _ _ E)].
  - exfalso. apply probe_none in E.
    destruct (nodup_escapes (dom fs) _ (candidates_nodup dir base ext 1 (probe_fuel fs)))
      as (x & Hx & Hn).
    + unfold candidates, probe_fuel. rewrite length_fmap, length_seq, size_dom. lia.
    + rewrite Forall_forall in E. by apply Hn, E.
Qed.

(** ** A reference definition

    The spec's policy, without the loop: the first path without an entry
    in the list [name, base_1 + ext, base_2 + ext, ...], cut at the same
    bound. *)
Definition free_path_ref (fs : FS) (dir : Path) (name : string) : option Path :=
  let '(base, ext) := splitext name in
  snd <$> list_find (fun p => fs !! p = None) (join dir name :: candidates dir base ext 1 (probe_fuel fs)).

Lemma candidates_S dir base ext c n :
  candidates dir base ext c (S n) = join dir (suffixed base c ext) :: candidates dir base ext (S c) n.
Proof. reflexivity. Qed.

Lemma list_find_cons_snd {A} (P : A -> Prop) `{forall x, Decision (P x)} x l :
  snd <$> list_find P (x :: l) = if decide (P x) then Some x else snd <$> list_find P l.
Proof. simpl. case_decide; [done |]. by destruct (list_find P l) as [[]|]. Qed.

(** [probe] is the search of [list_find] over its candidates. *)
Lemma probe_list_find fs dir base ext c fuel cand :
  probe fs dir base ext c fuel cand =
  snd <$> list_find (fun p => fs !! p = None) (cand :: candidates dir base ext c fuel).
Proof.
  revert c cand. induction fuel as [|fuel IH]; intros c cand;
    rewrite list_find_cons_snd; cbn [probe]; destruct (path_exists fs cand) eqn:E.
  - rewrite decide_False by (apply path_exists_true in E as [? ?]; congruence). done.
  - by rewrite decide_True by (by apply path_exists_false).
  - rewrite decide_False by (apply path_exists_true in E as [? ?]; congruence).
    by rewrite IH, candidates_S.
  - by rewrite decide_True by (by apply path_exists_false).
Qed.

(** ** The interface the organizer and the undo stage use

    Both callers need four facts of the loop: it returns a path, the path
    is free, it is a child of the target directory, and its name is valid
    UTF-8 when the name asked for is.  Their proofs use
    only these laws; [free_path] discharges them. *)
Class FreshNaming (fresh : FS -> Path -> string -> option Path) : Prop := {
  fresh_total fs dir name : is_Some (fresh fs dir name);
  fresh_free fs dir name p : fresh fs dir name = Some p -> fs !! p = None;
  fresh_child fs dir name p : fresh fs dir name = Some p -> exists x, p = join dir x;
  fresh_utf8 fs dir name p : fresh fs dir name = Some p -> utf8_valid name = true ->
    utf8_valid (basename p) = true
}.

#[export] Instance free_path_naming : FreshNaming free_path.
Proof.
  split.
  - intros fs dir name. destruct (free_path_exists fs dir name) as (p & Hp & _). by exists p.
  - intros fs dir name p. unfold free_path. destruct (splitext name) as [base ext].
    intros H. by destruct (probe_some _ _ _ _ _ _ _ _ H).
  - intros fs dir name p. unfold free_path. destruct (splitext name) as [base ext].
    intros H. destruct (probe_some _ _ _ _ _ _ _ _ H) as [_ [-> | (k & _ & ->)]]; eauto.
  - intros fs dir name p. unfold free_path. destruct (splitext name) as [base ext] eqn:Hs.
    intros H Hn. destruct (probe_some _ _ _ _ _ _ _ _ H) as [_ [-> | (k & _ & ->)]];
      rewrite basename_join; [done |].
    pose proof (utf8_valid_suffixed name k Hn) as Hk. by rewrite Hs in Hk.
Qed.

(** ** Properties *)

(** [C4] The collision loop terminates: with [probe_fuel] iterations it
    always finds a destination, and that destination does not exist. *)
Theorem free_path_total (fs : FS) (dir : Path) (name : string) :
  exists p, free_path fs dir name = Some p /\ fs !! p = None.
Proof. apply free_path_exists. Qed.

(** The collision loop picks the first free name in the order the
    code tries them: the file's own name when it is free, otherwise
    [base_k + ext] for the least [k >= 1] that is free (the own name and
    every [base_j + ext] with [1 <= j < k] exist), so that files landing in
    one directory get [name], [name_1], [name_2], ... *)
Theorem free_path_first_free (fs : FS) (dir : Path) (name : string) p :
  free_path fs dir name = Some p ->
  fs !! p = None /\
  (p = join dir name \/
   exists k, (1 <= k)%nat /\ p = join dir (suffixed (splitext name).1 k (splitext name).2) /\
     is_Some (fs !! join dir name) /\
     forall j, (1 <= j < k)%nat -> is_Some (fs !! join dir (suffixed (splitext name).1 j (splitext name).2))).
Proof.
  unfold free_path. destruct (splitext name) as [base ext] eqn:Hs. cbn [fst snd]. intros H.
  destruct (probe_some _ _ _ _ _ _ _ _ H) as [Hfree [-> | (k & Hk & ->)]]; split; [done | by left | done |].
  right. exists k. split_and!; [done | done | |].
  - apply probe_first_free in H as [? _]; [done |].
    intros Heq%(inj (join dir)). apply (suffixed_ne base k ext).
    rewrite Heq, <- (splitext_app name), Hs. done.
  - intros j Hj. apply probe_first_free in H as [_ Hall]; [by apply Hall |].
    intros Heq%(inj (join dir)). apply (suffixed_ne base k ext).
    rewrite Heq, <- (splitext_app name), Hs. done.
Qed.

(** A directory holding [a.txt] and [a_1.txt]: [a.txt] goes to [a_2.txt]. *)
Definition ex_nm_fs : FS := list_to_map
  [([], Dir); (["d"], Dir); (["d"; "a.txt"], File (mkFile "x" 1 0 0));
   (["d"; "a_1.txt"], File (mkFile "y" 1 0 0))].

Lemma free_path_first_free_witness :
  free_path ex_nm_fs ["d"] "a.txt" = Some ["d"; "a_2.txt"] /\
  ex_nm_fs !! ["d"; "a_2.txt"] = None /\
  (["d"; "a_2.txt"] = join ["d"] "a.txt" \/
   exists k, (1 <= k)%nat /\ ["d"; "a_2.txt"] = join ["d"] (suffixed (splitext "a.txt").1 k (splitext "a.txt").2) /\
     is_Some (ex_nm_fs !! join ["d"] "a.txt") /\
     forall j, (1 <= j < k)%nat ->
       is_Some (ex_nm_fs !! join ["d"] (suffixed (splitext "a.txt").1 j (splitext "a.txt").2))).
Proof.
  assert (H : free_path ex_nm_fs ["d"] "a.txt" = Some ["d"; "a_2.txt"]) by vm_decide.
  split; [exact H | exact (free_path_first_free ex_nm_fs ["d"] "a.txt" _ H)].
Defined.

(** [C5] The duplicate-name [while] loop computes the spec's policy: its
    result is the first path without an entry among the file's own name
    and then [base_1 + ext], [base_2 + ext], ..., as [list_find] finds it. *)
Theorem free_path_equiv (fs : FS) (dir : Path) (name : string) :
  free_path fs dir name = free_path_ref fs dir name.
Proof. unfold free_path, free_path_ref. destruct (splitext name). apply probe_list_find. Qed.
