(* ===== verification/World.v ===== *)
(** * The process state and the exception monad of the handlers

    The handlers of [FileOrganizerGUI] read and write the file system and
    three stores under [DATA_DIR] (src/organizer.py lines 24-26):
    [users.json], [undo_log.json] and the per-user activity logs.  The
    world is the file system together with those stores, the clock that
    [datetime.now()] reads and the local UTC offset.  The stores are kept
    as structured values rather than as files of the map ([JsonStore]
    models their JSON text), so the development assumes the organized
    folder is neither [DATA_DIR] nor [DATA_DIR/logs], the two folders
    that hold the stores as regular files: organizing either would move
    [users.json], [undo_log.json] or the logs into category folders,
    which the model does not show.

    A handler is a function [World -> World * (exn + A)]: a raised Python
    exception keeps every change made before it (there is no rollback),
    which is how [organize_files_thread] behaves when a move fails half
    way.  [ret] and [bind] give stdpp's [x <- m; k] notation. *)

From S2P Require Import Prelude PyLib Calendar FileSystem.

(** [undo_log.json]: [{"user": ..., "files": [[new_path, folder], ...]}]. *)
Record UndoLog := mkUndoLog { undo_user : option string; undo_files : list (Path * Path) }.

#[export] Instance UndoLog_eq_dec : EqDecision UndoLog.
Proof. solve_decision. Defined.

Record World := mkWorld {
  w_fs : FS;                        (** the disk *)
  w_users : gmap string string;     (** [users.json]: name to password *)
  w_undo : option UndoLog;          (** [undo_log.json], if it exists *)
  w_logs : gmap string string;      (** [data/logs/<user>_log.txt] contents *)
  w_clock : Z;                      (** [time.time()], seconds since the epoch *)
  w_tz : Z;                         (** local offset from UTC, in seconds *)
  w_cwd : Path                      (** the working directory [DATA_DIR] is relative to *)
}.

Definition set_fs (w : World) (fs : FS) : World :=
  mkWorld fs (w_users w) (w_undo w) (w_logs w) (w_clock w) (w_tz w) (w_cwd w).
Definition set_undo (w : World) (u : option UndoLog) : World :=
  mkWorld (w_fs w) (w_users w) u (w_logs w) (w_clock w) (w_tz w) (w_cwd w).
Definition set_logs (w : World) (l : gmap string string) : World :=
  mkWorld (w_fs w) (w_users w) (w_undo w) l (w_clock w) (w_tz w) (w_cwd w).
Definition set_users (w : World) (u : gmap string string) : World :=
  mkWorld (w_fs w) u (w_undo w) (w_logs w) (w_clock w) (w_tz w) (w_cwd w).

(** [datetime.now()]. *)
Definition now_local (w : World) : datetime := fromtimestamp (w_tz w) (w_clock w).

(** [DATA_DIR = "data"], relative to the working directory. *)
Definition DATA_DIR (w : World) : Path := w_cwd w ++ ["data"].

(** ** The monad *)

Definition M (A : Type) : Type := World -> World * (exn + A).

#[export] Instance M_ret : MRet M := fun A x w => (w, inr x).
#[export] Instance M_bind : MBind M := fun A B f m w =>
  match m w with
  | (w', inl e) => (w', inl e)
  | (w', inr a) => f a w'
  end.

Definition raise {A} (e : exn) : M A := fun w => (w, inl e).
Definition get_world : M World := fun w => (w, inr w).
Definition put_world (w' : World) : M unit := fun _ => (w', inr tt).

(** A query of the file system that may raise. *)
Definition fs_query {A} (q : FS -> exn + A) : M A := fun w =>
  match q (w_fs w) with inl e => (w, inl e) | inr a => (w, inr a) end.

(** An operation on the file system that may raise. *)
Definition fs_update (op : FS -> exn + FS) : M unit := fun w =>
  match op (w_fs w) with inl e => (w, inl e) | inr fs' => (set_fs w fs', inr tt) end.

(** A [while] loop's result, or [FuelExhausted] when the bound ran out. *)
Definition of_fuel {A} (o : option A) : M A :=
  match o with Some a => mret a | None => raise FuelExhausted end.

(** [for x in xs: body(x)], stopping at the first exception. *)
Fixpoint for_each {A} (xs : list A) (body : A -> M unit) : M unit :=
  match xs with
  | [] => mret tt
  | x :: xs' => _ ← body x; for_each xs' body
  end.

(** ** Running the monad *)

Lemma bind_run_inr {A B} (m : M A) (f : A -> M B) w w' a :
  m w = (w', inr a) -> (m ≫= f) w = f a w'.
Proof. intros H. unfold mbind, M_bind. by rewrite H. Qed.

Lemma bind_run_inl {A B} (m : M A) (f : A -> M B) w w' e :
  m w = (w', inl e) -> (m ≫= f) w = (w', inl e).
Proof. intros H. unfold mbind, M_bind. by rewrite H. Qed.

Lemma bind_run_inv {A B} (m : M A) (f : A -> M B) w w'' r :
  (m ≫= f) w = (w'', r) ->
  (exists w' a, m w = (w', inr a) /\ f a w' = (w'', r)) \/
  (exists e, m w = (w'', inl e) /\ r = inl e).
Proof.
  unfold mbind, M_bind. destruct (m w) as [w' [e|a]]; intros H.
  - right. exists e. by injection H as -> <-.
  - left. by exists w', a.
Qed.

Lemma fs_update_run op w fs' : op (w_fs w) = inr fs' -> fs_update op w = (set_fs w fs', inr tt).
Proof. intros H. unfold fs_update. by rewrite H. Qed.

Lemma fs_query_run {A} (q : FS -> exn + A) w a : q (w_fs w) = inr a -> fs_query q w = (w, inr a).
Proof. intros H. unfold fs_query. by rewrite H. Qed.

Lemma set_fs_fs w fs : w_fs (set_fs w fs) = fs.
Proof. done. Qed.
Lemma set_logs_fs w l : w_fs (set_logs w l) = w_fs w.
Proof. done. Qed.
Lemma set_undo_fs w u : w_fs (set_undo w u) = w_fs w.
Proof. done. Qed.

#[export] Hint Rewrite set_fs_fs set_logs_fs set_undo_fs : fo_rw.

(** A run equation, checked on its small result component only. *)
Lemma run_eq {A} (m : M A) w r : (m w).2 = r -> m w = ((m w).1, r).
Proof. intros <-. apply surjective_pairing. Qed.

(** ** Frame conditions

    [keeps R m]: every run of [m] relates its start and end worlds by [R].
    It is closed under [mret], [bind] and branching, so the frame of a
    whole handler follows from the frames of its calls. *)
Definition keeps (R : World -> World -> Prop) {A} (m : M A) : Prop :=
  forall w w' r, m w = (w', r) -> R w w'.

Section Keeps.
Context (R : World -> World -> Prop) `{!PreOrder R}.

Lemma keeps_ret {A} (x : A) : keeps R (mret x).
Proof. intros w w' r H. injection H as <- _. reflexivity. Qed.

Lemma keeps_bind {A B} (m : M A) (f : A -> M B) :
  keeps R m -> (forall a, keeps R (f a)) -> keeps R (m ≫= f).
Proof.
  intros Hm Hf w w'' r H. apply bind_run_inv in H as [(w' & a & H1 & H2) | (e & H1 & _)].
  - etrans; [exact (Hm _ _ _ H1) | exact (Hf _ _ _ _ H2)].
  - exact (Hm _ _ _ H1).
Qed.

Lemma keeps_get : keeps R get_world.
Proof. intros w w' r H. injection H as <- _. reflexivity. Qed.

Lemma keeps_raise {A} e : keeps R (@raise A e).
Proof. intros w w' r H. injection H as <- _. reflexivity. Qed.

Lemma keeps_query {A} (q : FS -> exn + A) : keeps R (fs_query q).
Proof. intros w w' r H. unfold fs_query in H. case_match; injection H as <- _; reflexivity. Qed.

Lemma keeps_for_each {A} (xs : list A) body :
  (forall x, keeps R (body x)) -> keeps R (for_each xs body).
Proof. intros Hb. induction xs; simpl; [apply keeps_ret | by apply keeps_bind]. Qed.
End Keeps.

(** ** The exceptions a handler raises

    [raises_only P m]: every exception a run of [m] raises satisfies [P].
    Like [keeps] it is closed under [mret], [bind] and branching, and a
    file-system call raises what its operation returns. *)
Definition raises_only (P : exn -> Prop) {A} (m : M A) : Prop :=
  forall w w' e, m w = (w', inl e) -> P e.

Section RaisesOnly.
Context (P : exn -> Prop).

Lemma raises_ret {A} (x : A) : raises_only P (mret x).
Proof. by intros w w' e [=]. Qed.

Lemma raises_bind {A B} (m : M A) (f : A -> M B) :
  raises_only P m -> (forall a, raises_only P (f a)) -> raises_only P (m ≫= f).
Proof.
  intros Hm Hf w w'' e H. apply bind_run_inv in H as [(w' & a & H1 & H2) | (e' & H1 & [= <-])];
    [exact (Hf _ _ _ _ H2) | exact (Hm _ _ _ H1)].
Qed.

Lemma raises_get : raises_only P get_world.
Proof. by intros w w' e [=]. Qed.

Lemma raises_raise {A} e : P e -> raises_only P (@raise A e).
Proof. by intros He w w' e' [= _ <-]. Qed.

Lemma raises_query {A} (q : FS -> exn + A) :
  (forall fs e, q fs = inl e -> P e) -> raises_only P (fs_query q).
Proof. intros Hq w w' e H. unfold fs_query in H. destruct (q (w_fs w)) eqn:E; simplify_eq; by eapply Hq. Qed.

Lemma raises_update op :
  (forall fs e, op fs = inl e -> P e) -> raises_only P (fs_update op).
Proof. intros Hq w w' e H. unfold fs_update in H. destruct (op (w_fs w)) eqn:E; simplify_eq; by eapply Hq. Qed.

Lemma raises_of_fuel {A} (o : option A) : is_Some o -> raises_only P (of_fuel o).
Proof. intros [a ->]. apply raises_ret. Qed.

Lemma raises_for_each {A} (xs : list A) body :
  (forall x, raises_only P (body x)) -> raises_only P (for_each xs body).
Proof. intros Hb. induction xs; simpl; [apply raises_ret | by apply raises_bind]. Qed.
End RaisesOnly.

(** Exceptions Python raises: anything but the fuel marker. *)
Definition py_exn (e : exn) : Prop := e <> FuelExhausted.

(** A file-system call raises only Python's exceptions. *)
Ltac py_op :=
  intros ?fs; first [ exact (makedirs_py _ _) | exact (listdir_py _ _) | exact (getsize_py _ _)
                    | exact (getctime_py _ _) | exact (shutil_move_py _ _ _) | exact (copy2_py _ _ _ _)
                    | exact (rename_py _ _ _) ].

Ltac solve_raises :=
  repeat match goal with
  | |- raises_only _ (mbind _ _) => apply raises_bind; [| intros ?]
  | |- raises_only _ (mret _) => apply raises_ret
  | |- raises_only _ get_world => apply raises_get
  | |- raises_only _ (for_each _ _) => apply raises_for_each; intros ?
  | |- raises_only py_exn (fs_query _) => apply raises_query; py_op
  | |- raises_only py_exn (fs_update _) => apply raises_update; py_op
  | |- raises_only _ (of_fuel _) => apply raises_of_fuel
  | |- raises_only _ (raise _) => apply raises_raise
  | |- raises_only _ (if ?b then _ else _) => destruct b
  | |- raises_only _ (match ?x with _ => _ end) => destruct x
  | |- raises_only _ (let _ := _ in _) => cbv zeta
  end.

(** The parts of the world the engine handlers do not write. *)
Definition env_kept (w w' : World) : Prop :=
  w_users w' = w_users w /\ w_clock w' = w_clock w /\ w_tz w' = w_tz w /\ w_cwd w' = w_cwd w.

#[export] Instance env_kept_preorder : PreOrder env_kept.
Proof. split; [intros w; done | intros w1 w2 w3 (? & ? & ? & ?) (? & ? & ? & ?); split_and!; congruence]. Qed.

(** The disk stays well formed. *)
Definition wf_kept (w w' : World) : Prop := wf (w_fs w) -> wf (w_fs w').

#[export] Instance wf_kept_preorder : PreOrder wf_kept.
Proof. split; [intros w H; exact H | intros w1 w2 w3 H12 H23 H; exact (H23 (H12 H))]. Qed.

Lemma keeps_update R `{!PreOrder R} op :
  (forall w fs', op (w_fs w) = inr fs' -> R w (set_fs w fs')) -> keeps R (fs_update op).
Proof.
  intros HR w w' r H. unfold fs_update in H.
  destruct (op (w_fs w)) eqn:E; injection H as <- _; [reflexivity | by apply HR].
Qed.

Lemma keeps_weaken (R R' : World -> World -> Prop) {A} (m : M A) :
  (forall w w', R w w' -> R' w w') -> keeps R m -> keeps R' m.
Proof. intros HR Hm w w' r H. exact (HR _ _ (Hm _ _ _ H)). Qed.

(** Decompose a [keeps] goal along the structure of a handler. *)
Ltac solve_keeps :=
  repeat match goal with
  | |- keeps _ (mbind _ _) => apply keeps_bind; [apply _ | | intros ?]
  | |- keeps _ (mret _) => apply keeps_ret; apply _
  | |- keeps _ get_world => apply keeps_get; apply _
  | |- keeps _ (fs_query _) => apply keeps_query; apply _
  | |- keeps _ (raise _) => apply keeps_raise; apply _
  | |- keeps _ (if ?b then _ else _) => destruct b
  | |- keeps _ (match ?x with _ => _ end) => destruct x
  | |- keeps _ (let _ := _ in _) => cbv zeta
  end.
