(* ===== verification/ActivityLog.v ===== *)
(** * The activity log: [create_log] and [load_log]

    src/organizer.py lines 56-59 and 438-455.  Each user has one text file
    [data/logs/<user>_log.txt], opened in append mode: [create_log] adds
    ["<str(datetime.now())> - <message>\n"], encoded as UTF-8, and raises
    [UnicodeEncodeError] (after creating the file) when the message holds
    a file name that is not valid UTF-8; [load_log] shows the file, or a
    placeholder when it is missing or blank, and the text of the
    [UnicodeDecodeError] when the file does not decode (its [except]
    branch), reading in text mode ([universal_newlines]).  The file is
    modelled as its bytes in [w_logs].  The theorems: every engine handler
    only appends to logs ([create_log_extends] is the step it is built
    from) and keeps them valid UTF-8 ([keeps_create_log_utf8], used by
    [Session.reachable_logs_decode]); reading the log after [create_log]
    shows the new line, or the old text when the write raised. *)

From S2P Require Import Prelude PyLib Calendar FileSystem World.
From Stdlib Require Import Ascii.

Definition newline : string := String (ascii_of_nat 10) EmptyString.

(** The line [create_log] writes. *)
Definition log_line (w : World) (message : string) : string :=
  str_datetime (now_local w) +:+ " - " +:+ message +:+ newline.

(** [open(log_file, "a", encoding="utf-8")] creates the file if needed;
    [f.write] encodes the whole line first and raises, writing nothing,
    when the message holds a name that is not valid UTF-8 (a surrogate
    escape of [os.listdir]). *)
Definition create_log (username message : string) : M unit := fun w =>
  let old := default "" (w_logs w !! username) in
  if utf8_valid message
  then (set_logs w (<[username := old +:+ log_line w message]> (w_logs w)), inr tt)
  else (set_logs w (<[username := old]> (w_logs w)), inl UnicodeEncodeError).

Definition NO_LOG_TEXT : string :=
  "No activity log found. Start organizing files to see activity here!".
Definition EMPTY_LOG_TEXT : string :=
  "Activity log is empty. Start organizing files to see activity here!".

(** The text [load_log] puts in the log window: the file read in text
    mode as UTF-8 (newlines translated), a placeholder when it is missing
    or blank, and ["Error reading log file: <str(e)>"] when it does not
    decode (lines 445-453). *)
Definition load_log (w : World) (user : string) : string :=
  match w_logs w !! user with
  | None => NO_LOG_TEXT
  | Some raw =>
      match utf8_err 0 raw with
      | Some e => "Error reading log file: " +:+ decode_error_str raw e
      | None =>
          let log_content := universal_newlines raw in
          if bool_decide (strip log_content = "") then EMPTY_LOG_TEXT else log_content
      end
  end.

(** Every log file holds valid UTF-8. *)
Definition logs_utf8 (w : World) : Prop := map_Forall (fun _ c => utf8_valid c = true) (w_logs w).

Definition logs_utf8_kept (w w' : World) : Prop := logs_utf8 w -> logs_utf8 w'.

(** [l'] extends [l]: every user's log in [l] is a prefix of the one in [l']. *)
Definition logs_extend (l l' : gmap string string) : Prop :=
  forall u s, l !! u = Some s -> exists t, l' !! u = Some (s +:+ t).

#[export] Instance logs_extend_preorder : PreOrder logs_extend.
Proof.
  constructor.
  - intros l u s H. exists "". by rewrite H, string_app_nil_r.
  - intros l1 l2 l3 H12 H23 u s H. destruct (H12 u s H) as [t Ht].
    destruct (H23 u _ Ht) as [t' Ht']. exists (t +:+ t'). by rewrite Ht', string_app_assoc.
Qed.

Lemma create_log_run u msg w : utf8_valid msg = true ->
  create_log u msg w =
  (set_logs w (<[u := default "" (w_logs w !! u) +:+ log_line w msg]> (w_logs w)), inr tt).
Proof. intros Hm. unfold create_log. by rewrite Hm. Qed.

Lemma create_log_py u msg : raises_only py_exn (create_log u msg).
Proof. intros w w' e. unfold create_log. destruct (utf8_valid msg); by intros [= _ <-]. Qed.

Lemma create_log_fails u msg w : utf8_valid msg = false ->
  create_log u msg w = (set_logs w (<[u := default "" (w_logs w !! u)]> (w_logs w)), inl UnicodeEncodeError).
Proof. intros Hm. unfold create_log. by rewrite Hm. Qed.

Lemma insert_logs_extend (l : gmap string string) u t :
  logs_extend l (<[u := default "" (l !! u) +:+ t]> l).
Proof.
  intros v s H. destruct (decide (u = v)) as [-> | Hne].
  - rewrite lookup_insert_eq, H. by eexists.
  - rewrite lookup_insert_ne by done. exists "". by rewrite H, string_app_nil_r.
Qed.

Lemma create_log_extends u msg w :
  logs_extend (w_logs w) (w_logs (create_log u msg w).1).
Proof.
  unfold create_log. destruct (utf8_valid msg); [apply insert_logs_extend |].
  rewrite <- (string_app_nil_r (default "" _)). apply insert_logs_extend.
Qed.

(** What a run of the organize loop or of the undo loop may change besides
    the disk: it appends to logs and touches nothing else. *)
Definition loop_frame (w w' : World) : Prop :=
  env_kept w w' /\ w_undo w' = w_undo w /\ logs_extend (w_logs w) (w_logs w').

#[export] Instance loop_frame_preorder : PreOrder loop_frame.
Proof.
  split.
  - intros w. split_and!; [reflexivity | done | reflexivity].
  - intros w1 w2 w3 (? & ? & ?) (? & ? & ?). split_and!; [by etrans | congruence | by etrans].
Qed.

Lemma keeps_create_log u msg : keeps loop_frame (create_log u msg).
Proof.
  intros w w' r H. pose proof (create_log_extends u msg w) as Hx. rewrite H in Hx. simpl in Hx.
  unfold create_log in H. destruct (utf8_valid msg); injection H as <- _; by split_and!.
Qed.

(** [create_log] never touches the disk the model tracks. *)
Lemma create_log_fs u msg w : w_fs (create_log u msg w).1 = w_fs w.
Proof. unfold create_log. by destruct (utf8_valid msg). Qed.

Lemma keeps_create_log_wf u msg : keeps wf_kept (create_log u msg).
Proof. intros w w' r H Hwf. pose proof (create_log_fs u msg w) as Hfs. rewrite H in Hfs. simpl in Hfs. by rewrite Hfs. Qed.

#[export] Instance logs_utf8_kept_preorder : PreOrder logs_utf8_kept.
Proof. split; [intros w H; exact H | intros w1 w2 w3 H12 H23 H; exact (H23 (H12 H))]. Qed.

(** [str(datetime)] is ASCII. *)
Lemma utf8_valid_str_datetime d y : utf8_valid (str_datetime d +:+ y) = utf8_valid y.
Proof.
  unfold str_datetime. rewrite !string_app_assoc.
  repeat first [ rewrite utf8_valid_fmt04 | rewrite utf8_valid_fmt02
               | rewrite string_app_cons, string_app_nil_l, utf8_valid_ascii_cons by (vm_compute; lia) ].
  done.
Qed.

(** A log line is valid UTF-8 exactly when its message is. *)
Lemma utf8_valid_log_line w msg : utf8_valid (log_line w msg) = utf8_valid msg.
Proof.
  unfold log_line, newline. rewrite ?string_app_assoc, utf8_valid_str_datetime.
  rewrite !string_app_cons, string_app_nil_l, !utf8_valid_ascii_cons by (vm_compute; lia).
  rewrite utf8_valid_app_ascii by (vm_compute; lia). by rewrite andb_true_r.
Qed.

Lemma logs_utf8_insert w u c :
  logs_utf8 w -> utf8_valid c = true -> map_Forall (fun _ c => utf8_valid c = true) (<[u := c]> (w_logs w)).
Proof. intros Hw Hc. by apply map_Forall_insert_2. Qed.

Lemma keeps_create_log_utf8 u msg : keeps logs_utf8_kept (create_log u msg).
Proof.
  intros w w' r H Hw. unfold create_log in H.
  assert (Hold : utf8_valid (default "" (w_logs w !! u)) = true).
  { destruct (w_logs w !! u) as [c|] eqn:Hc; [exact (Hw _ _ Hc) | done]. }
  destruct (utf8_valid msg) eqn:Hm; injection H as <- _; apply logs_utf8_insert; try done.
  by rewrite utf8_valid_app_l, utf8_valid_log_line.
Qed.

Lemma keeps_update_utf8 op : keeps logs_utf8_kept (fs_update op).
Proof. apply keeps_update; [apply _ |]. intros w fs' _ Hw. exact Hw. Qed.

Lemma logs_same_utf8 w w' : w_logs w' = w_logs w -> logs_utf8_kept w w'.
Proof. intros Heq Hw. unfold logs_utf8. by rewrite Heq. Qed.

Lemma keeps_update_loop op : keeps loop_frame (fs_update op).
Proof. apply keeps_update; [apply _ |]. intros w fs' _. split_and!; [done | done | reflexivity]. Qed.

(** What every engine handler keeps: the environment, and logs only grow. *)
Definition engine_frame (w w' : World) : Prop :=
  env_kept w w' /\ logs_extend (w_logs w) (w_logs w').

#[export] Instance engine_frame_preorder : PreOrder engine_frame.
Proof.
  split; [intros w; split; reflexivity |].
  intros w1 w2 w3 [? ?] [? ?]. split; by etrans.
Qed.

Lemma loop_frame_engine w w' : loop_frame w w' -> engine_frame w w'.
Proof. intros (? & _ & ?). by split. Qed.

(** A log line is never blank: it holds the ["-"] of [" - "]. *)
Lemma log_line_not_space w msg s : all_space (s +:+ log_line w msg) = false.
Proof.
  unfold log_line. rewrite !all_space_app. replace (all_space " - ") with false by reflexivity.
  by rewrite !andb_false_r, ?andb_false_l.
Qed.

(** [C10] Appending then reading the log: on a world whose logs are valid
    UTF-8, after [create_log user message] with a message that is valid
    UTF-8, the log window of [user] shows the whole earlier log followed
    by the new line ["<str(datetime.now())> - <message>\n"], as text mode
    reads it back (newlines translated); otherwise [create_log] raises
    [UnicodeEncodeError], the log keeps its text, and a log that did not
    exist now exists empty, so the window shows the empty-log text
    instead of the missing-log one. *)
Theorem load_log_after_create_log user message w :
  logs_utf8 w ->
  if utf8_valid message then
    ((create_log user message w).2 = inr tt /\
     load_log (create_log user message w).1 user =
       universal_newlines (default "" (w_logs w !! user) +:+ log_line w message))
  else
    ((create_log user message w).2 = inl UnicodeEncodeError /\
     load_log (create_log user message w).1 user =
       match w_logs w !! user with None => EMPTY_LOG_TEXT | Some _ => load_log w user end).
Proof.
  intros Hw. assert (Hold : utf8_valid (default "" (w_logs w !! user)) = true).
  { destruct (w_logs w !! user) as [c|] eqn:Hc; [exact (Hw _ _ Hc) | done]. }
  unfold create_log, load_log. destruct (utf8_valid message) eqn:Hm; simpl; rewrite lookup_insert_eq;
    split; try done.
  - rewrite (proj2 (utf8_err_valid 0 _)) by (by rewrite utf8_valid_app_l, utf8_valid_log_line).
    rewrite bool_decide_eq_false_2; [done |]. intros Hs. apply strip_empty in Hs.
    by rewrite all_space_universal_newlines, log_line_not_space in Hs.
  - by destruct (w_logs w !! user).
Qed.

Definition ex_log_world : World := mkWorld ∅ ∅ None ∅ 1710072000 0 [].

Lemma load_log_after_create_log_witness :
  logs_utf8 ex_log_world /\
  if utf8_valid "Moved: a.txt" then
    ((create_log "alice" "Moved: a.txt" ex_log_world).2 = inr tt /\
     load_log (create_log "alice" "Moved: a.txt" ex_log_world).1 "alice" =
       universal_newlines (default "" (w_logs ex_log_world !! "alice") +:+ log_line ex_log_world "Moved: a.txt"))
  else
    ((create_log "alice" "Moved: a.txt" ex_log_world).2 = inl UnicodeEncodeError /\
     load_log (create_log "alice" "Moved: a.txt" ex_log_world).1 "alice" =
       match w_logs ex_log_world !! "alice" with None => EMPTY_LOG_TEXT | Some _ => load_log ex_log_world "alice" end).
Proof.
  assert (H : logs_utf8 ex_log_world) by apply map_Forall_empty.
  split; [exact H | exact (load_log_after_create_log "alice" "Moved: a.txt" ex_log_world H)].
Defined.
