(* ===== verification/Backup.v ===== *)
(** * The backup stage: [backup_folder]

    src/organizer.py lines 61-69.  Before organizing, every regular file
    directly inside the folder is copied with [shutil.copy2] into
    [data/backups/<user>/<strftime("%Y-%m-%d_%H-%M-%S")>].  The theorem
    ([backup_folder_copies]): when it returns, the backup directory holds a
    copy of each of those files with the same contents, size and
    modification time, and no file outside the backup directory changed. *)

From S2P Require Import Prelude PyLib Calendar FileSystem World ActivityLog.

(** [os.path.join(DATA_DIR, "backups", username, timestamp)]. *)
Definition backup_dir_of (w : World) (username : string) : Path :=
  DATA_DIR w ++ ["backups"; username; strftime_backup (now_local w)].

Definition backup_folder (username : string) (folder_path : Path) : M Path :=
  w ← get_world;
  let backup_dir := backup_dir_of w username in
  _ ← fs_update (fun fs => makedirs fs backup_dir);
  items ← fs_query (fun fs => listdir fs folder_path);
  _ ← for_each items (fun item =>
        w' ← get_world;
        let src_path := join folder_path item in
        if isfile (w_fs w') src_path
        then fs_update (fun fs => copy2 (w_clock w') fs src_path backup_dir)
        else mret tt);
  mret backup_dir.

(** The backup raises only what [os.makedirs], [os.listdir] and
    [shutil.copy2] raise. *)
Lemma backup_folder_py username folder_path : raises_only py_exn (backup_folder username folder_path).
Proof. unfold backup_folder. solve_raises. Qed.

(** ** Frame of the backup stage *)

(** A step of the engine that keeps the disk well formed and its directories. *)
Definition disk_sound (w w' : World) : Prop :=
  (wf (w_fs w) -> wf (w_fs w')) /\ dirs_kept (w_fs w) (w_fs w').

#[export] Instance disk_sound_preorder : PreOrder disk_sound.
Proof.
  split; [intros w; split; [done | reflexivity] |].
  intros w1 w2 w3 [H12 D12] [H23 D23]. split; [tauto | by etrans].
Qed.

Lemma keeps_disk_sound_query {A} (q : FS -> exn + A) : keeps disk_sound (fs_query q).
Proof. apply keeps_query, _. Qed.

Lemma backup_folder_sound user folder : keeps disk_sound (backup_folder user folder).
Proof.
  unfold backup_folder. solve_keeps.
  - apply keeps_update; [apply _ |]. intros w fs' H. split; simpl.
    + intros Hwf. by destruct (makedirs_ok _ _ _ Hwf H) as (? & ? & ?).
    + by eapply makedirs_dirs_kept.
  - apply keeps_for_each; [apply _ |]. intros item. solve_keeps.
    apply keeps_update; [apply _ |]. intros w'' fs' H. split; simpl.
    + intros Hwf. by eapply copy2_wf.
    + by eapply copy2_dirs_kept.
Qed.

Lemma backup_folder_frame user folder : keeps loop_frame (backup_folder user folder).
Proof.
  unfold backup_folder. solve_keeps; try apply keeps_update_loop.
  apply keeps_for_each; [apply _ |]. intros item. solve_keeps. apply keeps_update_loop.
Qed.

(** The backup stage writes no log. *)
Lemma backup_folder_utf8 user folder : keeps logs_utf8_kept (backup_folder user folder).
Proof.
  unfold backup_folder. solve_keeps; try apply keeps_update_utf8.
  apply keeps_for_each; [apply _ |]. intros item. solve_keeps. apply keeps_update_utf8.
Qed.

(** The backup stage removes nothing from the disk: it only creates
    directories and copies. *)
Definition entries_kept (w w' : World) : Prop :=
  forall p, is_Some (w_fs w !! p) -> is_Some (w_fs w' !! p).

#[export] Instance entries_kept_preorder : PreOrder entries_kept.
Proof. split; [by intros w p | intros w1 w2 w3 H12 H23 p Hp; by apply H23, H12]. Qed.

Lemma backup_folder_entries_kept user folder : keeps entries_kept (backup_folder user folder).
Proof.
  unfold backup_folder. solve_keeps.
  - apply keeps_update; [apply _ |]. intros w fs' H p [e He]. simpl.
    destruct (makedirs_go_grows _ _ _ _ H p) as [-> | [Hn _]]; [by eexists | congruence].
  - apply keeps_for_each; [apply _ |]. intros item. solve_keeps.
    apply keeps_update; [apply _ |]. intros w'' fs' H p Hp. simpl.
    destruct (copy2_inv _ _ _ _ _ H) as (real & f & _ & _ & _ & _ & _ & ->).
    destruct (decide (real = p)) as [-> | Hne]; [rewrite lookup_insert_eq; by eexists |].
    by rewrite lookup_insert_ne.
Qed.

(** ** The backup holds a copy of every file *)

Section Copies.
Context (folder bdir : Path).
Hypothesis Hne : folder <> bdir.

(** The body of the [for] loop of [backup_folder]. *)
Definition backup_item (item : string) : M unit :=
  w' ← get_world;
  let src_path := join folder item in
  if isfile (w_fs w') src_path
  then fs_update (fun fs => copy2 (w_clock w') fs src_path bdir)
  else mret tt.

Lemma backup_loop_spec items w w' :
  w_fs w !! bdir = Some Dir -> NoDup items ->
  for_each items backup_item w = (w', inr tt) ->
  w_clock w' = w_clock w /\
  (forall p, (forall i, i ∈ items -> p <> join bdir i) -> w_fs w' !! p = w_fs w !! p) /\
  (forall i f, i ∈ items -> w_fs w !! join folder i = Some (File f) ->
     w_fs w' !! join bdir i = Some (File (mkFile (f_data f) (f_size f) (w_clock w) (f_mtime f)))).
Proof.
  revert w. induction items as [|i rest IH]; intros w Hd Hnd H.
  { injection H as <-. split_and!; [done | done | by intros ? ? ?%not_elem_of_nil]. }
  apply NoDup_cons in Hnd as [Hi Hnd].
  apply bind_run_inv in H as [(w1 & [] & H1 & H) | (e & _ & [=])].
  assert (Hjoin : forall j, join folder j <> join bdir i).
  { intros j Heq. by apply app_inj_tail in Heq as [? _]. }
  assert (Hstep : w_clock w1 = w_clock w /\
    (forall p, p <> join bdir i -> w_fs w1 !! p = w_fs w !! p) /\
    (forall f, w_fs w !! join folder i = Some (File f) ->
       w_fs w1 !! join bdir i = Some (File (mkFile (f_data f) (f_size f) (w_clock w) (f_mtime f))))).
  { unfold backup_item, mbind, M_bind, get_world in H1.
    destruct (isfile (w_fs w) (join folder i)) eqn:Hf.
    - unfold fs_update in H1. destruct (copy2 _ _ _ _) as [|fs1] eqn:Hc; [done |].
      injection H1 as <-. apply copy2_into_dir in Hc as (f & Hsrc & ->); [| done].
      rewrite basename_join. cbn [set_fs w_fs w_clock].
      split_and!; [done | intros p Hp; by rewrite lookup_insert_ne |].
      intros f' Hf'. rewrite Hsrc in Hf'. injection Hf' as <-. simpl. by rewrite lookup_insert_eq.
    - injection H1 as <-. split_and!; [done | done |]. intros f Hf'.
      assert (isfile (w_fs w) (join folder i) = true) by (apply isfile_true; by eexists). congruence. }
  destruct Hstep as (Hc1 & Hfr1 & Hcp1).
  assert (Hd1 : w_fs w1 !! bdir = Some Dir).
  { rewrite Hfr1; [done |]. intros Heq. apply (f_equal length) in Heq.
    rewrite length_join in Heq. lia. }
  destruct (IH w1 Hd1 Hnd H) as (Hc & Hfr & Hcp).
  split_and!; [congruence | |].
  - intros p Hp. rewrite Hfr, Hfr1; [done | apply Hp; by left | intros j Hj; apply Hp; by right].
  - intros j f [-> | Hj]%elem_of_cons Hf.
    + rewrite Hfr; [by apply Hcp1 |]. intros j Hj Heq. apply (inj (join bdir)) in Heq. by subst.
    + rewrite <- Hc1. apply Hcp; [done |]. by rewrite Hfr1.
Qed.
End Copies.

(** [C8] When [backup_folder] returns, it returns the timestamped
    directory [data/backups/<user>/<%Y-%m-%d_%H-%M-%S>], which exists and
    holds, for every regular file directly inside the folder, a copy with
    the same name, contents, size and modification time; no regular file
    outside that directory changed.  (The folder must not be the backup
    directory itself.) *)
Theorem backup_folder_copies user folder w w' bdir :
  wf (w_fs w) -> folder <> backup_dir_of w user ->
  backup_folder user folder w = (w', inr bdir) ->
  bdir = backup_dir_of w user /\ w_fs w' !! bdir = Some Dir /\
  (forall item f, w_fs w !! join folder item = Some (File f) ->
     w_fs w' !! join bdir item = Some (File (mkFile (f_data f) (f_size f) (w_clock w) (f_mtime f)))) /\
  (forall p f, (forall item, p <> join bdir item) ->
     w_fs w !! p = Some (File f) -> w_fs w' !! p = Some (File f)).
Proof.
  intros Hwf Hne H. unfold backup_folder, mbind, M_bind at 1, get_world in H. cbv beta iota in H.
  set (bd := backup_dir_of w user) in *.
  apply bind_run_inv in H as [(w1 & [] & H1 & H) | (e & _ & [=])].
  unfold fs_update in H1. destruct (makedirs (w_fs w) bd) as [|fs0] eqn:Hmk; [done |].
  injection H1 as <-.
  apply bind_run_inv in H as [(w2 & items & H2 & H) | (e & _ & [=])].
  unfold fs_query in H2. simpl in H2. destruct (listdir fs0 folder) as [|items'] eqn:Hls; [done |].
  injection H2 as <- <-.
  apply bind_run_inv in H as [(w3 & [] & H3 & H) | (e & _ & [=])].
  injection H as <- <-.
  assert (Hgrow : grows_by_dirs (w_fs w) fs0) by exact (makedirs_go_grows _ _ _ _ Hmk).
  assert (Hbd : fs0 !! bd = Some Dir).
  { by destruct (makedirs_ok (w_fs w) bd fs0 Hwf Hmk) as (_ & ? & _). }
  destruct (backup_loop_spec folder bd Hne items' (set_fs w fs0) w3 Hbd (listdir_nodup _ _ _ Hls) H3)
    as (Hc & Hfr & Hcp).
  simpl in Hc, Hfr, Hcp.
  split_and!; [done | | |].
  - rewrite Hfr; [done |]. intros i _ Heq. apply (f_equal length) in Heq. rewrite length_join in Heq. lia.
  - intros item f Hf. apply Hcp; [| by apply (grows_by_dirs_file (w_fs w))].
    apply (listdir_elem _ _ _ _ Hls). change (folder ++ [item]) with (join folder item).
    rewrite (grows_by_dirs_file _ _ _ _ Hgrow Hf). by eexists.
  - intros p f Hp Hf. rewrite Hfr; [by apply (grows_by_dirs_file (w_fs w)) | intros i _; apply Hp].
Qed.

(** A folder [/home/dl] with one text file, backed up at 2024-03-10 12:00:00 UTC. *)
Definition ex_bk_w : World :=
  mkWorld (list_to_map [([], Dir); (["home"], Dir); (["home"; "dl"], Dir);
                        (["home"; "dl"; "a.txt"], File (mkFile "hello" 5 1700000000 1700000000))])
          ∅ None ∅ 1710072000 0 ["home"].

Lemma ex_bk_run : backup_folder "alice" ["home"; "dl"] ex_bk_w =
  ((backup_folder "alice" ["home"; "dl"] ex_bk_w).1, inr (backup_dir_of ex_bk_w "alice")).
Proof. apply run_eq. vm_decide. Qed.

Lemma backup_folder_copies_witness :
  wf (w_fs ex_bk_w) /\ ["home"; "dl"] <> backup_dir_of ex_bk_w "alice" /\
  let w' := (backup_folder "alice" ["home"; "dl"] ex_bk_w).1 in
  let bdir := backup_dir_of ex_bk_w "alice" in
  bdir = backup_dir_of ex_bk_w "alice" /\ w_fs w' !! bdir = Some Dir /\
  (forall item f, w_fs ex_bk_w !! join ["home"; "dl"] item = Some (File f) ->
     w_fs w' !! join bdir item = Some (File (mkFile (f_data f) (f_size f) (w_clock ex_bk_w) (f_mtime f)))) /\
  (forall p f, (forall item, p <> join bdir item) ->
     w_fs ex_bk_w !! p = Some (File f) -> w_fs w' !! p = Some (File f)).
Proof.
  assert (H1 : wf (w_fs ex_bk_w)) by (apply wf_check_sound; vm_compute; reflexivity).
  assert (H2 : ["home"; "dl"] <> backup_dir_of ex_bk_w "alice") by vm_decide.
  split_and!; [exact H1 | exact H2 |].
  exact (backup_folder_copies "alice" ["home"; "dl"] ex_bk_w _ _ H1 H2 ex_bk_run).
Defined.

(** ** The backup writes the disk only *)

(** [w'] is [w] with another disk. *)
Definition disk_only (w w' : World) : Prop := w' = set_fs w (w_fs w').

#[export] Instance disk_only_preorder : PreOrder disk_only.
Proof.
  split; [by intros [] |]. intros w1 w2 w3 H12 H23. unfold disk_only in *.
  rewrite H23, H12. by destruct w1.
Qed.

Lemma backup_folder_disk_only user folder : keeps disk_only (backup_folder user folder).
Proof.
  unfold backup_folder. solve_keeps;
    try (apply keeps_update; [apply _ | intros w fs' _; by destruct w]).
  apply keeps_for_each; [apply _ |]. intros item. solve_keeps.
  apply keeps_update; [apply _ | intros w fs' _; by destruct w].
Qed.

(** The backup stage writes the file system only: the users, the
    undo slot, the activity logs, the clock and the working directory are
    those it started with, whether it returns or raises. *)
Theorem backup_folder_writes_disk_only user folder w :
  (backup_folder user folder w).1 = set_fs w (w_fs (backup_folder user folder w).1).
Proof. exact (backup_folder_disk_only user folder w _ _ (surjective_pairing _)). Qed.
