(* ===== verification/Organizer.v ===== *)
(** * The organizer: [FileOrganizerGUI.organize_files_thread]

    src/organizer.py lines 295-353.  The worker thread parses the skip
    list, runs [backup_folder], then for each name [os.listdir] returned
    ([organize_item], the loop body, lines 311-340): skips non-files and
    skipped extensions, classifies the file, builds
    [folder/category/year/month/size_group], creates it, picks a free name
    with the collision loop, moves the file, records
    [(new_path, folder_path)], counts the category and logs the move.  When
    at least one file moved it overwrites [undo_log.json] with
    [{"user", "files"}].  An exception anywhere ends the run with every
    earlier change kept and the undo log untouched.

    The summary dict is a [gmap]; its display order is not modelled.
    [summary_of_lookup] gives each category's count, from which the
    summary of a run is a count map over [CATEGORIES]. *)

From S2P Require Import Prelude PyLib Classifier Calendar FileSystem Naming World ActivityLog Backup.
From Stdlib Require Import Ascii.

(** [skip_exts = [s.strip().lower() for s in skip_text.split(",")] if skip_text else []]
    with [skip_text = self.skip_entry.get().strip()]. *)
Definition parse_skip_exts (skip_entry : string) : list string :=
  let skip_text := strip skip_entry in
  if bool_decide (skip_text = "") then []
  else (fun s => lower (strip s)) <$> split_on ","%char skip_text.

(** [moved_files] and [summary] as the loop accumulates them. *)
Abbreviation Acc := (list (Path * Path) * gmap string nat)%type.

(** [summary[category] = summary.get(category, 0) + 1] (line 339). *)
Definition bump (category : string) (summary : gmap string nat) : gmap string nat :=
  <[category := (default 0 (summary !! category) + 1)%nat]> summary.

(** The message of the [create_log] call on line 340. *)
Definition moved_message (item category year_folder month_folder size_group : string) : string :=
  "Moved: " +:+ item +:+ " → " +:+ category +:+ "/" +:+ year_folder +:+ "/" +:+
  month_folder +:+ "/" +:+ size_group.

(** The body of [for item in os.listdir(folder_path)]. *)
Definition organize_item (user : string) (folder_path : Path) (skip_exts : list string)
    (acc : Acc) (item : string) : M Acc :=
  w ← get_world;
  let item_path := join folder_path item in
  if isfile (w_fs w) item_path then
    let ext := (splitext item).2 in
    if bool_decide (lower ext ∈ skip_exts) then mret acc
    else
      let category := get_category ext in
      size ← fs_query (fun fs => getsize fs item_path);
      let size_group := get_size_group size in
      ctime ← fs_query (fun fs => getctime fs item_path);
      let creation_time := fromtimestamp (w_tz w) ctime in
      let year_folder := py_str_Z (dt_year creation_time) in
      let month_folder := fmt02 (dt_month creation_time) in
      let category_folder := folder_path ++ [category; year_folder; month_folder; size_group] in
      _ ← fs_update (fun fs => makedirs fs category_folder);
      w' ← get_world;
      new_path ← of_fuel (free_path (w_fs w') category_folder item);
      _ ← fs_update (fun fs => shutil_move fs item_path new_path);
      let moved_files := acc.1 ++ [(new_path, folder_path)] in
      let summary := bump category acc.2 in
      _ ← create_log user (moved_message item category year_folder month_folder size_group);
      mret (moved_files, summary)
  else mret acc.

Fixpoint organize_loop (user : string) (folder_path : Path) (skip_exts : list string)
    (items : list string) (acc : Acc) : M Acc :=
  match items with
  | [] => mret acc
  | item :: rest =>
      acc' ← organize_item user folder_path skip_exts acc item;
      organize_loop user folder_path skip_exts rest acc'
  end.

(** Lines 343-345: overwrite [undo_log.json] with [{"user": self.current_user,
    "files": moved_files}] when something moved ([None] is stored as [null]). *)
Definition save_undo (user : option string) (moved_files : list (Path * Path)) : M unit := fun w =>
  match moved_files with
  | [] => (w, inr tt)
  | _ :: _ => (set_undo w (Some (mkUndoLog user moved_files)), inr tt)
  end.

(** The body of the [try] of [organize_files_thread]; it returns what
    [show_organization_results] receives. *)
Definition organize_files_thread (user : string) (skip_entry : string) (folder_path : Path)
    : M (gmap string nat * Path) :=
  let skip_exts := parse_skip_exts skip_entry in
  backup_path ← backup_folder user folder_path;
  items ← fs_query (fun fs => listdir fs folder_path);
  acc ← organize_loop user folder_path skip_exts items ([], ∅);
  _ ← save_undo (Some user) acc.1;
  mret (acc.2, backup_path).

(** ** The organize loop moves files without loss

    [moved_inv fs0 folder tz M fs] relates the disk [fs0] before the loop
    to the current disk [fs] after the items of [M] were moved, [M]
    pairing each moved name with its destination: each destination holds
    the original file, lies in [category_folder_of folder tz i f] (the
    file's category, the year and month of its ctime in the zone [tz],
    its size group), destinations are distinct and were free in [fs0];
    every other path holds what it held in [fs0] or a new directory; a
    moved name's old path is now empty or a directory. *)

(** The guard of the loop body: a regular file whose extension is not skipped. *)
Definition should_move (fs : FS) (folder : Path) (skip_exts : list string) (item : string) : bool :=
  isfile fs (join folder item) && negb (bool_decide (lower (splitext item).2 ∈ skip_exts)).

Lemma getsize_file fs p f : fs !! p = Some (File f) -> getsize fs p = inr (f_size f).
Proof. intros H. unfold getsize, stat_file. by rewrite H. Qed.

Lemma getctime_file fs p f : fs !! p = Some (File f) -> getctime fs p = inr (f_ctime f).
Proof. intros H. unfold getctime, stat_file. by rewrite H. Qed.

(** The [moved_files] entries of a list of moves. *)
Definition records (folder : Path) (M : list (string * Path)) : list (Path * Path) :=
  (fun m => (m.2, folder)) <$> M.

(** The log line of a move is valid UTF-8 only when the file's name is. *)
Lemma moved_message_utf8 item category year_folder month_folder size_group :
  utf8_valid (moved_message item category year_folder month_folder size_group) = true ->
  utf8_valid item = true.
Proof.
  unfold moved_message. rewrite !string_app_cons, string_app_nil_l, !utf8_valid_ascii_cons by (vm_compute; lia).
  rewrite utf8_valid_app_ascii by (vm_compute; lia). by intros [? _]%andb_true_iff.
Qed.

Lemma organize_item_frame user folder skip acc item :
  keeps loop_frame (organize_item user folder skip acc item).
Proof.
  unfold organize_item, of_fuel. solve_keeps; first [apply keeps_update_loop | apply keeps_create_log].
Qed.

(** The loop body never runs out of fuel: the collision loop always finds
    a free name ([fresh_total]), so it raises only Python's exceptions. *)
Lemma organize_item_py user folder skip acc item : raises_only py_exn (organize_item user folder skip acc item).
Proof. unfold organize_item. solve_raises; [apply fresh_total | apply create_log_py]. Qed.

(** The loop body keeps the disk well formed, whatever the disk holds. *)
Lemma organize_item_wf user folder skip acc item :
  keeps wf_kept (organize_item user folder skip acc item).
Proof.
  unfold organize_item, of_fuel. solve_keeps.
  all: first [ apply keeps_update; [apply _ | intros w fs' H Hwf;
                 first [exact (proj2 (proj2 (makedirs_ok _ _ _ Hwf H))) | exact (shutil_move_wf _ _ _ _ Hwf H)]]
             | apply keeps_create_log_wf ].
Qed.

(** [category_folder] (lines 317-325) for the file [f] named [item],
    with local time [tz] seconds east of UTC. *)
Definition category_folder_of (folder : Path) (tz : Z) (item : string) (f : file) : Path :=
  folder ++ [get_category (splitext item).2;
             py_str_Z (dt_year (fromtimestamp tz (f_ctime f)));
             fmt02 (dt_month (fromtimestamp tz (f_ctime f)));
             get_size_group (f_size f)].

Section MovedInv.
Context (fs0 : FS) (folder : Path) (tz : Z).
Hypothesis Hwf0 : wf fs0.
Hypothesis Hfolder : fs0 !! folder = Some Dir.

Record moved_inv (M : list (string * Path)) (fs : FS) : Prop := {
  mi_wf : wf fs;
  mi_dst : forall i d, (i, d) ∈ M ->
    fs !! d = fs0 !! join folder i /\ exists f, fs0 !! join folder i = Some (File f);
  mi_nodup : NoDup M.*2;
  mi_depth : forall i d, (i, d) ∈ M -> length d = (length folder + 5)%nat;
  mi_fresh : forall i d, (i, d) ∈ M -> fs0 !! d = None;
  mi_frame : forall p, p ∉ M.*2 -> (forall i, i ∈ M.*1 -> p <> join folder i) ->
    fs !! p = fs0 !! p \/ (fs0 !! p = None /\ fs !! p = Some Dir);
  mi_src : forall i, i ∈ M.*1 -> fs !! join folder i = None \/ fs !! join folder i = Some Dir;
  mi_place : forall i d, (i, d) ∈ M ->
    exists f, fs0 !! join folder i = Some (File f) /\ parent d = category_folder_of folder tz i f
}.

Lemma moved_inv_nil : moved_inv [] fs0.
Proof. split; try set_solver. constructor. Qed.

Lemma moved_inv_grow M fs fs1 :
  moved_inv M fs -> grows_by_dirs fs fs1 -> wf fs1 -> moved_inv M fs1.
Proof.
  intros [Hwf Hdst Hnd Hdep Hfr Hfrm Hsrc Hpl] Hg Hwf1. split; try done.
  - intros i d Hin. destruct (Hdst i d Hin) as [Hd [f Hf]].
    split; [| by exists f]. rewrite Hf. apply (grows_by_dirs_some fs fs1); [done |].
    by rewrite Hd, Hf.
  - intros p Hp Hp'. destruct (Hg p) as [-> | [Hn Hd]]; [by apply Hfrm |].
    destruct (Hfrm p Hp Hp') as [Ho | [Ho _]]; right; [by rewrite <- Ho | done].
  - intros i Hi. destruct (Hg (join folder i)) as [-> | [_ Hd]]; [by apply Hsrc | by right].
Qed.

(** A name not moved yet still has its original entry, or a new directory. *)
Lemma moved_inv_item M fs i :
  moved_inv M fs -> i ∉ M.*1 ->
  fs !! join folder i = fs0 !! join folder i \/
  (fs0 !! join folder i = None /\ fs !! join folder i = Some Dir).
Proof.
  intros Hinv Hi. apply (mi_frame _ _ Hinv).
  - intros Hin. apply list_elem_of_fmap in Hin as ([i' d] & Heq & Hin). simpl in Heq. subst d.
    pose proof (mi_depth _ _ Hinv _ _ Hin) as Hl. rewrite length_join in Hl. lia.
  - intros i' Hi' Heq. apply (inj (join folder)) in Heq. by subst.
Qed.

Lemma moved_inv_file M fs i f :
  moved_inv M fs -> i ∉ M.*1 -> fs0 !! join folder i = Some (File f) -> fs !! join folder i = Some (File f).
Proof. intros Hinv Hi Hf. destruct (moved_inv_item M fs i Hinv Hi) as [-> | [? ?]]; congruence. Qed.

Lemma moved_inv_isfile M fs i :
  moved_inv M fs -> i ∉ M.*1 -> isfile fs (join folder i) = isfile fs0 (join folder i).
Proof.
  intros Hinv Hi. unfold isfile.
  destruct (moved_inv_item M fs i Hinv Hi) as [-> | [-> ->]]; done.
Qed.
Lemma moved_inv_dst_some M fs d : moved_inv M fs -> d ∈ M.*2 -> is_Some (fs !! d).
Proof.
  intros Hinv Hd. apply list_elem_of_fmap in Hd as ([i d'] & -> & Hin). simpl.
  destruct (mi_dst _ _ Hinv i d' Hin) as [-> [f ->]]. by eexists.
Qed.

Lemma moved_inv_dst_not_src M fs i d : moved_inv M fs -> d ∈ M.*2 -> d <> join folder i.
Proof.
  intros Hinv Hd ->. apply list_elem_of_fmap in Hd as ([i' d'] & Heq & Hin). simpl in Heq.
  pose proof (mi_depth _ _ Hinv _ _ Hin) as Hl. rewrite <- Heq, length_join in Hl. lia.
Qed.

(** One move: the file at [folder/i] goes to the free path [d]. *)
Lemma moved_inv_move M fs i f d :
  moved_inv M fs -> i ∉ M.*1 -> fs0 !! join folder i = Some (File f) ->
  fs !! join folder i = Some (File f) -> fs !! d = None ->
  length d = (length folder + 5)%nat -> d <> [] -> fs !! parent d = Some Dir ->
  parent d = category_folder_of folder tz i f ->
  moved_inv (M ++ [(i, d)]) (<[d := File f]> (delete (join folder i) fs)).
Proof.
  intros Hinv Hi Hf0 Hf Hd Hl Hne Hp Hcat.
  assert (Hdsrc : forall i', d <> join folder i').
  { intros i' ->. rewrite length_join in Hl. lia. }
  assert (HdM : d ∉ M.*2).
  { intros HdM. destruct (moved_inv_dst_some _ _ _ Hinv HdM). congruence. }
  assert (Hlook : forall p, p <> d -> p <> join folder i ->
            <[d := File f]> (delete (join folder i) fs) !! p = fs !! p)
    by (intros; by apply lookup_moved).
  pose proof Hinv as [Hwf Hdst Hnd Hdep Hfr Hfrm Hsrc Hpl]. split.
  - apply wf_rename_file; [done | done | done | done | congruence].
  - intros i' d' Hin. apply elem_of_app in Hin as [Hin | Hin%list_elem_of_singleton].
    + destruct (Hdst i' d' Hin) as [Hd' Hf']. split; [| done].
      assert (Hin2 : d' ∈ M.*2) by (apply (list_elem_of_fmap_2 snd) in Hin; done).
      rewrite (Hlook d'); [exact Hd' | congruence |].
      by eapply moved_inv_dst_not_src.
    + injection Hin as -> ->. rewrite lookup_insert_eq, Hf0. split; [done | by exists f].
  - rewrite fmap_app. apply NoDup_app. split_and!; [done | | by apply NoDup_singleton].
    intros x Hx Hx'. apply list_elem_of_singleton in Hx'. subst. done.
  - intros i' d' Hin. apply elem_of_app in Hin as [Hin | Hin%list_elem_of_singleton];
      [by eapply Hdep | by injection Hin as -> ->].
  - intros i' d' Hin. apply elem_of_app in Hin as [Hin | Hin%list_elem_of_singleton];
      [by eapply Hfr | injection Hin as -> ->].
    destruct (Hfrm d HdM) as [Ho | [Ho _]]; [| congruence | done].
    intros i'' _. apply Hdsrc.
  - intros p Hpd Hps.
    assert (p ∉ M.*2 /\ p <> d) as [Hp1 Hp2] by (split; intros ?; apply Hpd; rewrite fmap_app; set_solver).
    assert (p <> join folder i) by (apply Hps; rewrite fmap_app; set_solver).
    rewrite Hlook by done. apply Hfrm; [done |].
    intros i' Hi'. apply Hps. rewrite fmap_app. set_solver.
  - intros i' Hi'. rewrite fmap_app in Hi'. simpl in Hi'.
    apply elem_of_app in Hi' as [Hi' | ->%list_elem_of_singleton].
    + rewrite Hlook; [by apply Hsrc | done |]. intros Heq. apply (inj (join folder)) in Heq. by subst.
    + left. rewrite lookup_insert_ne by done. apply lookup_delete_eq.
  - intros i' d' Hin. apply elem_of_app in Hin as [Hin | Hin%list_elem_of_singleton];
      [by apply Hpl | injection Hin as -> ->; by exists f].
Qed.
(** One iteration of the loop body, on every branch: a file to move is
    moved to a fresh destination under its category folder; the run stops
    unchanged when [makedirs] raises, or after the move when the name
    cannot be written to the log (never for a lack of fuel); anything
    else is left. *)
Lemma organize_item_step user skip acc item w w' r M :
  w_tz w = tz -> moved_inv M (w_fs w) -> item ∉ M.*1 ->
  organize_item user folder skip acc item w = (w', r) ->
  if should_move fs0 folder skip item then
    match r with
    | inr acc' => exists d f,
        fs0 !! join folder item = Some (File f) /\
        acc' = (acc.1 ++ [(d, folder)], bump (get_category (splitext item).2) acc.2) /\
        parent d = category_folder_of folder tz item f /\
        moved_inv (M ++ [(item, d)]) (w_fs w') /\ utf8_valid (basename d) = true /\
        utf8_valid item = true
    | inl e => (w' = w /\ (e = FileExistsError \/ e = NotADirectoryError)) \/
        (e = UnicodeEncodeError /\ exists d f,
          fs0 !! join folder item = Some (File f) /\ parent d = category_folder_of folder tz item f /\
          moved_inv (M ++ [(item, d)]) (w_fs w'))
    end
  else r = inr acc /\ w' = w.
Proof.
  intros Htz Hinv Hi H. unfold should_move. rewrite <- (moved_inv_isfile _ _ _ Hinv Hi).
  unfold organize_item, mbind, M_bind, mret, M_ret, get_world, fs_query, fs_update, of_fuel in H.
  destruct (isfile (w_fs w) (join folder item)) eqn:Hisf; simpl in H; [| simplify_eq; by simpl].
  destruct (bool_decide _); simpl in H; [simplify_eq; by simpl |]. simpl.
  apply isfile_true in Hisf as [f Hf].
  assert (Hf0 : fs0 !! join folder item = Some (File f)).
  { destruct (moved_inv_item _ _ _ Hinv Hi) as [<- | [_ ?]]; congruence. }
  rewrite (getsize_file _ _ _ Hf), (getctime_file _ _ _ Hf) in H.
  set (cf := folder ++ _) in H.
  destruct (makedirs (w_fs w) cf) as [e|fs1] eqn:Hmk;
    [simplify_eq; left; split; [done | exact (makedirs_go_err _ _ _ _ Hmk)] |].
  destruct (makedirs_ok _ _ _ (mi_wf _ _ Hinv) Hmk) as (Hg & Hcf & Hwf1).
  destruct (fresh_total fs1 cf item) as [d Hfp].
  simpl in H. rewrite Hfp in H. simpl in H.
  pose proof (fresh_free _ _ _ _ Hfp) as Hd. destruct (fresh_child _ _ _ _ Hfp) as [x ->].
  rewrite (shutil_move_fresh fs1 _ _ f) in H;
    [| by apply (grows_by_dirs_file (w_fs w)) | by destruct cf | by rewrite parent_join | done].
  assert (Hcat : parent (join cf x) = category_folder_of folder tz item f)
    by (rewrite parent_join; unfold cf, category_folder_of; by rewrite Htz).
  assert (Hmv : moved_inv (M ++ [(item, join cf x)]) (<[join cf x := File f]> (delete (join folder item) fs1))).
  { apply moved_inv_move; try done.
    - by apply (moved_inv_grow _ (w_fs w)).
    - by apply (grows_by_dirs_file (w_fs w)).
    - rewrite length_join. unfold cf. rewrite length_app. simpl. lia.
    - by destruct cf.
    - by rewrite parent_join. }
  match type of H with context [create_log user ?msg ?w0] =>
    destruct (utf8_valid msg) eqn:Hmsg;
      [rewrite (create_log_run user msg w0 Hmsg) in H | rewrite (create_log_fails user msg w0 Hmsg) in H]
  end; injection H as <- <-.
  - pose proof (moved_message_utf8 _ _ _ _ _ Hmsg) as Hitem.
    exists (join cf x), f. split_and!; [done | done | done | exact Hmv | | exact Hitem].
    exact (fresh_utf8 _ _ _ _ Hfp Hitem).
  - right. split; [done | by exists (join cf x), f].
Qed.
Lemma moved_inv_folder M fs : moved_inv M fs -> fs !! folder = Some Dir.
Proof.
  intros Hinv. destruct (mi_frame _ _ Hinv folder) as [-> | [_ ?]]; [| | done | done].
  - intros Hin. apply list_elem_of_fmap in Hin as ([i d] & Heq & Hin). simpl in Heq.
    pose proof (mi_depth _ _ Hinv _ _ Hin) as Hl. rewrite <- Heq in Hl. lia.
  - intros i _ Heq. apply (f_equal length) in Heq. rewrite length_join in Heq. lia.
Qed.

(** The summary the loop builds from a list of moved names. *)
Definition summary_of (s : gmap string nat) (moved : list string) : gmap string nat :=
  foldl (fun s i => bump (get_category (splitext i).2) s) s moved.

(** A count of the summary: [None] for zero, as a key [bump] never set. *)
Definition pos_count (n : nat) : option nat := match n with O => None | S _ => Some n end.

(** The number of names of [moved] whose extension falls in category [c]. *)
Definition count_of (c : string) (moved : list string) : nat :=
  length (filter (fun i => get_category (splitext i).2 = c) moved).

Lemma bump_lookup k s c :
  default 0 (bump k s !! c) = ((if decide (k = c) then 1 else 0) + default 0 (s !! c))%nat.
Proof.
  unfold bump. destruct (decide (k = c)) as [<- | Hne].
  - rewrite lookup_insert_eq. simpl. lia.
  - by rewrite lookup_insert_ne.
Qed.

Lemma bump_no_zero k s : (forall c, s !! c <> Some 0%nat) -> forall c, bump k s !! c <> Some 0%nat.
Proof.
  intros Hs c. unfold bump. destruct (decide (k = c)) as [<- | Hne].
  - rewrite lookup_insert_eq. intros [=]. lia.
  - rewrite lookup_insert_ne by done. apply Hs.
Qed.

(** The summary maps each category to the number of moved names in it,
    and has no key for a category with none. *)
Lemma summary_of_lookup moved : forall s c,
  (forall c', s !! c' <> Some 0%nat) ->
  summary_of s moved !! c = pos_count (default 0 (s !! c) + count_of c moved).
Proof.
  induction moved as [|i rest IH]; intros s c Hs; simpl.
  - unfold count_of. simpl. rewrite Nat.add_0_r. specialize (Hs c).
    by destruct (s !! c) as [[|n]|].
  - rewrite (IH _ _ (bump_no_zero _ _ Hs)), bump_lookup. unfold count_of.
    rewrite filter_cons. f_equal. by case_decide; simpl; lia.
Qed.

Lemma records_app M M' : records folder (M ++ M') = records folder M ++ records folder M'.
Proof. apply fmap_app. Qed.

(** The loop, on every outcome: on success every file to move was moved,
    in listing order; on an exception the files moved before it stay
    moved (a prefix of the listing was processed). *)
Lemma organize_loop_spec user skip items acc w w' r M :
  w_tz w = tz -> moved_inv M (w_fs w) -> NoDup items -> (forall i, i ∈ items -> i ∉ M.*1) ->
  acc.1 = records folder M ->
  organize_loop user folder skip items acc w = (w', r) ->
  match r with
  | inr acc' => exists M',
      M'.*1 = filter (fun i => should_move fs0 folder skip i = true) items /\
      acc' = (records folder (M ++ M'), summary_of acc.2 M'.*1) /\
      moved_inv (M ++ M') (w_fs w') /\ Forall (fun m => utf8_valid (basename m.2) = true) M'
  | inl _ => exists k M',
      M'.*1 = filter (fun i => should_move fs0 folder skip i = true) (take k items) /\
      moved_inv (M ++ M') (w_fs w')
  end.
Proof.
  revert acc w M. induction items as [|item rest IH]; intros acc w M Htz Hinv Hnd Hfresh Hacc H.
  { simpl in H. injection H as <- <-. exists []. rewrite !app_nil_r.
    split_and!; [done | by destruct acc; simpl in *; subst | done | constructor]. }
  apply NoDup_cons in Hnd as [Hnin Hnd].
  apply bind_run_inv in H as [(w1 & acc1 & H1 & H2) | (e & H1 & ->)].
  - pose proof (organize_item_step _ _ _ _ _ _ _ _ Htz Hinv (Hfresh item (list_elem_of_here _ _)) H1)
      as Hstep.
    assert (Htz1 : w_tz w1 = tz)
      by (destruct (organize_item_frame _ _ _ _ _ _ _ _ H1) as ((_ & _ & ? & _) & _); congruence).
    destruct (should_move fs0 folder skip item) eqn:Hsm.
    + destruct Hstep as (d & f & Hf & -> & Hpar & Hinv1 & Hutf & _).
      assert (Hfresh1 : forall i, i ∈ rest -> i ∉ (M ++ [(item, d)]).*1).
      { intros i Hi. rewrite fmap_app, elem_of_app. intros [Hi' | Hi'%list_elem_of_singleton].
        - by apply (Hfresh i); [right |].
        - simpl in Hi'. subst. done. }
      assert (Hacc1 : (acc.1 ++ [(d, folder)]) = records folder (M ++ [(item, d)]))
        by (rewrite records_app, Hacc; done).
      pose proof (IH (_, _) w1 _ Htz1 Hinv1 Hnd Hfresh1 Hacc1 H2) as IH'.
      destruct r as [e|acc'].
      * destruct IH' as (k & M' & Hk & HM'). rewrite <- app_assoc in HM'.
        exists (S k), ((item, d) :: M'). split; [| done].
        change (take (S k) (item :: rest)) with (item :: take k rest).
        rewrite filter_cons_True by done. by rewrite fmap_cons, Hk.
      * destruct IH' as (M' & HM'1 & HM'2 & HM'3 & HM'4). rewrite <- app_assoc in HM'2, HM'3.
        exists ((item, d) :: M'). rewrite HM'2, filter_cons_True by done. rewrite fmap_cons, HM'1.
        split_and!; [done | reflexivity | done | by constructor].
    + destruct Hstep as [[= ->] ->].
      assert (Hfresh1 : forall i, i ∈ rest -> i ∉ M.*1) by (intros i Hi; apply Hfresh; by right).
      specialize (IH _ _ _ Htz1 Hinv Hnd Hfresh1 Hacc H2).
      destruct r as [e|acc'].
      * destruct IH as (k & M' & Hk & HM'). exists (S k), M'.
        change (take (S k) (item :: rest)) with (item :: take k rest).
        rewrite filter_cons_False by (rewrite Hsm; done). by split.
      * destruct IH as (M' & HM'1 & HM'2 & HM'3). exists M'.
        rewrite filter_cons_False by (rewrite Hsm; done). done.
  - pose proof (organize_item_step _ _ _ _ _ _ _ _ Htz Hinv (Hfresh item (list_elem_of_here _ _)) H1)
      as Hstep.
    destruct (should_move _ _ _ _) eqn:Hsm; [| by destruct Hstep].
    destruct Hstep as [[-> _] | (_ & d & _ & _ & _ & Hd)]; [exists 0%nat, []; by rewrite app_nil_r |].
    exists 1%nat, [(item, d)]. split; [| done].
    change (take 1 (item :: rest)) with [item]. by rewrite filter_cons_True.
Qed.
End MovedInv.

(** ** Frames *)

Lemma organize_loop_frame user folder skip items acc :
  keeps loop_frame (organize_loop user folder skip items acc).
Proof.
  revert acc. induction items as [|item rest IH]; intros acc; simpl; solve_keeps;
    [apply organize_item_frame | apply IH].
Qed.

(** The organize loop writes only valid UTF-8 to the logs. *)
Lemma organize_loop_utf8 user folder skip items acc :
  keeps logs_utf8_kept (organize_loop user folder skip items acc).
Proof.
  revert acc. induction items as [|item rest IH]; intros acc; simpl; solve_keeps; [| apply IH].
  unfold organize_item, of_fuel. solve_keeps; first [apply keeps_update_utf8 | apply keeps_create_log_utf8].
Qed.

(** ** The whole run *)

(** The loop of a run, started on the disk the backup left. *)
Lemma organize_run_loop user skip_entry folder w0 w1 bp items w3 r :
  wf (w_fs w0) -> backup_folder user folder w0 = (w1, inr bp) ->
  listdir (w_fs w1) folder = inr items ->
  organize_loop user folder (parse_skip_exts skip_entry) items ([], ∅) w1 = (w3, r) ->
  let sm := fun i => should_move (w_fs w1) folder (parse_skip_exts skip_entry) i = true in
  match r with
  | inr acc' => exists M,
      M.*1 = filter sm items /\ acc' = (records folder M, summary_of ∅ M.*1) /\
      moved_inv (w_fs w1) folder (w_tz w0) M (w_fs w3) /\ Forall (fun m => utf8_valid (basename m.2) = true) M
  | inl _ => exists k M, M.*1 = filter sm (take k items) /\
      moved_inv (w_fs w1) folder (w_tz w0) M (w_fs w3)
  end.
Proof.
  intros Hwf Hb Hls Hloop sm.
  pose proof (proj1 (backup_folder_sound user folder _ _ _ Hb) Hwf) as Hwf1.
  destruct (backup_folder_frame user folder _ _ _ Hb) as ((_ & _ & Htz & _) & _).
  pose proof (listdir_dir _ _ _ Hls) as Hdir.
  exact (organize_loop_spec (w_fs w1) folder (w_tz w0) Hwf1 Hdir user
    (parse_skip_exts skip_entry) items ([], ∅) w1 w3 r [] Htz
    (moved_inv_nil _ _ _ Hwf1 Hdir) (listdir_nodup _ _ _ Hls)
    (fun _ _ Hin => not_elem_of_nil _ Hin) eq_refl Hloop).
Qed.

(** The specification of a successful run, shared by the theorems below. *)
Lemma organize_run_spec user skip_entry folder w0 w' summary backup_path :
  wf (w_fs w0) -> w_fs w0 !! folder = Some Dir ->
  organize_files_thread user skip_entry folder w0 = (w', inr (summary, backup_path)) ->
  let wb := (backup_folder user folder w0).1 in
  exists items M,
    listdir (w_fs wb) folder = inr items /\
    M.*1 = filter (fun i => should_move (w_fs wb) folder (parse_skip_exts skip_entry) i = true) items /\
    moved_inv (w_fs wb) folder (w_tz w0) M (w_fs w') /\
    summary = summary_of ∅ M.*1 /\
    w_undo w' = match M with [] => w_undo w0 | _ :: _ => Some (mkUndoLog (Some user) (records folder M)) end /\
    Forall (fun m => utf8_valid (basename m.2) = true) M.
Proof.
  intros Hwf Hdir H wb. unfold organize_files_thread in H.
  apply bind_run_inv in H as [(w1 & bp & Hb & H) | (e & _ & [=])].
  assert (wb = w1) as -> by (unfold wb; by rewrite Hb).
  destruct (backup_folder_frame user folder _ _ _ Hb) as (_ & Hu1 & _).
  apply bind_run_inv in H as [(w2 & items & Hl & H) | (e & _ & [=])].
  unfold fs_query in Hl. destruct (listdir (w_fs w1) folder) as [e|items'] eqn:Hls;
    [discriminate | injection Hl as <- <-].
  apply bind_run_inv in H as [(w3 & acc & Hloop & H) | (e & _ & [=])].
  destruct (organize_loop_frame _ _ _ _ _ _ _ _ Hloop) as (_ & Hu3 & _).
  destruct (organize_run_loop _ _ _ _ _ _ _ _ _ Hwf Hb Hls Hloop) as (M & HM1 & HM2 & HM3 & HM4).
  unfold save_undo, mbind, M_bind, mret, M_ret in H.
  exists items', M. rewrite HM2 in H. simpl in H.
  destruct M as [|m M]; simpl in H; injection H as <- <- <-;
    (split_and!; [done | done | done | done | | done]); simpl; congruence.
Qed.

(** Every run, successful or not, keeps the environment, only appends to
    logs, and keeps the disk well formed. *)
Lemma organize_files_thread_frame user skip_entry folder :
  keeps engine_frame (organize_files_thread user skip_entry folder).
Proof.
  unfold organize_files_thread. solve_keeps.
  - eapply keeps_weaken; [apply loop_frame_engine | apply backup_folder_frame].
  - eapply keeps_weaken; [apply loop_frame_engine | apply organize_loop_frame].
  - intros w w' r H. unfold save_undo in H. by destruct (_ : list _); injection H as <- _.
Qed.

Lemma organize_files_thread_utf8 user skip_entry folder :
  keeps logs_utf8_kept (organize_files_thread user skip_entry folder).
Proof.
  unfold organize_files_thread. solve_keeps; [apply backup_folder_utf8 | apply organize_loop_utf8 |].
  intros w w' r H. unfold save_undo in H. apply logs_same_utf8. by destruct (_ : list _); injection H as <- _.
Qed.

Lemma organize_files_thread_wf user skip_entry folder w0 :
  wf (w_fs w0) -> wf (w_fs (organize_files_thread user skip_entry folder w0).1).
Proof.
  intros Hwf. destruct (organize_files_thread _ _ _ _) as [w' r] eqn:H. simpl.
  unfold organize_files_thread in H.
  apply bind_run_inv in H as [(w1 & bp & Hb & H) | (e & Hb & _)];
    [| exact (proj1 (backup_folder_sound user folder _ _ _ Hb) Hwf)].
  pose proof (proj1 (backup_folder_sound user folder _ _ _ Hb) Hwf) as Hwf1.
  apply bind_run_inv in H as [(w2 & items & Hl & H) | (e & Hl & _)];
    unfold fs_query in Hl; destruct (listdir (w_fs w1) folder) as [e'|items'] eqn:Hls;
    injection Hl as <- Hl; [discriminate | | by subst | discriminate].
  subst items.
  assert (Hinv : forall r' w3, organize_loop user folder (parse_skip_exts skip_entry) items'
            ([], ∅) w1 = (w3, r') -> wf (w_fs w3)).
  { intros r' w3 Hloop. pose proof (organize_run_loop _ _ _ _ _ _ _ _ _ Hwf Hb Hls Hloop) as Hs.
    destruct r'; [destruct Hs as (? & ? & _ & Hi) | destruct Hs as (? & _ & _ & Hi & _)];
      exact (mi_wf _ _ _ _ _ Hi). }
  apply bind_run_inv in H as [(w3 & acc & Hloop & H) | (e & Hloop & _)];
    [| by apply (Hinv _ _ Hloop)].
  unfold save_undo, mbind, M_bind, mret, M_ret in H.
  destruct (acc.1); injection H as <- _; [| simpl]; by apply (Hinv _ _ Hloop).
Qed.

(** [C1] A successful run of [organize_files_thread] moves exactly the
    regular, non-skipped files [os.listdir] lists in the folder (as the
    folder is after the backup), each to a distinct path that was free,
    holding the original file, in the directory
    [folder/category/str(year)/MM/size_group] computed from its extension,
    ctime and size ([category_folder_of], field [mi_place]); every other path keeps its entry or becomes a new
    directory; the summary counts the moved files per category; and the
    undo slot holds this run's moves, or is unchanged when nothing moved. *)
Theorem organize_files_thread_moves user skip_entry folder w0 w' summary backup_path :
  wf (w_fs w0) -> w_fs w0 !! folder = Some Dir ->
  organize_files_thread user skip_entry folder w0 = (w', inr (summary, backup_path)) ->
  let wb := (backup_folder user folder w0).1 in
  exists items M,
    listdir (w_fs wb) folder = inr items /\
    M.*1 = filter (fun i => should_move (w_fs wb) folder (parse_skip_exts skip_entry) i = true) items /\
    moved_inv (w_fs wb) folder (w_tz w0) M (w_fs w') /\
    summary = summary_of ∅ M.*1 /\
    w_undo w' = match M with [] => w_undo w0 | _ :: _ => Some (mkUndoLog (Some user) (records folder M)) end.
Proof.
  intros Hwf Hdir H. destruct (organize_run_spec _ _ _ _ _ _ _ Hwf Hdir H) as (items & M & ? & ? & ? & ? & ? & _).
  by exists items, M.
Qed.

(** ** The scenario of the spec

    A folder [/home/dl] with [photo.jpg] (500 KB) and [report.pdf] (2 MB),
    both created 2024-03-10, organized by [alice] with an empty skip list. *)

Definition ex_folder : Path := ["home"; "dl"].

Definition ex_fs : FS := list_to_map
  [([], Dir); (["home"], Dir); (["home"; "dl"], Dir);
   (["home"; "dl"; "photo.jpg"], File (mkFile "<jpeg>" 512000 1710072000 1710072000));
   (["home"; "dl"; "report.pdf"], File (mkFile "<pdf>" 2097152 1710072000 1710072000))].

Definition ex_w0 : World := mkWorld ex_fs ∅ None ∅ 1710100000 0 ["home"].

Definition ex_run : World * (exn + gmap string nat * Path) :=
  organize_files_thread "alice" "" ex_folder ex_w0.

Definition ex_summary : gmap string nat :=
  match ex_run.2 with inr (s, _) => s | inl _ => ∅ end.

Definition ex_backup : Path :=
  match ex_run.2 with inr (_, b) => b | inl _ => [] end.

Lemma ex_w0_wf : wf (w_fs ex_w0).
Proof. apply wf_check_sound. vm_compute. reflexivity. Qed.

Lemma ex_run_ok :
  organize_files_thread "alice" "" ex_folder ex_w0 = (ex_run.1, inr (ex_summary, ex_backup)).
Proof. apply run_eq. vm_compute. reflexivity. Qed.

Lemma organize_files_thread_moves_witness :
  wf (w_fs ex_w0) /\ w_fs ex_w0 !! ex_folder = Some Dir /\
  organize_files_thread "alice" "" ex_folder ex_w0 = (ex_run.1, inr (ex_summary, ex_backup)) /\
  let wb := (backup_folder "alice" ex_folder ex_w0).1 in
  exists items M,
    listdir (w_fs wb) ex_folder = inr items /\
    M.*1 = filter (fun i => should_move (w_fs wb) ex_folder (parse_skip_exts "") i = true) items /\
    moved_inv (w_fs wb) ex_folder (w_tz ex_w0) M (w_fs ex_run.1) /\
    ex_summary = summary_of ∅ M.*1 /\
    w_undo ex_run.1 = match M with [] => w_undo ex_w0 | _ :: _ =>
                        Some (mkUndoLog (Some "alice") (records ex_folder M)) end.
Proof.
  assert (H2 : w_fs ex_w0 !! ex_folder = Some Dir) by (vm_compute; reflexivity).
  split; [exact ex_w0_wf | split; [exact H2 | split; [exact ex_run_ok |]]].
  exact (organize_files_thread_moves "alice" "" ex_folder ex_w0 ex_run.1 ex_summary ex_backup
           ex_w0_wf H2 ex_run_ok).
Defined.

(** [C9] The summary a successful run returns is a well-typed count map:
    its keys are labels [get_category] can return ([CATEGORIES]: a
    category of [FILE_TYPES] or ["Others"]) and its counts are positive;
    each key counts the moved files of that category. *)
Theorem organize_summary_typed user skip_entry folder w0 w' summary backup_path :
  wf (w_fs w0) -> w_fs w0 !! folder = Some Dir ->
  organize_files_thread user skip_entry folder w0 = (w', inr (summary, backup_path)) ->
  forall c n, summary !! c = Some n -> c ∈ CATEGORIES /\ (1 <= n)%nat /\
    exists M, n = count_of c M.*1 /\ moved_inv (w_fs (backup_folder user folder w0).1) folder (w_tz w0) M (w_fs w').
Proof.
  intros Hwf Hdir H c n Hc.
  destruct (organize_run_spec _ _ _ _ _ _ _ Hwf Hdir H) as (items & M & _ & _ & Hinv & -> & _).
  rewrite summary_of_lookup in Hc by done. rewrite lookup_empty in Hc. simpl in Hc.
  destruct (count_of c M.*1) as [|k] eqn:Hk; [discriminate | injection Hc as <-].
  split_and!; [| lia | by exists M].
  assert (Hne : filter (fun i => get_category (splitext i).2 = c) M.*1 <> []).
  { intros Heq. unfold count_of in Hk. by rewrite Heq in Hk. }
  destruct (filter _ _) as [|i l] eqn:Hf; [done |].
  assert (Hi : i ∈ filter (fun i => get_category (splitext i).2 = c) M.*1) by (rewrite Hf; left).
  apply list_elem_of_filter in Hi as [<- _]. apply find_category_in.
Qed.

Lemma organize_summary_typed_witness :
  wf (w_fs ex_w0) /\ w_fs ex_w0 !! ex_folder = Some Dir /\
  organize_files_thread "alice" "" ex_folder ex_w0 = (ex_run.1, inr (ex_summary, ex_backup)) /\
  ex_summary !! "Images" = Some 1%nat /\
  ("Images" ∈ CATEGORIES /\ (1 <= 1)%nat /\ exists M, 1%nat = count_of "Images" M.*1 /\
     moved_inv (w_fs (backup_folder "alice" ex_folder ex_w0).1) ex_folder (w_tz ex_w0) M (w_fs ex_run.1)).
Proof.
  assert (H2 : w_fs ex_w0 !! ex_folder = Some Dir) by (vm_compute; reflexivity).
  assert (H4 : ex_summary !! "Images" = Some 1%nat) by (vm_compute; reflexivity).
  split; [exact ex_w0_wf | split; [exact H2 | split; [exact ex_run_ok | split; [exact H4 |]]]].
  exact (organize_summary_typed "alice" "" ex_folder ex_w0 ex_run.1 ex_summary ex_backup
           ex_w0_wf H2 ex_run_ok "Images" 1 H4).
Defined.

(** The spec's scenario: [photo.jpg] goes to [Images/2024/03/Small],
    [report.pdf] to [Documents/2024/03/Medium], both unchanged, the
    summary is [{Images: 1, Documents: 1}] and the undo entry lists both. *)
Example organize_spec_scenario :
  w_fs ex_run.1 !! (ex_folder ++ ["Images"; "2024"; "03"; "Small"; "photo.jpg"]) =
    w_fs ex_w0 !! (ex_folder ++ ["photo.jpg"]) /\
  w_fs ex_run.1 !! (ex_folder ++ ["Documents"; "2024"; "03"; "Medium"; "report.pdf"]) =
    w_fs ex_w0 !! (ex_folder ++ ["report.pdf"]) /\
  w_fs ex_run.1 !! (ex_folder ++ ["photo.jpg"]) = None /\
  ex_summary = {[ "Images" := 1%nat; "Documents" := 1%nat ]} /\
  w_undo ex_run.1 = Some (mkUndoLog (Some "alice")
    [(ex_folder ++ ["Images"; "2024"; "03"; "Small"; "photo.jpg"], ex_folder);
     (ex_folder ++ ["Documents"; "2024"; "03"; "Medium"; "report.pdf"], ex_folder)]).
Proof. split_and!; vm_decide. Qed.

(** ** Runs that raise *)

(** [C6] When [organize_files_thread] raises, the undo slot is left as it
    was, while the files moved before the exception stay at their new
    places: the exception came from the backup stage, or the loop had
    processed a prefix of the listing whose movable files are all moved. *)
Theorem organize_exception_keeps_moves user skip_entry folder w0 w' e :
  wf (w_fs w0) -> w_fs w0 !! folder = Some Dir ->
  organize_files_thread user skip_entry folder w0 = (w', inl e) ->
  w_undo w' = w_undo w0 /\
  let wb := (backup_folder user folder w0).1 in
  ((backup_folder user folder w0).2 = inl e /\ w' = wb) \/
  (exists items k M,
     listdir (w_fs wb) folder = inr items /\
     M.*1 = filter (fun i => should_move (w_fs wb) folder (parse_skip_exts skip_entry) i = true)
                   (take k items) /\
     moved_inv (w_fs wb) folder (w_tz w0) M (w_fs w')).
Proof.
  intros Hwf Hdir H. unfold organize_files_thread in H.
  apply bind_run_inv in H as [(w1 & bp & Hb & H) | (e' & Hb & [= <-])].
  2: { destruct (backup_folder_frame user folder _ _ _ Hb) as (_ & Hu & _).
       split; [done |]. left. by rewrite Hb. }
  destruct (backup_folder_sound user folder _ _ _ Hb) as [Hwf1 Hd1].
  destruct (backup_folder_frame user folder _ _ _ Hb) as (_ & Hu1 & _).
  apply bind_run_inv in H as [(w2 & items & Hl & H) | (e' & Hl & [= <-])];
    unfold fs_query in Hl; destruct (listdir (w_fs w1) folder) as [e''|items'] eqn:Hls;
    injection Hl as <- Hl; try discriminate.
  2: { exfalso. unfold listdir in Hls. by rewrite (Hd1 _ Hdir) in Hls. }
  subst items.
  apply bind_run_inv in H as [(w3 & acc & Hloop & H) | (e' & Hloop & [= <-])].
  - unfold save_undo, mbind, M_bind, mret, M_ret in H. by destruct (acc.1); simpl in H.
  - destruct (organize_loop_frame _ _ _ _ _ _ _ _ Hloop) as (_ & Hu3 & _).
    split; [congruence |]. right. rewrite Hb. simpl.
    destruct (organize_run_loop _ _ _ _ _ _ _ _ _ Hwf Hb Hls Hloop) as (k & M & HM & Hinv).
    by exists items', k, M.
Qed.

(** A folder holding a regular file named like a category folder, here
    ["Others"] (no extension, so itself of category ["Others"]), after a
    text file, with an undo entry left by an earlier run. *)
Definition ex2_fs : FS := list_to_map
  [([], Dir); (["home"], Dir); (["home"; "dl"], Dir);
   (["home"; "dl"; "notes.txt"], File (mkFile "<text>" 1200 1710072000 1710072000));
   (["home"; "dl"; "Others"], File (mkFile "<data>" 10 1710072000 1710072000))].

Definition ex2_old_entry : UndoLog :=
  mkUndoLog (Some "alice") [(["home"; "old"; "Images"; "2023"; "01"; "Small"; "x.png"], ["home"; "old"])].

Definition ex2_w0 : World := mkWorld ex2_fs ∅ (Some ex2_old_entry) ∅ 1710100000 0 ["home"].

Definition ex2_run : World * (exn + gmap string nat * Path) :=
  organize_files_thread "alice" "" ex_folder ex2_w0.

Lemma ex2_run_raises : organize_files_thread "alice" "" ex_folder ex2_w0 =
  (ex2_run.1, inl NotADirectoryError).
Proof. apply run_eq. vm_compute. reflexivity. Qed.

Lemma organize_exception_keeps_moves_witness :
  wf (w_fs ex2_w0) /\ w_fs ex2_w0 !! ex_folder = Some Dir /\
  organize_files_thread "alice" "" ex_folder ex2_w0 = (ex2_run.1, inl NotADirectoryError) /\
  (w_undo ex2_run.1 = w_undo ex2_w0 /\
   let wb := (backup_folder "alice" ex_folder ex2_w0).1 in
   ((backup_folder "alice" ex_folder ex2_w0).2 = inl NotADirectoryError /\ ex2_run.1 = wb) \/
   (exists items k M,
      listdir (w_fs wb) ex_folder = inr items /\
      M.*1 = filter (fun i => should_move (w_fs wb) ex_folder (parse_skip_exts "") i = true)
                    (take k items) /\
      moved_inv (w_fs wb) ex_folder (w_tz ex2_w0) M (w_fs ex2_run.1))).
Proof.
  assert (H1 : wf (w_fs ex2_w0)) by (apply wf_check_sound; vm_compute; reflexivity).
  assert (H2 : w_fs ex2_w0 !! ex_folder = Some Dir) by (vm_compute; reflexivity).
  split; [exact H1 | split; [exact H2 | split; [exact ex2_run_raises |]]].
  exact (organize_exception_keeps_moves "alice" "" ex_folder ex2_w0 ex2_run.1 NotADirectoryError
           H1 H2 ex2_run_raises).
Defined.

(** [C23] A regular file in the folder named like a category folder makes
    every file of that category fail: [os.makedirs] (line 326) meets the
    file on its way to [category/year/month/size_group] and raises
    [NotADirectoryError] before anything is changed, so the run stops
    there (and, by [organize_exception_keeps_moves], its earlier moves
    are not recorded for Undo).  A file named ["Others"] is its own
    victim: having no extension, it is of category ["Others"]. *)
Theorem organize_category_name_clash user folder skip acc item w f :
  should_move (w_fs w) folder skip item = true ->
  w_fs w !! (folder ++ [get_category (splitext item).2]) = Some (File f) ->
  organize_item user folder skip acc item w = (w, inl NotADirectoryError).
Proof.
  intros [Hisf Hsk]%andb_true_iff Hf.
  unfold organize_item, mbind, M_bind, mret, M_ret, get_world, fs_query, fs_update. rewrite Hisf.
  destruct (bool_decide _); [discriminate Hsk |]. apply isfile_true in Hisf as [g Hg].
  rewrite (getsize_file _ _ _ Hg), (getctime_file _ _ _ Hg). unfold makedirs.
  by rewrite (makedirs_go_file _ [] folder _ _ [_; _] f).
Qed.

Lemma organize_category_name_clash_witness :
  should_move (w_fs ex2_w0) ex_folder [] "Others" = true /\
  w_fs ex2_w0 !! (ex_folder ++ [get_category (splitext "Others").2]) =
    Some (File (mkFile "<data>" 10 1710072000 1710072000)) /\
  organize_item "alice" ex_folder [] ([], ∅) "Others" ex2_w0 = (ex2_w0, inl NotADirectoryError).
Proof.
  assert (H1 : should_move (w_fs ex2_w0) ex_folder [] "Others" = true) by vm_decide.
  assert (H2 : w_fs ex2_w0 !! (ex_folder ++ [get_category (splitext "Others").2]) =
    Some (File (mkFile "<data>" 10 1710072000 1710072000))) by vm_decide.
  split_and!; [exact H1 | exact H2 | exact (organize_category_name_clash _ _ _ _ _ _ _ H1 H2)].
Defined.

(** The whole run on that folder: [notes.txt] is moved, then ["Others"]
    raises; the undo slot still holds the earlier run's entry, so this
    run's move is not recorded and "Undo" would revert the earlier run. *)
Example organize_category_name_clash_scenario :
  ex2_run.2 = inl NotADirectoryError /\
  w_fs ex2_run.1 !! (ex_folder ++ ["Documents"; "2024"; "03"; "Small"; "notes.txt"]) =
    w_fs ex2_w0 !! (ex_folder ++ ["notes.txt"]) /\
  w_fs ex2_run.1 !! (ex_folder ++ ["notes.txt"]) = None /\
  w_undo ex2_run.1 = Some ex2_old_entry.
Proof. split_and!; vm_decide. Qed.

(** A file whose name is Latin-1 ([caf\xe9.txt]), not valid UTF-8, with
    an undo entry left by an earlier run. *)
Definition ex7_name : string := "caf" +:+ String (Ascii.ascii_of_nat 233) ".txt".

Definition ex7_fs : FS := list_to_map
  [([], Dir); (["home"], Dir); (ex_folder, Dir);
   (ex_folder ++ [ex7_name], File (mkFile "<latin-1 name>" 10 1710072000 1710072000))].

Definition ex7_w0 : World := mkWorld ex7_fs ∅ (Some ex2_old_entry) ∅ 1710100000 0 ["home"].

Definition ex7_run := organize_files_thread "alice" "" ex_folder ex7_w0.

(** [C24] A file to move whose name is not valid UTF-8 never gets through
    the loop body: [os.makedirs] may raise first, changing nothing;
    otherwise the file is moved into its category folder and then the
    [create_log] of line 340 raises [UnicodeEncodeError] (the name reaches
    Python as a surrogate escape, which [encoding="utf-8"] rejects), so
    the file is gone from the folder, lies under
    [category/year/month/size_group], and the undo slot is untouched: the
    run fails with a move no Undo records. *)
Theorem organize_undecodable_name user folder skip acc item w w' r :
  wf (w_fs w) -> w_fs w !! folder = Some Dir -> should_move (w_fs w) folder skip item = true ->
  utf8_valid item = false -> organize_item user folder skip acc item w = (w', r) ->
  (w' = w /\ (r = inl FileExistsError \/ r = inl NotADirectoryError)) \/
  (r = inl UnicodeEncodeError /\ w_undo w' = w_undo w /\ isfile (w_fs w') (join folder item) = false /\
   exists d f, w_fs w !! join folder item = Some (File f) /\ w_fs w' !! d = Some (File f) /\
     parent d = category_folder_of folder (w_tz w) item f).
Proof.
  intros Hwf Hdir Hsm Hbad H.
  pose proof (organize_item_step _ _ _ Hwf Hdir _ _ _ _ _ _ _ [] eq_refl (moved_inv_nil _ _ _ Hwf Hdir)
    (not_elem_of_nil _) H) as Hstep. rewrite Hsm in Hstep.
  destruct r as [e|acc']; [| destruct Hstep as (d & f & _ & _ & _ & _ & _ & Hok); congruence].
  destruct Hstep as [[-> [-> | ->]] | (-> & d & f & Hf & Hpar & Hinv)]; [by left; auto .. | right].
  destruct (organize_item_frame _ _ _ _ _ _ _ _ H) as (_ & Hu & _).
  destruct (mi_dst _ _ _ _ _ Hinv item d) as [Hd _]; [set_solver |].
  split_and!; [done | done | | exists d, f; split_and!; [done | congruence | done]].
  destruct (mi_src _ _ _ _ _ Hinv item) as [Hs | Hs]; [set_solver | | ]; unfold isfile; by rewrite Hs.
Qed.

Lemma organize_undecodable_name_witness :
  wf (w_fs ex7_w0) /\ w_fs ex7_w0 !! ex_folder = Some Dir /\
  should_move (w_fs ex7_w0) ex_folder [] ex7_name = true /\ utf8_valid ex7_name = false /\
  ((organize_item "alice" ex_folder [] ([], ∅) ex7_name ex7_w0).1 = ex7_w0 /\
   ((organize_item "alice" ex_folder [] ([], ∅) ex7_name ex7_w0).2 = inl FileExistsError \/
    (organize_item "alice" ex_folder [] ([], ∅) ex7_name ex7_w0).2 = inl NotADirectoryError) \/
   (organize_item "alice" ex_folder [] ([], ∅) ex7_name ex7_w0).2 = inl UnicodeEncodeError /\
   w_undo (organize_item "alice" ex_folder [] ([], ∅) ex7_name ex7_w0).1 = w_undo ex7_w0 /\
   isfile (w_fs (organize_item "alice" ex_folder [] ([], ∅) ex7_name ex7_w0).1) (join ex_folder ex7_name) = false /\
   exists d f, w_fs ex7_w0 !! join ex_folder ex7_name = Some (File f) /\
     w_fs (organize_item "alice" ex_folder [] ([], ∅) ex7_name ex7_w0).1 !! d = Some (File f) /\
     parent d = category_folder_of ex_folder (w_tz ex7_w0) ex7_name f).
Proof.
  assert (H1 : wf (w_fs ex7_w0)) by (apply wf_check_sound; vm_compute; reflexivity).
  assert (H2 : w_fs ex7_w0 !! ex_folder = Some Dir) by vm_decide.
  assert (H3 : should_move (w_fs ex7_w0) ex_folder [] ex7_name = true) by vm_decide.
  assert (H4 : utf8_valid ex7_name = false) by vm_decide.
  split_and!; [exact H1 | exact H2 | exact H3 | exact H4 |].
  exact (organize_undecodable_name _ _ _ _ _ _ _ _ H1 H2 H3 H4 (surjective_pairing _)).
Defined.

(** The whole run: the file is moved to [Documents/2024/03/Small], the
    run fails, the undo slot keeps the earlier run's entry, and the
    user's log file exists, empty. *)
Example organize_undecodable_name_scenario :
  ex7_run.2 = inl UnicodeEncodeError /\
  w_fs ex7_run.1 !! (ex_folder ++ ["Documents"; "2024"; "03"; "Small"; ex7_name]) =
    ex7_fs !! (ex_folder ++ [ex7_name]) /\
  w_fs ex7_run.1 !! (ex_folder ++ [ex7_name]) = None /\
  w_undo ex7_run.1 = Some ex2_old_entry /\
  w_logs ex7_run.1 !! "alice" = Some "".
Proof. split_and!; vm_decide. Qed.

(** ** The spec's collision scenario and the skip list *)

(** [draft.txt] in the folder, and a [draft.txt] already in its destination. *)
Definition ex5_fs : FS := list_to_map
  [([], Dir); (["home"], Dir); (ex_folder, Dir);
   (ex_folder ++ ["Documents"], Dir); (ex_folder ++ ["Documents"; "2024"], Dir);
   (ex_folder ++ ["Documents"; "2024"; "03"], Dir);
   (ex_folder ++ ["Documents"; "2024"; "03"; "Small"], Dir);
   (ex_folder ++ ["Documents"; "2024"; "03"; "Small"; "draft.txt"],
      File (mkFile "<old draft>" 10 1700000000 1700000000));
   (ex_folder ++ ["draft.txt"], File (mkFile "<new draft>" 20 1710072000 1710072000))].

Definition ex5_run := organize_files_thread "alice" "" ex_folder (mkWorld ex5_fs ∅ None ∅ 1710100000 0 ["home"]).

(** The spec's collision scenario: [draft.txt] lands as [draft_1.txt]
    next to the [draft.txt] already in the destination, which is kept. *)
Example organize_collision_scenario :
  w_fs ex5_run.1 !! (ex_folder ++ ["Documents"; "2024"; "03"; "Small"; "draft_1.txt"]) =
    ex5_fs !! (ex_folder ++ ["draft.txt"]) /\
  w_fs ex5_run.1 !! (ex_folder ++ ["Documents"; "2024"; "03"; "Small"; "draft.txt"]) =
    ex5_fs !! (ex_folder ++ ["Documents"; "2024"; "03"; "Small"; "draft.txt"]) /\
  w_fs ex5_run.1 !! (ex_folder ++ ["draft.txt"]) = None.
Proof. split_and!; vm_decide. Qed.

(** A [Makefile] (no extension) and [notes.txt]. *)
Definition ex6_fs : FS := list_to_map
  [([], Dir); (["home"], Dir); (ex_folder, Dir);
   (ex_folder ++ ["Makefile"], File (mkFile "all:" 4 1710072000 1710072000));
   (ex_folder ++ ["notes.txt"], File (mkFile "hi" 2 1710072000 1710072000))].

Definition ex6_run := organize_files_thread "alice" ".txt," ex_folder (mkWorld ex6_fs ∅ None ∅ 1710100000 0 ["home"]).

(** [C26] A leading, trailing or doubled comma in the skip entry adds the
    empty extension to the skip list ([str.split] keeps the empty piece),
    so every file without an extension ([Makefile], [.bashrc]) is skipped
    too, whatever the other pieces say. *)
Theorem skip_list_trailing_comma (skip_entry pre post : string) :
  strip skip_entry = pre +:+ String ","%char post ->
  pre = "" \/ post = "" \/ (exists rest, post = String ","%char rest) ->
  "" ∈ parse_skip_exts skip_entry /\
  forall fs folder item, (splitext item).2 = "" -> should_move fs folder (parse_skip_exts skip_entry) item = false.
Proof.
  intros Hs Hcase.
  assert (Hin : "" ∈ parse_skip_exts skip_entry).
  { unfold parse_skip_exts. rewrite Hs, bool_decide_false by (destruct pre; discriminate).
    rewrite split_on_app_sep. apply list_elem_of_fmap. exists "". split; [reflexivity |].
    destruct Hcase as [-> | [-> | [rest ->]]]; simpl; rewrite ?decide_True by done; set_solver. }
  split; [exact Hin |]. intros fs folder item Hext. unfold should_move. rewrite Hext.
  rewrite bool_decide_true by exact Hin. apply andb_false_r.
Qed.

Lemma skip_list_trailing_comma_witness :
  strip ".txt," = ".txt" +:+ String ","%char "" /\
  ("" ∈ parse_skip_exts ".txt," /\
   forall fs folder item, (splitext item).2 = "" -> should_move fs folder (parse_skip_exts ".txt,") item = false).
Proof.
  assert (H : strip ".txt," = ".txt" +:+ String ","%char "") by reflexivity.
  split; [exact H | exact (skip_list_trailing_comma _ _ _ H (or_intror (or_introl eq_refl)))].
Defined.

(** With [".txt,"] neither [Makefile] nor [notes.txt] moves and the
    summary is empty. *)
Example skip_list_trailing_comma_scenario :
  parse_skip_exts ".txt," = [".txt"; ""] /\
  ex6_run.2 = inr (∅, ["home"; "data"; "backups"; "alice"; "2024-03-10_19-46-40"]) /\
  w_fs ex6_run.1 !! (ex_folder ++ ["Makefile"]) = ex6_fs !! (ex_folder ++ ["Makefile"]).
Proof. split_and!; vm_decide. Qed.
