(* ===== verification/Undo.v ===== *)
(** * The undo stage: [FileOrganizerGUI.undo_operation]

    src/organizer.py lines 368-403.  The handler refuses when there is no
    [undo_log.json] or when it belongs to another user, asks for
    confirmation, then moves each recorded file back into its recorded
    folder under its current name, made unique by the same collision loop
    as the organizer, skipping records whose file no longer exists; it
    deletes the undo log only when the whole pass succeeded.  The
    theorems: the guards change nothing; the restore loop brings every
    recorded file back, each under a distinct name; and organizing then
    undoing returns every moved file to the folder with its contents. *)

From S2P Require Import Prelude PyLib Classifier Calendar FileSystem Naming World ActivityLog Backup Organizer.

(** What the user is shown at the end of [undo_operation]. *)
Inductive undo_result :=
  | NoUndoHistory            (** "No undo history found!" *)
  | NotYourOperation         (** "You can only undo your own last operation!" *)
  | UndoCancelled            (** the confirmation dialog was declined *)
  | UndoComplete (n : nat)   (** "Undo complete! Restored n files." *)
  | UndoFailed (e : exn).    (** "Undo failed: ..." *)

#[export] Instance undo_result_eq_dec : EqDecision undo_result.
Proof. solve_decision. Defined.

(** The body of [for new_path, original_folder in data["files"]]. *)
Definition restore_item (user : string) (restored_count : nat) (record : Path * Path) : M nat :=
  let '(new_path, original_folder) := record in
  w ← get_world;
  if path_exists (w_fs w) new_path then
    let filename := basename new_path in
    original_path ← of_fuel (free_path (w_fs w) original_folder filename);
    _ ← fs_update (fun fs => shutil_move fs new_path original_path);
    _ ← create_log user ("Restored: " +:+ filename);
    mret (S restored_count)
  else mret restored_count.

Fixpoint restore_loop (user : string) (records : list (Path * Path)) (restored_count : nat) : M nat :=
  match records with
  | [] => mret restored_count
  | r :: rest => n ← restore_item user restored_count r; restore_loop user rest n
  end.

(** The handler, for the logged-in [user]; [confirm] is the answer to the
    "Are you sure" dialog.  The [try] catches any exception of the pass. *)
Definition undo_operation (user : string) (confirm : bool) (w : World) : World * undo_result :=
  match w_undo w with
  | None => (w, NoUndoHistory)
  | Some data =>
      if decide (undo_user data <> Some user) then (w, NotYourOperation)
      else if negb confirm then (w, UndoCancelled)
      else match restore_loop user (undo_files data) 0 w with
           | (w', inr restored_count) => (set_undo w' None, UndoComplete restored_count)
           | (w', inl e) => (w', UndoFailed e)
           end
  end.

(** ** The restore loop *)

(** The log line of a restore is valid UTF-8 exactly when the name is. *)
Lemma restored_utf8 x : utf8_valid ("Restored: " +:+ x) = utf8_valid x.
Proof. rewrite !string_app_cons, string_app_nil_l, !utf8_valid_ascii_cons by (vm_compute; lia). done. Qed.

Section Restore.
Context (user : string) (folder : Path).

(** The restore loop's precondition on the recorded destinations [ds]:
    distinct regular files deeper than the folder's children. *)
Definition restorable (fs : FS) (ds : list Path) : Prop :=
  wf fs /\ fs !! folder = Some Dir /\ NoDup ds /\
  forall d, d ∈ ds -> (exists f, fs !! d = Some (File f)) /\ (S (length folder) < length d)%nat /\
    utf8_valid (basename d) = true.

Lemma restore_item_run fs d w n :
  w_fs w = fs -> restorable fs [d] ->
  exists x, free_path fs folder (basename d) = Some (join folder x) /\ fs !! join folder x = None /\
    w_fs (restore_item user n (d, folder) w).1 = <[join folder x := default Dir (fs !! d)]> (delete d fs) /\
    (restore_item user n (d, folder) w).2 = inr (S n) /\
    loop_frame w (restore_item user n (d, folder) w).1.
Proof.
  intros <- (Hwf & Hdir & _ & Hd). destruct (Hd d (list_elem_of_here _ _)) as [[f Hf] [Hl Hu]].
  destruct (fresh_total (w_fs w) folder (basename d)) as [p Hfp].
  pose proof (fresh_free _ _ _ _ Hfp) as Hp. destruct (fresh_child _ _ _ _ Hfp) as [x ->].
  exists x. unfold restore_item, mbind, M_bind, mret, M_ret, get_world, of_fuel, fs_update. simpl.
  rewrite (proj2 (path_exists_true _ d)) by (rewrite Hf; by eexists). rewrite Hfp. simpl.
  rewrite (shutil_move_fresh _ d _ f);
    [| done | unfold join; by destruct folder | by rewrite parent_join | done].
  rewrite create_log_run by (by rewrite restored_utf8). simpl. rewrite Hf.
  split_and!; [done | done | done | done |].
  split_and!; [done | done | apply insert_logs_extend].
Qed.
Lemma restorable_tail fs d ds : restorable fs (d :: ds) -> restorable fs [d].
Proof.
  intros (Hwf & Hdir & Hnd & Hd). split_and!; [done | done | apply NoDup_singleton |].
  intros d' ->%list_elem_of_singleton. apply Hd. by left.
Qed.

(** The restore loop over distinct recorded files: it succeeds, counts
    every record, and puts each file back under a distinct name of the
    folder that was free when the loop started; other paths keep their
    entries. *)
Lemma restore_loop_spec ds n w w' r :
  restorable (w_fs w) ds ->
  restore_loop user ((fun d => (d, folder)) <$> ds) n w = (w', r) ->
  r = inr (n + length ds)%nat /\ loop_frame w w' /\ wf (w_fs w') /\
  exists N, length N = length ds /\ NoDup N /\
    (forall x, x ∈ N -> w_fs w !! join folder x = None) /\
    (forall k d x, ds !! k = Some d -> N !! k = Some x -> w_fs w' !! join folder x = w_fs w !! d) /\
    (forall q, q ∉ ds -> (forall x, x ∈ N -> q <> join folder x) -> w_fs w' !! q = w_fs w !! q).
Proof.
  revert n w w' r. induction ds as [|d rest IH]; intros n w w' r Hr H.
  { simpl in H. injection H as <- <-.
    split_and!; [by rewrite Nat.add_0_r | reflexivity | apply Hr |]. exists [].
    split_and!; [done | constructor | by intros ? ?%not_elem_of_nil |
                 intros ? ? ? Hk; by rewrite lookup_nil in Hk | done]. }
  pose proof Hr as (Hwf & Hdir & Hnd & Hd).
  destruct (Hd d (list_elem_of_here _ _)) as [[f Hf] Hl].
  destruct (restore_item_run (w_fs w) d w n eq_refl (restorable_tail _ _ _ Hr))
    as (x & _ & Hx & Hfs1 & Hres1 & Hfr1).
  rewrite Hf in Hfs1. change (default Dir (Some (File f))) with (File f) in Hfs1.
  destruct (restore_item user n (d, folder) w) as [w1 r1] eqn:Hrun.
  simpl in Hfs1, Hres1, Hfr1. subst r1.
  rewrite fmap_cons in H.
  change (restore_loop user ((d, folder) :: ((fun d => (d, folder)) <$> rest)) n w) with
    ((restore_item user n (d, folder) ≫= fun n' => restore_loop user ((fun d => (d, folder)) <$> rest) n') w) in H.
  rewrite (bind_run_inr _ _ w w1 (S n) Hrun) in H.
  apply NoDup_cons in Hnd as [Hdnin Hnd].
  assert (Hxl : length (join folder x) = S (length folder)) by apply length_join.
  assert (Hneq : forall d', d' ∈ d :: rest -> d' <> join folder x).
  { intros d' Hd' ->. destruct (Hd _ Hd') as [_ Hl']. lia. }
  assert (Hr1 : restorable (w_fs w1) rest).
  { split_and!.
    - rewrite Hfs1. apply wf_rename_file; [done | done | | by rewrite parent_join | congruence].
      unfold join. by destruct folder.
    - rewrite Hfs1, lookup_moved; [done | | intros ->; lia].
      intros Heq. rewrite <- Heq in Hxl. lia.
    - done.
    - intros d' Hd'. destruct (Hd d' (list_elem_of_further _ _ _ Hd')) as [[f' Hf'] Hl'].
      split; [| done]. exists f'. rewrite Hfs1, lookup_moved; [done | by apply Hneq; right |].
      intros ->. done. }
  destruct (IH (S n) w1 w' r Hr1 H) as (Hc & Hfr & Hwf' & N & HNl & HNnd & HNfree & HNpos & HNfr).
  assert (Hx1 : w_fs w1 !! join folder x = Some (File f)) by (rewrite Hfs1; apply lookup_insert_eq).
  assert (HxN : x ∉ N) by (intros HxN; specialize (HNfree x HxN); congruence).
  split_and!; [rewrite Hc; simpl; f_equal; lia | by etrans | done |].
  exists (x :: N). split_and!.
  - simpl. by rewrite HNl.
  - by constructor.
  - intros y [-> | Hy]%elem_of_cons; [done |].
    specialize (HNfree y Hy). rewrite Hfs1, lookup_moved in HNfree; [done | |].
    + intros Heq. apply (inj (join folder)) in Heq. subst. done.
    + intros Heq. destruct (Hd d (list_elem_of_here _ _)) as [_ Hl'].
      rewrite <- Heq, length_join in Hl'. lia.
  - intros [|k] d' y Hk Hy; simpl in Hk, Hy.
    + injection Hk as <-. injection Hy as <-.
      rewrite HNfr; [by rewrite Hx1, Hf | |].
      * intros Hin. by apply (Hneq (join folder x)); [right |].
      * intros x' Hx' Heq. apply (inj (join folder)) in Heq. by subst.
    + rewrite (HNpos k d' y Hk Hy), Hfs1, lookup_moved; [done | | ].
      * apply Hneq. right. by eapply list_elem_of_lookup_2.
      * intros ->. apply Hdnin. by eapply list_elem_of_lookup_2.
  - intros q Hq Hq'. rewrite HNfr; [| set_solver | intros y Hy; apply Hq'; by right].
    rewrite Hfs1, lookup_moved; [done | apply Hq'; by left | set_solver].
Qed.
End Restore.

(** ** Frame of the handler, on every world *)

Lemma restore_loop_frame user ds n : keeps loop_frame (restore_loop user ds n).
Proof.
  revert n. induction ds as [|[d folder] ds IH]; intros n; simpl; [solve_keeps |].
  apply keeps_bind; [apply _ | | intros n'; apply IH].
  unfold restore_item, of_fuel. solve_keeps; first [apply keeps_update_loop | apply keeps_create_log].
Qed.

(** [undo_operation] keeps the environment and only appends to logs. *)
Lemma undo_operation_frame user confirm w : engine_frame w (undo_operation user confirm w).1.
Proof.
  unfold undo_operation. destruct (w_undo w) as [data|]; [| reflexivity].
  case_decide; [reflexivity |]. destruct confirm; [| reflexivity]. simpl.
  destruct (restore_loop user (undo_files data) 0 w) as [w' r] eqn:Hrun.
  destruct (restore_loop_frame _ _ _ _ _ _ Hrun) as (Henv & _ & Hl).
  by destruct r; split.
Qed.

(** [undo_operation] writes only valid UTF-8 to the logs. *)
Lemma restore_loop_utf8 user ds n : keeps logs_utf8_kept (restore_loop user ds n).
Proof.
  revert n. induction ds as [|[d folder] ds IH]; intros n; simpl; [solve_keeps |].
  apply keeps_bind; [apply _ | | intros n'; apply IH].
  unfold restore_item, of_fuel. solve_keeps; first [apply keeps_update_utf8 | apply keeps_create_log_utf8].
Qed.

Lemma undo_operation_utf8 user confirm w : logs_utf8_kept w (undo_operation user confirm w).1.
Proof.
  unfold undo_operation. destruct (w_undo w) as [data|]; [| reflexivity].
  case_decide; [reflexivity |]. destruct confirm; [| reflexivity]. simpl.
  destruct (restore_loop user (undo_files data) 0 w) as [w' r] eqn:Hrun.
  pose proof (restore_loop_utf8 _ _ _ _ _ _ Hrun) as Hk. by destruct r.
Qed.

(** [undo_operation] keeps the disk well formed, whatever the records hold. *)
Lemma restore_loop_wf user ds n : keeps wf_kept (restore_loop user ds n).
Proof.
  revert n. induction ds as [|[d folder] ds IH]; intros n; simpl; [solve_keeps |].
  apply keeps_bind; [apply _ | | intros n'; apply IH].
  unfold restore_item, of_fuel. solve_keeps.
  - apply keeps_update; [apply _ |]. intros w fs' H Hwf. by apply (shutil_move_wf _ _ _ _ Hwf H).
  - apply keeps_create_log_wf.
Qed.

Lemma undo_operation_wf user confirm w : wf (w_fs w) -> wf (w_fs (undo_operation user confirm w).1).
Proof.
  unfold undo_operation. destruct (w_undo w) as [data|]; [| done].
  case_decide; [done |]. destruct confirm; [| done]. simpl.
  destruct (restore_loop user (undo_files data) 0 w) as [w' r] eqn:Hrun.
  pose proof (restore_loop_wf _ _ _ _ _ _ Hrun). by destruct r.
Qed.

(** ** Properties *)

Lemma records_fmap folder (M : list (string * Path)) :
  records folder M = (fun d => (d, folder)) <$> M.*2.
Proof. unfold records. by rewrite <- list_fmap_compose. Qed.

(** [C21] [undo_operation] changes nothing unless an undo entry exists, it
    belongs to the calling user, and the user confirmed. *)
Theorem undo_operation_guarded (user : string) (confirm : bool) (w : World) :
  (undo_operation user confirm w).1 <> w ->
  exists data, w_undo w = Some data /\ undo_user data = Some user /\ confirm = true.
Proof.
  unfold undo_operation. intros H. destruct (w_undo w) as [data|]; [| done].
  case_decide; [done |]. destruct confirm; [| done].
  exists data. split_and!; [done | tauto | done].
Qed.

(** [C2] Organizing a folder and then undoing it, as the same user, brings
    every moved file back into the folder with its original contents,
    each under a distinct name, reports the number of files restored and
    empties the undo slot. *)
Theorem organize_then_undo user skip_entry folder w0 w1 summary backup_path w2 res :
  wf (w_fs w0) -> w_fs w0 !! folder = Some Dir ->
  organize_files_thread user skip_entry folder w0 = (w1, inr (summary, backup_path)) ->
  undo_operation user true w1 = (w2, res) ->
  let fsb := w_fs (backup_folder user folder w0).1 in
  exists items M,
    listdir fsb folder = inr items /\
    M.*1 = filter (fun i => should_move fsb folder (parse_skip_exts skip_entry) i = true) items /\
    (M <> [] ->
      res = UndoComplete (length M) /\ w_undo w2 = None /\
      exists names, length names = length M /\ NoDup names /\
        forall k (i : string) (d : Path) (n : string), M !! k = Some (i, d) -> names !! k = Some n ->
          w_fs w2 !! join folder n = fsb !! join folder i).
Proof.
  intros Hwf Hdir Horg Hundo fsb.
  destruct (organize_run_spec _ _ _ _ _ _ _ Hwf Hdir Horg)
    as (items & M & Hls & HM & Hinv & _ & Hu & Hutf).
  exists items, M. split_and!; [done | done |]. intros HMne.
  destruct M as [|m M']; [done |]. set (M := m :: M') in *.
  unfold undo_operation in Hundo. rewrite Hu in Hundo. cbn -[restore_loop records decide] in Hundo.
  rewrite decide_False in Hundo by tauto. cbn -[restore_loop records] in Hundo.
  rewrite records_fmap in Hundo.
  destruct (restore_loop user ((fun d => (d, folder)) <$> M.*2) 0 w1) as [w' r] eqn:Hloop.
  destruct (backup_folder user folder w0) as [wb rb] eqn:Hb. subst fsb. cbn [fst] in *.
  destruct (backup_folder_sound user folder _ _ _ Hb) as [Hwfb Hdb].
  assert (Hr : restorable folder (w_fs w1) M.*2).
  { split_and!; [apply (mi_wf _ _ _ _ _ Hinv) | exact (moved_inv_folder _ _ _ (Hdb _ Hdir) _ _ Hinv) |
                 apply (mi_nodup _ _ _ _ _ Hinv) |].
    intros d Hd. apply list_elem_of_fmap in Hd as ([i d'] & -> & Hin). simpl.
    destruct (mi_dst _ _ _ _ _ Hinv i d' Hin) as [-> Hf]. split_and!; [done | |].
    - rewrite (mi_depth _ _ _ _ _ Hinv i d' Hin). lia.
    - exact (proj1 (Forall_forall _ _) Hutf _ Hin). }
  destruct (restore_loop_spec user folder _ 0 w1 w' r Hr Hloop)
    as (-> & _ & _ & N & HNl & HNnd & _ & HNpos & _).
  injection Hundo as <- <-. rewrite length_fmap in HNl |- *.
  split_and!; [done | done |]. exists N. split_and!; [done | done |].
  intros k i d n Hk Hn. simpl. rewrite (HNpos k d n); [| by rewrite list_lookup_fmap, Hk | done].
  apply (mi_dst _ _ _ _ _ Hinv i d). by eapply list_elem_of_lookup_2.
Qed.

(** ** Witnesses and scenarios *)

Definition ex_undo : World * undo_result := undo_operation "alice" true ex_run.1.

Lemma ex_undo_ok : undo_operation "alice" true ex_run.1 = (ex_undo.1, ex_undo.2).
Proof. apply surjective_pairing. Qed.

Lemma undo_operation_guarded_witness :
  (undo_operation "alice" true ex_run.1).1 <> ex_run.1 /\
  exists data, w_undo ex_run.1 = Some data /\ undo_user data = Some "alice" /\ true = true.
Proof.
  assert (H : (undo_operation "alice" true ex_run.1).1 <> ex_run.1).
  { intros Heq. apply (f_equal w_undo) in Heq. vm_compute in Heq. discriminate. }
  split; [exact H | exact (undo_operation_guarded "alice" true ex_run.1 H)].
Defined.

Lemma organize_then_undo_witness :
  wf (w_fs ex_w0) /\ w_fs ex_w0 !! ex_folder = Some Dir /\
  organize_files_thread "alice" "" ex_folder ex_w0 = (ex_run.1, inr (ex_summary, ex_backup)) /\
  undo_operation "alice" true ex_run.1 = (ex_undo.1, ex_undo.2) /\
  let fsb := w_fs (backup_folder "alice" ex_folder ex_w0).1 in
  exists items M,
    listdir fsb ex_folder = inr items /\
    M.*1 = filter (fun i => should_move fsb ex_folder (parse_skip_exts "") i = true) items /\
    (M <> [] ->
      ex_undo.2 = UndoComplete (length M) /\ w_undo ex_undo.1 = None /\
      exists names, length names = length M /\ NoDup names /\
        forall k (i : string) (d : Path) (n : string), M !! k = Some (i, d) -> names !! k = Some n ->
          w_fs ex_undo.1 !! join ex_folder n = fsb !! join ex_folder i).
Proof.
  assert (H2 : w_fs ex_w0 !! ex_folder = Some Dir) by (vm_compute; reflexivity).
  split; [exact ex_w0_wf | split; [exact H2 | split; [exact ex_run_ok | split; [exact ex_undo_ok |]]]].
  exact (organize_then_undo "alice" "" ex_folder ex_w0 ex_run.1 ex_summary ex_backup
           ex_undo.1 ex_undo.2 ex_w0_wf H2 ex_run_ok ex_undo_ok).
Defined.

(** A destination folder that already holds a [d.txt] from an earlier run,
    and a folder with [d.txt] and [d_1.txt]. *)
Definition ex3_dest : Path := ex_folder ++ ["Documents"; "2024"; "03"; "Small"].

Definition ex3_fs : FS := list_to_map
  [([], Dir); (["home"], Dir); (ex_folder, Dir);
   (ex_folder ++ ["Documents"], Dir); (ex_folder ++ ["Documents"; "2024"], Dir);
   (ex_folder ++ ["Documents"; "2024"; "03"], Dir); (ex3_dest, Dir);
   (ex3_dest ++ ["d.txt"], File (mkFile "<earlier>" 5 1700000000 1700000000));
   (ex_folder ++ ["d.txt"], File (mkFile "<A>" 100 1710072000 1710072000));
   (ex_folder ++ ["d_1.txt"], File (mkFile "<B>" 200 1710072000 1710072000))].

Definition ex3_w0 : World := mkWorld ex3_fs ∅ None ∅ 1710100000 0 ["home"].
Definition ex3_run := organize_files_thread "alice" "" ex_folder ex3_w0.
Definition ex3_undo := undo_operation "alice" true ex3_run.1.

(** The undo log keeps no original file names: [d.txt] was renamed
    [d_1.txt] on the way out (a [d.txt] was already there), so undo
    restores it as [d_1.txt], and the original [d_1.txt] comes back as
    [d_1_1.txt]; the name [d.txt] is gone and [d_1.txt] now names the
    other file. *)
Example undo_restores_under_other_name :
  ex3_undo.2 = UndoComplete 2 /\
  w_fs ex3_undo.1 !! (ex_folder ++ ["d.txt"]) = None /\
  w_fs ex3_undo.1 !! (ex_folder ++ ["d_1.txt"]) = ex3_fs !! (ex_folder ++ ["d.txt"]) /\
  w_fs ex3_undo.1 !! (ex_folder ++ ["d_1_1.txt"]) = ex3_fs !! (ex_folder ++ ["d_1.txt"]).
Proof. split_and!; vm_decide. Qed.

(** Two users: [alice] organizes [/home/dl], then [bob] organizes [/home/bob]. *)
Definition ex4_fs : FS := list_to_map
  [([], Dir); (["home"], Dir); (ex_folder, Dir); (["home"; "bob"], Dir);
   (ex_folder ++ ["photo.jpg"], File (mkFile "<jpeg>" 512000 1710072000 1710072000));
   (["home"; "bob"; "song.mp3"], File (mkFile "<mp3>" 4000000 1710072000 1710072000))].

Definition ex4_w0 : World := mkWorld ex4_fs ∅ None ∅ 1710100000 0 ["home"].
Definition ex4_alice := organize_files_thread "alice" "" ex_folder ex4_w0.
Definition ex4_bob := organize_files_thread "bob" "" ["home"; "bob"] ex4_alice.1.
Definition ex4_undo := undo_operation "alice" true ex4_bob.1.

(** The undo slot is global: after [bob]'s run overwrote it, [alice]
    can no longer undo her own run, which was successful and is lost from
    the slot; her photo stays in the category tree. *)
Example undo_slot_shared_between_users :
  w_undo ex4_alice.1 <> None /\
  option_map undo_user (w_undo ex4_bob.1) = Some (Some "bob") /\
  ex4_undo.2 = NotYourOperation /\
  w_fs ex4_undo.1 !! (ex_folder ++ ["Images"; "2024"; "03"; "Small"; "photo.jpg"]) =
    ex4_fs !! (ex_folder ++ ["photo.jpg"]).
Proof. split_and!; vm_decide. Qed.
