(* ===== verification/Session.v ===== *)
(** * The application: accounts, screens and the wiring of the handlers

    src/organizer.py lines 28-41 ([ensure_data_dirs], [load_users],
    [save_users]), 71-90 (the constructor), 140-171 ([login], [register]),
    173-203 (the main menu), 277-293 ([start_organization]), 355-366
    ([show_organization_results]) and 457-460 ([logout]).  The Tk widgets
    are not modelled; what the code reads from them is the payload of an
    [event], and what it shows in a message box is a [message].  An
    application state is the world, [self.current_user] and the screen on
    display; [step] runs the handler a button (or the [<Return>] key
    binding) of the current screen invokes, and returns [None] for an
    event no widget of the screen can raise.  The worker thread of
    [start_organization] is run to completion inside the step; Worker.v
    interleaves it with the GUI.  A run that raises shows nothing: the
    error callback raises [NameError].

    The theorems: reachable states have a user exactly when they are not
    on the login screen, and that user is registered; started on a
    well-formed disk, every reachable state has a well-formed disk; a
    login succeeds only with the stored password; the users map only
    grows, so no registration overwrites a password; every step only
    appends to logs; a registered user can always get logged in within
    three events. *)

From S2P Require Import Prelude PyLib Classifier Calendar FileSystem Naming World ActivityLog Backup Organizer Undo.
From Stdlib Require Import Ascii.

(** ** The data stores *)

(** [ensure_data_dirs()]. *)
Definition ensure_data_dirs : M unit :=
  w ← get_world;
  _ ← fs_update (fun fs => makedirs fs (DATA_DIR w));
  _ ← fs_update (fun fs => makedirs fs (DATA_DIR w ++ ["logs"]));
  fs_update (fun fs => makedirs fs (DATA_DIR w ++ ["backups"])).

(** [load_users()]: a missing [users.json] reads as [{}], which is also
    how the empty map is stored. *)
Definition load_users (w : World) : gmap string string := w_users w.

(** [save_users(users)]. *)
Definition save_users (users : gmap string string) (w : World) : World := set_users w users.

(** A path string as the kernel resolves it against the working
    directory (no symbolic links). *)
Definition resolve (cwd : Path) (s : string) : Path :=
  let start := match s with String c _ => if bool_decide (c = "/"%char) then [] else cwd
                          | EmptyString => cwd end in
  foldl (fun p c => if bool_decide (c = "") || bool_decide (c = ".") then p
                    else if bool_decide (c = "..") then parent p else p ++ [c])
        start (split_on "/"%char s).

(** ** Application state *)

Inductive screen := LoginScreen | MainMenu | OrganizeScreen | LogScreen.

#[export] Instance screen_eq_dec : EqDecision screen.
Proof. solve_decision. Defined.

Record App := mkApp { app_world : World; current_user : option string; app_screen : screen }.

(** What a message box, or the log window, shows. *)
Inductive message :=
  | ShowError (text : string)
  | ShowInfo (text : string)
  | OrganizationSummary (summary : gmap string nat) (backup_path : Path)
  | UndoShown (r : undo_result)
  | LogShown (text : string).

#[export] Instance message_eq_dec : EqDecision message.
Proof. solve_decision. Defined.

(** What the user does: the payloads are what the code reads from the
    entries at that moment. *)
Inductive event :=
  | LoginButton (username password : string)
  | RegisterButton (username password : string)
  | ReturnKey (username password : string)
  | OrganizeButton
  | UndoButton (confirm : bool)
  | ViewLogButton
  | LogoutButton (confirm : bool)
  | BackButton
  | StartButton (folder skip : string).

Definition set_world (a : App) (w : World) : App := mkApp w (current_user a) (app_screen a).
Definition goto (a : App) (s : screen) : App := mkApp (app_world a) (current_user a) s.

(** ** Handlers *)

Definition EMPTY_CREDENTIALS : string := "Please enter both username and password!".

Definition login (username_entry password_entry : string) (a : App) : App * list message :=
  let username := strip username_entry in
  let password := strip password_entry in
  if bool_decide (username = "") || bool_decide (password = "") then (a, [ShowError EMPTY_CREDENTIALS])
  else
    let users := load_users (app_world a) in
    if bool_decide (users !! username = Some password)
    then (mkApp (app_world a) (Some username) MainMenu, [ShowInfo ("Welcome, " +:+ username +:+ "!")])
    else (a, [ShowError "Invalid credentials!"]).

Definition register (username_entry password_entry : string) (a : App) : App * list message :=
  let username := strip username_entry in
  let password := strip password_entry in
  if bool_decide (username = "") || bool_decide (password = "") then (a, [ShowError EMPTY_CREDENTIALS])
  else
    let users := load_users (app_world a) in
    if bool_decide (is_Some (users !! username)) then (a, [ShowError "Username already exists!"])
    else (set_world a (save_users (<[username := password]> users) (app_world a)),
          [ShowInfo "Registration successful! You can now login."]).

(** [show_organization_results(summary, backup_path)]. *)
Definition show_organization_results (summary : gmap string nat) (backup_path : Path) : message :=
  if bool_decide (summary = ∅) then ShowInfo "No files were organized."
  else OrganizationSummary summary backup_path.

(** The checks of [start_organization] (lines 278-285): the error it
    shows, or the folder the worker thread is started on. *)
Definition start_checks (folder_entry : string) (w : World) : message + Path :=
  if bool_decide (folder_entry = "") then inl (ShowError "Please select a folder!")
  else
    let folder_path := resolve (w_cwd w) folder_entry in
    if negb (path_exists (w_fs w) folder_path) then inl (ShowError "Folder path does not exist!")
    else inr folder_path.

(** What the callbacks the worker posts with [root.after] show once its
    [try] ended: the results (line 348); after an exception nothing, as
    the [lambda] of line 351 reads [e], which Python deletes at the end of
    the [except] clause: it raises [NameError], which Tk only reports on
    stderr. *)
Definition thread_messages (r : exn + gmap string nat * Path) : list message :=
  match r with
  | inr (summary, backup_path) => [show_organization_results summary backup_path]
  | inl _ => []
  end.

(** [start_organization] with the worker thread run to its end. *)
Definition start_organization (user folder_entry skip_entry : string) (a : App) : App * list message :=
  match start_checks folder_entry (app_world a) with
  | inl msg => (a, [msg])
  | inr folder_path =>
      let '(w', r) := organize_files_thread user skip_entry folder_path (app_world a) in
      (set_world a w', thread_messages r)
  end.

Definition logout (confirm : bool) (a : App) : App :=
  if confirm then mkApp (app_world a) None LoginScreen else a.

(** The handler the event invokes on the current screen.  On any screen
    but the login screen, [<Return>] still calls [login], whose
    [self.username_entry.get()] raises on the destroyed entry: Tk reports
    the error and nothing changes. *)
Definition step (ev : event) (a : App) : option (App * list message) :=
  match app_screen a, ev, current_user a with
  | LoginScreen, LoginButton u p, _ => Some (login u p a)
  | LoginScreen, ReturnKey u p, _ => Some (login u p a)
  | LoginScreen, RegisterButton u p, _ => Some (register u p a)
  | _, ReturnKey _ _, _ => Some (a, [])
  | MainMenu, OrganizeButton, Some _ => Some (goto a OrganizeScreen, [])
  | MainMenu, UndoButton confirm, Some u =>
      let '(w', r) := undo_operation u confirm (app_world a) in Some (set_world a w', [UndoShown r])
  | MainMenu, ViewLogButton, Some u => Some (goto a LogScreen, [LogShown (load_log (app_world a) u)])
  | MainMenu, LogoutButton confirm, Some _ => Some (logout confirm a, [])
  | OrganizeScreen, StartButton f s, Some u => Some (start_organization u f s a)
  | OrganizeScreen, BackButton, Some _ => Some (goto a MainMenu, [])
  | LogScreen, BackButton, Some _ => Some (goto a MainMenu, [])
  | _, _, _ => None
  end.

(** [FileOrganizerGUI()]: the data directories, then the login screen; an
    exception of [ensure_data_dirs] aborts the constructor. *)
Definition init (w : World) : option App :=
  match ensure_data_dirs w with
  | (w', inr _) => Some (mkApp w' None LoginScreen)
  | (_, inl _) => None
  end.

(** A sequence of events, with the messages shown; [None] when one of
    them is not available. *)
Fixpoint run_events (evs : list event) (a : App) : option (App * list message) :=
  match evs with
  | [] => Some (a, [])
  | ev :: evs' =>
      match step ev a with
      | None => None
      | Some (a', ms) =>
          match run_events evs' a' with
          | None => None
          | Some (a'', ms') => Some (a'', ms ++ ms')
          end
      end
  end.

(** The states the application reaches when started on world [w0]. *)
Inductive reachable (w0 : World) : App -> Prop :=
  | reach_init a : init w0 = Some a -> reachable w0 a
  | reach_step a ev a' ms : reachable w0 a -> step ev a = Some (a', ms) -> reachable w0 a'.

(** ** Frames and invariants *)

(** What a step may do to the world besides the disk and the undo slot:
    add users, append to logs, and nothing else. *)
Definition app_frame (w w' : World) : Prop :=
  w_users w ⊆ w_users w' /\ w_clock w' = w_clock w /\ w_tz w' = w_tz w /\ w_cwd w' = w_cwd w /\
  logs_extend (w_logs w) (w_logs w').

#[export] Instance app_frame_preorder : PreOrder app_frame.
Proof.
  split; [intros w; split_and!; done || reflexivity |].
  intros w1 w2 w3 (? & ? & ? & ? & ?) (? & ? & ? & ? & ?). split_and!; by etrans || congruence.
Qed.

Lemma engine_app_frame w w' : engine_frame w w' -> app_frame w w'.
Proof. intros [(Hu & ? & ? & ?) ?]. split_and!; [rewrite Hu; reflexivity | done..]. Qed.

#[export] Hint Resolve engine_app_frame organize_files_thread_frame undo_operation_frame : fo.

(** A login either changes nothing or logs in the stripped user name,
    whose stored password is the stripped password. *)
Lemma login_spec u p a :
  (login u p a).1 = a \/
  ((login u p a).1 = mkApp (app_world a) (Some (strip u)) MainMenu /\
   w_users (app_world a) !! strip u = Some (strip p)).
Proof.
  unfold login. cbv zeta. destruct (_ || _); [by left |]. case_bool_decide; [right | left]; done.
Qed.

(** A registration either changes nothing or adds a user that was not there. *)
Lemma register_spec u p a :
  (register u p a).1 = a \/
  (w_users (app_world a) !! strip u = None /\
   (register u p a).1 = set_world a (set_users (app_world a)
                          (<[strip u := strip p]> (w_users (app_world a))))).
Proof.
  unfold register. cbv zeta. destruct (_ || _); [by left |]. case_bool_decide as Hs; [by left | right].
  split; [by apply eq_None_not_Some | done].
Qed.

(** [start_organization] shows an error of its checks, or runs the thread. *)
Lemma start_organization_cases u f s a :
  (start_organization u f s a).1 = a \/
  exists folder w' r, organize_files_thread u s folder (app_world a) = (w', r) /\
    start_organization u f s a = (set_world a w', thread_messages r).
Proof.
  unfold start_organization. destruct (start_checks f (app_world a)) as [msg|folder]; [by left | right].
  destruct (organize_files_thread _ _ _ _) as [w' r] eqn:Hrun. by exists folder, w', r.
Qed.

Lemma start_organization_spec u f s a :
  (start_organization u f s a).1 = a \/
  exists w', (start_organization u f s a).1 = set_world a w' /\ engine_frame (app_world a) w'.
Proof.
  destruct (start_organization_cases u f s a) as [-> | (folder & w' & r & Hrun & ->)]; [by left | right].
  exists w'. split; [done | exact (organize_files_thread_frame _ _ _ _ _ _ Hrun)].
Qed.

Lemma register_app_frame u p a : app_frame (app_world a) (app_world (register u p a).1).
Proof.
  destruct (register_spec u p a) as [-> | [Hn ->]]; [reflexivity |].
  split_and!; [by apply insert_subseteq | done.. | reflexivity].
Qed.

Lemma start_app_frame u f s a : app_frame (app_world a) (app_world (start_organization u f s a).1).
Proof.
  destruct (start_organization_spec u f s a) as [-> | (w' & -> & Hf)]; [reflexivity |].
  by apply engine_app_frame.
Qed.

Lemma login_app_frame u p a : app_frame (app_world a) (app_world (login u p a).1).
Proof. destruct (login_spec u p a) as [-> | [-> _]]; reflexivity. Qed.

Lemma some_pair_fst {A B} (x : A * B) a m : Some x = Some (a, m) -> a = x.1.
Proof. by intros [= ->]. Qed.

(** Split a hypothesis [step ev a = Some (a', ms)] into the handler cases. *)
Ltac step_cases H :=
  let w := fresh "w" in let cu := fresh "cu" in let sc := fresh "sc" in
  match type of H with step ?ev ?a = _ =>
    destruct a as [w cu sc]; destruct sc, ev, cu; unfold step in H; simpl in H; try discriminate H
  end.

Lemma step_app_frame ev a a' ms :
  step ev a = Some (a', ms) -> app_frame (app_world a) (app_world a').
Proof.
  intros H. step_cases H;
    try (destruct (undo_operation _ _ _) as [w' r] eqn:Hu in H);
    apply some_pair_fst in H; subst a'; simpl; try reflexivity; try (unfold logout; case_match; reflexivity);
    first [ apply (login_app_frame _ _ (mkApp _ _ _)) | apply (register_app_frame _ _ (mkApp _ _ _))
          | apply (start_app_frame _ _ _ (mkApp _ _ _)) | idtac ].
  all: apply engine_app_frame; match goal with Hu : undo_operation ?u ?c ?w = _ |- _ =>
         pose proof (undo_operation_frame u c w) as Hf; rewrite Hu in Hf; exact Hf end.
Qed.

(** The session invariant: a user is logged in exactly off the login
    screen, and is a registered user. *)
Definition session_inv (a : App) : Prop :=
  (app_screen a = LoginScreen <-> current_user a = None) /\
  forall u, current_user a = Some u -> is_Some (w_users (app_world a) !! u).

Lemma session_inv_frame a a' :
  session_inv a -> w_users (app_world a) ⊆ w_users (app_world a') ->
  current_user a' = current_user a -> (app_screen a' = LoginScreen <-> app_screen a = LoginScreen) ->
  session_inv a'.
Proof.
  intros [Hs Hu] Hsub Hc Hscr. split; [rewrite Hscr, Hc; done |].
  intros u Hu'. rewrite Hc in Hu'. exact (lookup_weaken_is_Some _ _ _ (Hu u Hu') Hsub).
Qed.

Lemma session_inv_login u p a : session_inv a -> session_inv (login u p a).1.
Proof.
  intros Hi. destruct (login_spec u p a) as [-> | [-> Hpw]]; [done |].
  split; [done |]. intros x [= <-]. simpl. by rewrite Hpw.
Qed.

Lemma session_inv_register u p a : session_inv a -> session_inv (register u p a).1.
Proof.
  intros Hi. pose proof (register_app_frame u p a) as [Hsub _].
  destruct (register_spec u p a) as [Hr | [_ Hr]]; rewrite Hr in Hsub |- *; [done |].
  by eapply session_inv_frame.
Qed.

Lemma session_inv_start u f s a : session_inv a -> session_inv (start_organization u f s a).1.
Proof.
  intros Hi. pose proof (start_app_frame u f s a) as [Hsub _].
  destruct (start_organization_spec u f s a) as [Hr | (w' & Hr & _)]; rewrite Hr in Hsub |- *;
    [done | by eapply session_inv_frame].
Qed.

Lemma step_session_inv ev a a' ms : session_inv a -> step ev a = Some (a', ms) -> session_inv a'.
Proof.
  intros Hi H. pose proof (step_app_frame _ _ _ _ H) as [Hsub _].
  step_cases H; try (destruct (undo_operation _ _ _) as [w' r] eqn:Hu in H);
    apply some_pair_fst in H; subst a'; simpl in *;
    first [ by apply session_inv_login | by apply session_inv_register
          | by apply session_inv_start | done
          | unfold logout; destruct confirm; [done | done]
          | by eapply session_inv_frame ].
Qed.

(** How a step changes the current user: not at all, to nobody, or by a
    login with the stored password. *)
Lemma step_user_cases ev a a' ms :
  step ev a = Some (a', ms) ->
  current_user a' = current_user a \/ current_user a' = None \/
  exists u p, (ev = LoginButton u p \/ ev = ReturnKey u p) /\ app_screen a = LoginScreen /\
    current_user a' = Some (strip u) /\ w_users (app_world a) !! strip u = Some (strip p).
Proof.
  intros H. step_cases H; try (destruct (undo_operation _ _ _) as [w' r] eqn:Hu in H);
    apply some_pair_fst in H; subst a'; simpl in *; try by left.
  all: try match goal with |- context [login ?u ?p ?a] =>
         destruct (login_spec u p a) as [-> | [-> Hpw]];
           [by left | right; right; exists u, p; by split_and!; [auto | ..]] end.
  all: try match goal with |- context [register ?u ?p ?a] =>
         destruct (register_spec u p a) as [-> | [_ ->]]; by left end.
  all: try match goal with |- context [start_organization ?u ?f ?s ?a] =>
         destruct (start_organization_spec u f s a) as [-> | (w' & -> & _)]; by left end.
  all: unfold logout; destruct confirm; [right; by left | by left].
Qed.

(** The disk stays well formed. *)
Lemma ensure_data_dirs_wf : keeps wf_kept ensure_data_dirs.
Proof.
  unfold ensure_data_dirs. solve_keeps;
    apply keeps_update; try apply _; intros w fs' H Hwf; exact (proj2 (proj2 (makedirs_ok _ _ _ Hwf H))).
Qed.

(** What a step does to the world: nothing, a new user, an undo, or an
    organize run. *)
Lemma step_world_cases ev a a' ms :
  step ev a = Some (a', ms) ->
  app_world a' = app_world a \/
  (exists users, app_world a' = set_users (app_world a) users) \/
  (exists u c, app_world a' = (undo_operation u c (app_world a)).1) \/
  (exists u s f r, organize_files_thread u s f (app_world a) = (app_world a', r)).
Proof.
  intros H. step_cases H; try (destruct (undo_operation _ _ _) as [w' r] eqn:Hu in H);
    apply some_pair_fst in H; subst a'; simpl; try by left.
  all: try match goal with |- context [login ?u ?p ?a] =>
         destruct (login_spec u p a) as [-> | [-> _]]; by left end.
  all: try match goal with |- context [register ?u ?p ?a] =>
         destruct (register_spec u p a) as [-> | [_ ->]]; [by left | right; left; by eexists] end.
  all: try (unfold logout; destruct confirm; by left).
  - right; right; left. do 2 eexists. by rewrite Hu.
  - match goal with |- context [start_organization ?u ?f ?s ?a] =>
      destruct (start_organization_cases u f s a) as [-> | (fd & w' & r & Hrun & ->)]; [by left |] end.
    right; right; right. by do 4 eexists.
Qed.

Lemma ensure_data_dirs_utf8 : keeps logs_utf8_kept ensure_data_dirs.
Proof. unfold ensure_data_dirs. solve_keeps; apply keeps_update_utf8. Qed.

Lemma step_wf ev a a' ms :
  step ev a = Some (a', ms) -> wf (w_fs (app_world a)) -> wf (w_fs (app_world a')).
Proof.
  intros H Hwf. destruct (step_world_cases _ _ _ _ H) as [-> | [[us ->] | [(u & c & ->) | (u & s & f & r & Hrun)]]];
    [done | done | by apply undo_operation_wf |].
  pose proof (organize_files_thread_wf u s f _ Hwf) as Hw. by rewrite Hrun in Hw.
Qed.

(** No step writes a log line that is not valid UTF-8. *)
Lemma step_logs_utf8 ev a a' ms :
  step ev a = Some (a', ms) -> logs_utf8_kept (app_world a) (app_world a').
Proof.
  intros H. destruct (step_world_cases _ _ _ _ H) as [-> | [[us ->] | [(u & c & ->) | (u & s & f & r & Hrun)]]];
    [reflexivity | by apply logs_same_utf8 | apply undo_operation_utf8 |].
  exact (organize_files_thread_utf8 _ _ _ _ _ _ Hrun).
Qed.

Lemma reachable_session (w0 : World) (a : App) : reachable w0 a -> session_inv a.
Proof.
  induction 1 as [a Hinit | a ev a' ms _ IH Hstep].
  - unfold init in Hinit. destruct (ensure_data_dirs w0) as [w' [|]]; [done |].
    injection Hinit as <-. split; [done | by intros v ?].
  - exact (step_session_inv _ _ _ _ IH Hstep).
Qed.

(** A login with the stored, already stripped credentials succeeds. *)
Lemma login_ok u p a :
  strip u = u -> strip p = p -> u <> "" -> p <> "" -> w_users (app_world a) !! u = Some p ->
  (login u p a).1 = mkApp (app_world a) (Some u) MainMenu.
Proof.
  intros Hu Hp Hu0 Hp0 Hpw. unfold login. cbv zeta. rewrite Hu, Hp.
  rewrite !bool_decide_eq_false_2 by done. simpl. unfold load_users. by rewrite bool_decide_eq_true_2.
Qed.

(** ** Properties *)

(** [C13] Every reachable state of the application has a current user
    exactly when it is off the login screen, and that user is registered
    in [users.json]: no handler of the main menu, the organize screen or
    the log screen runs without a logged-in, registered user. *)
Theorem reachable_session_inv (w0 : World) (a : App) : reachable w0 a -> session_inv a.
Proof. apply reachable_session. Qed.

(** Started on a well-formed disk, the application keeps it well
    formed in every reachable state: the root is a directory and every
    entry's parent is a directory, whatever the user does (organize runs
    that raise, undo of records whose paths now hold directories). *)
Theorem reachable_disk_wf (w0 : World) (a : App) :
  wf (w_fs w0) -> reachable w0 a -> wf (w_fs (app_world a)).
Proof.
  intros Hwf. induction 1 as [a Hinit | a ev a' ms _ IH Hstep].
  - unfold init in Hinit. destruct (ensure_data_dirs w0) as [w' [|]] eqn:He; [done |].
    injection Hinit as <-. exact (ensure_data_dirs_wf _ _ _ He Hwf).
  - exact (step_wf _ _ _ _ Hstep IH).
Qed.

(** [C17] Started on a world whose activity logs are valid UTF-8, every
    reachable state has only valid UTF-8 log files: a move or restore of
    a file whose name does not decode raises before its line is written.
    So [load_log] never takes its [except] branch ("Error reading log
    file: ..."): reading any log decodes without error. *)
Theorem reachable_logs_decode (w0 : World) (a : App) :
  logs_utf8 w0 -> reachable w0 a ->
  forall u raw, w_logs (app_world a) !! u = Some raw -> utf8_err 0 raw = None.
Proof.
  intros H0 Hr. assert (Hl : logs_utf8 (app_world a)).
  { induction Hr as [a Hinit | a ev a' ms _ IH Hstep].
    - unfold init in Hinit. destruct (ensure_data_dirs w0) as [w' [|]] eqn:He; [done |].
      injection Hinit as <-. exact (ensure_data_dirs_utf8 _ _ _ He H0).
    - exact (step_logs_utf8 _ _ _ _ Hstep IH). }
  intros u raw Hu. apply utf8_err_valid. exact (Hl _ _ Hu).
Qed.

(** [C19] A user becomes the current user only through [login] (the Login
    button or the [<Return>] key on the login screen), and only when the
    stripped password typed is the one [users.json] stores for the
    stripped user name. *)
Theorem login_requires_password ev a a' ms x :
  step ev a = Some (a', ms) -> current_user a' = Some x -> current_user a <> Some x ->
  exists u p, (ev = LoginButton u p \/ ev = ReturnKey u p) /\ app_screen a = LoginScreen /\
    strip u = x /\ w_users (app_world a) !! x = Some (strip p).
Proof.
  intros H Hx Hne.
  destruct (step_user_cases _ _ _ _ H) as [Hc | [Hc | (u & p & Hev & Hs & Hc & Hpw)]]; [congruence.. |].
  rewrite Hc in Hx. injection Hx as <-. by exists u, p.
Qed.

(** [C20] No step removes a user or changes a stored password (a
    registration of an existing name is refused), and no step removes or
    rewrites anything already written to an activity log. *)
Theorem step_keeps_accounts_and_logs ev a a' ms :
  step ev a = Some (a', ms) ->
  (forall u pw, w_users (app_world a) !! u = Some pw -> w_users (app_world a') !! u = Some pw) /\
  (forall u s, w_logs (app_world a) !! u = Some s ->
     exists t, w_logs (app_world a') !! u = Some (s +:+ t)).
Proof.
  intros H. destruct (step_app_frame _ _ _ _ H) as (Hsub & _ & _ & _ & Hl).
  split; [intros u pw Hu; exact (lookup_weaken _ _ _ _ Hu Hsub) | exact Hl].
Qed.

(** [C18] Liveness of the login: from every reachable state, a registered
    user whose stored name and password have no surrounding spaces and
    are not empty gets logged in, on the main menu, within three events
    (Back to the main menu, Logout confirmed, Login), whoever is logged in
    and whatever screen is shown. *)
Theorem registered_user_can_login (w0 : World) (a : App) (u p : string) :
  reachable w0 a -> w_users (app_world a) !! u = Some p ->
  strip u = u -> strip p = p -> u <> "" -> p <> "" ->
  exists evs a' ms, length evs <= 3 /\ run_events evs a = Some (a', ms) /\
    current_user a' = Some u /\ app_screen a' = MainMenu /\ app_world a' = app_world a.
Proof.
  intros Hr Hpw Hu Hp Hu0 Hp0. destruct (reachable_session w0 a Hr) as [Hs _].
  pose proof (login_ok u p (mkApp (app_world a) None LoginScreen) Hu Hp Hu0 Hp0 Hpw) as Hl.
  destruct a as [w cu sc]; simpl in *.
  destruct sc; [rewrite (proj1 Hs eq_refl) | destruct cu as [v|]; [| discriminate (proj2 Hs eq_refl)]..];
    [> exists [LoginButton u p] | exists [LogoutButton true; LoginButton u p]
     | exists [BackButton; LogoutButton true; LoginButton u p]..].
  all: destruct (login u p _) as [a1 ms1] eqn:E; simpl in Hl; subst a1;
    do 2 eexists; split_and!; [simpl; lia | simpl; by rewrite E | done..].
Qed.

(** ** A whole session *)

Lemma some_default {A} (o : option A) (d : A) : is_Some o -> o = Some (default d o).
Proof. by intros [x ->]. Qed.

Lemma run_events_reachable w0 evs a a' ms :
  reachable w0 a -> run_events evs a = Some (a', ms) -> reachable w0 a'.
Proof.
  revert a ms. induction evs as [|ev evs IH]; intros a ms Ha H; simpl in H; [by injection H as <- _ |].
  destruct (step ev a) as [[a1 ms1]|] eqn:Hs; [| done].
  destruct (run_events evs a1) as [[a2 ms2]|] eqn:Hr; [| done]. injection H as <- _.
  apply (IH a1 ms2); [by eapply reach_step | done].
Qed.

(** [alice] registers, logs in (with spaces around her name), organizes
    [/home/dl] of the spec's scenario, goes back, undoes and views her log. *)
Definition ex_session : list event :=
  [RegisterButton "alice" "s3cret"; LoginButton " alice " "s3cret"; OrganizeButton;
   StartButton "/home/dl" ""; BackButton; UndoButton true].

Definition ex_app0 : App := mkApp (set_fs ex_w0 ∅) None LoginScreen.
Definition ex_start : App := default ex_app0 (init ex_w0).
Definition ex_end : App * list message := default (ex_app0, []) (run_events ex_session ex_start).

Lemma ex_start_ok : init ex_w0 = Some ex_start.
Proof. apply some_default. vm_decide. Qed.

Lemma ex_end_ok : run_events ex_session ex_start = Some (ex_end.1, ex_end.2).
Proof. rewrite <- surjective_pairing. apply some_default. vm_decide. Qed.

Lemma ex_end_reachable : reachable ex_w0 ex_end.1.
Proof. eapply run_events_reachable; [exact (reach_init _ _ ex_start_ok) | exact ex_end_ok]. Qed.

Lemma reachable_session_inv_witness : reachable ex_w0 ex_end.1 /\ session_inv ex_end.1.
Proof. split; [exact ex_end_reachable | exact (reachable_session_inv ex_w0 ex_end.1 ex_end_reachable)]. Defined.

(** The session of the spec, end to end: registration, a login with
    the name typed between spaces, the organization of [/home/dl] with its
    summary and backup path, and an undo that restores both files, while
    [alice] stays logged in on the main menu. *)
Example session_scenario :
  ex_end.2 =
    [ShowInfo "Registration successful! You can now login.";
     ShowInfo "Welcome, alice!";
     OrganizationSummary {[ "Images" := 1%nat; "Documents" := 1%nat ]}
       ["home"; "data"; "backups"; "alice"; "2024-03-10_19-46-40"];
     UndoShown (UndoComplete 2)] /\
  current_user ex_end.1 = Some "alice" /\ app_screen ex_end.1 = MainMenu /\
  w_fs (app_world ex_end.1) !! ["home"; "dl"; "photo.jpg"] = w_fs ex_w0 !! ["home"; "dl"; "photo.jpg"] /\
  w_fs (app_world ex_end.1) !! ["home"; "dl"; "report.pdf"] = w_fs ex_w0 !! ["home"; "dl"; "report.pdf"].
Proof. split_and!; vm_decide. Qed.

(** A run that raises shows nothing: on the folder where a regular
    file is named like a category folder, Start moves [notes.txt], the
    run raises [NotADirectoryError], and no message appears, because the
    error callback raises [NameError] instead of showing "Organization
    failed". *)
Example start_organization_failure_silent :
  (start_organization "alice" "/home/dl" "" (mkApp ex2_w0 (Some "alice") OrganizeScreen)).2 = [] /\
  ex2_run.2 = inl NotADirectoryError /\
  w_fs (app_world (start_organization "alice" "/home/dl" "" (mkApp ex2_w0 (Some "alice") OrganizeScreen)).1)
    !! (ex_folder ++ ["notes.txt"]) = None.
Proof. split_and!; vm_decide. Qed.

(** A login screen over a store where [alice] is registered. *)
Definition ex_login_app : App :=
  mkApp (set_users ex_w0 {[ "alice" := "s3cret" ]}) None LoginScreen.
Definition ex_login_step : App * list message :=
  default (ex_login_app, []) (step (ReturnKey "alice " "s3cret") ex_login_app).

Lemma ex_login_step_ok :
  step (ReturnKey "alice " "s3cret") ex_login_app = Some (ex_login_step.1, ex_login_step.2).
Proof. rewrite <- surjective_pairing. apply some_default. vm_decide. Qed.

Lemma login_requires_password_witness :
  step (ReturnKey "alice " "s3cret") ex_login_app = Some (ex_login_step.1, ex_login_step.2) /\
  current_user ex_login_step.1 = Some "alice" /\ current_user ex_login_app <> Some "alice" /\
  exists u p, (ReturnKey "alice " "s3cret" = LoginButton u p \/ ReturnKey "alice " "s3cret" = ReturnKey u p) /\
    app_screen ex_login_app = LoginScreen /\ strip u = "alice" /\
    w_users (app_world ex_login_app) !! "alice" = Some (strip p).
Proof.
  assert (H1 : current_user ex_login_step.1 = Some "alice") by vm_decide.
  assert (H2 : current_user ex_login_app <> Some "alice") by vm_decide.
  split_and!; [exact ex_login_step_ok | exact H1 | exact H2 |].
  exact (login_requires_password _ _ _ _ _ ex_login_step_ok H1 H2).
Defined.

Lemma step_keeps_accounts_and_logs_witness :
  step (ReturnKey "alice " "s3cret") ex_login_app = Some (ex_login_step.1, ex_login_step.2) /\
  (forall u pw, w_users (app_world ex_login_app) !! u = Some pw ->
     w_users (app_world ex_login_step.1) !! u = Some pw) /\
  (forall u s, w_logs (app_world ex_login_app) !! u = Some s ->
     exists t, w_logs (app_world ex_login_step.1) !! u = Some (s +:+ t)).
Proof.
  split; [exact ex_login_step_ok |].
  exact (step_keeps_accounts_and_logs _ _ _ _ ex_login_step_ok).
Defined.

Lemma reachable_logs_decode_witness :
  logs_utf8 ex_w0 /\ reachable ex_w0 ex_end.1 /\
  forall u raw, w_logs (app_world ex_end.1) !! u = Some raw -> utf8_err 0 raw = None.
Proof.
  assert (H0 : logs_utf8 ex_w0) by apply map_Forall_empty.
  split_and!; [exact H0 | exact ex_end_reachable |].
  exact (reachable_logs_decode ex_w0 ex_end.1 H0 ex_end_reachable).
Defined.

Lemma reachable_disk_wf_witness :
  wf (w_fs ex_w0) /\ reachable ex_w0 ex_end.1 /\ wf (w_fs (app_world ex_end.1)).
Proof.
  split_and!; [exact ex_w0_wf | exact ex_end_reachable |].
  exact (reachable_disk_wf ex_w0 ex_end.1 ex_w0_wf ex_end_reachable).
Defined.

Lemma registered_user_can_login_witness :
  reachable ex_w0 ex_end.1 /\ w_users (app_world ex_end.1) !! "alice" = Some "s3cret" /\
  strip "alice" = "alice" /\ strip "s3cret" = "s3cret" /\ "alice" <> "" /\ "s3cret" <> "" /\
  exists evs a' ms, length evs <= 3 /\ run_events evs ex_end.1 = Some (a', ms) /\
    current_user a' = Some "alice" /\ app_screen a' = MainMenu /\ app_world a' = app_world ex_end.1.
Proof.
  assert (H2 : w_users (app_world ex_end.1) !! "alice" = Some "s3cret") by vm_decide.
  assert (H3 : strip "alice" = "alice") by reflexivity.
  assert (H4 : strip "s3cret" = "s3cret") by reflexivity.
  assert (H5 : "alice" <> "") by discriminate.
  assert (H6 : "s3cret" <> "") by discriminate.
  split_and!; [exact ex_end_reachable | exact H2 | exact H3 | exact H4 | exact H5 | exact H6 |].
  exact (registered_user_can_login ex_w0 ex_end.1 "alice" "s3cret" ex_end_reachable H2 H3 H4 H5 H6).
Defined.
