(* ===== verification/JsonStore.v ===== *)
(** * The JSON stores: [users.json] and [undo_log.json]

    src/organizer.py keeps its accounts in [users.json] ([load_users],
    [save_users], lines 33-41: [{user: {"password": password}}], written
    by [register], line 169) and the undo entry in [undo_log.json]
    ([{"user": self.current_user, "files": moved_files}], lines 343-345,
    read back by [undo_operation], lines 373-374), both through Python's
    [json] module.  The rest of the development keeps the decoded values
    in the [World]; this file models the text and shows that the
    abstraction is sound: what the code writes reads back to the same
    value.

    [json] is the part of JSON the code writes: [null], strings, arrays
    and objects (objects as association lists, in the order written).
    [json_dumps] is [json.dumps] with its defaults (separators [", "] and
    [": "], [ensure_ascii=True]: the escapes of [py_encode_basestring_ascii]).
    [json_loads] is [json.loads] on that fragment: whitespace skipping,
    the string escapes including [\uXXXX], strict control characters,
    and [None] for text it rejects ([JSONDecodeError]).  Strings are byte
    strings read as Latin-1: a [\uXXXX] above [00ff], [true], [false]
    and numbers, which the code never writes, are outside the model and
    rejected.

    [users_to_json]/[users_of_json] and [undo_to_json]/[undo_of_json]
    are the two files' layouts; [read_users] and [read_undo] are
    [json.load] followed by the code's reads ([users[name]["password"]],
    [data["user"]], [for new_path, original_folder in data["files"]]),
    a later duplicate key winning as in a dict.  A path is written as the
    absolute string [path_str] and read back by [Session.resolve]; the
    code writes the string it joined from the folder the user typed,
    which resolves to the same path.  Users are written in the order of
    [map_to_list], not in registration order: only the key order of the
    file differs.

    Theorems: [json_loads_dumps] (every value the fragment holds reads
    back; the parser's fuel, one more than the text's length, is enough
    by [json_size_dumps]), [users_store_roundtrip] and
    [undo_store_roundtrip] (each file reads back as the field of the
    [World] it stores, for paths of ordinary components). *)

From S2P Require Import Prelude PyLib FileSystem World Session.
From Stdlib Require Import Ascii.

(** ** JSON values and [json.dumps] *)

Inductive json :=
  | JNull
  | JString (s : string)
  | JArray (items : list json)
  | JObject (members : list (string * json)).

(** The induction principle with the nested lists. *)
Section json_ind'.
Context (P : json -> Prop) (Pnull : P JNull) (Pstring : forall s, P (JString s))
  (Parray : forall l, Forall P l -> P (JArray l))
  (Pobject : forall l, Forall (fun kv => P kv.2) l -> P (JObject l)).

Fixpoint json_ind' (j : json) : P j :=
  match j with
  | JNull => Pnull
  | JString s => Pstring s
  | JArray l => Parray l ((fix go l : Forall P l :=
                   match l with [] => Forall_nil_2 _ | x :: l => Forall_cons_2 _ _ _ (json_ind' x) (go l) end) l)
  | JObject l => Pobject l ((fix go l : Forall (fun kv => P kv.2) l :=
                   match l with [] => Forall_nil_2 _ | x :: l => Forall_cons_2 _ _ _ (json_ind' x.2) (go l) end) l)
  end.
End json_ind'.

(** The quote and backslash characters. *)
Definition dquote : ascii := ascii_of_nat 34.
Definition bslash : ascii := ascii_of_nat 92.

(** A lowercase hexadecimal digit. *)
Definition hex_digit (n : nat) : ascii := ascii_of_nat (if n <? 10 then 48 + n else 87 + n).

(** [ESCAPE_ASCII_DCT] of json.encoder: the escape of one character. *)
Definition escape_char (c : ascii) : string :=
  let n := nat_of_ascii c in
  if bool_decide (c = dquote) then String bslash (String dquote EmptyString)
  else if bool_decide (c = bslash) then String bslash (String bslash EmptyString)
  else if n =? 8 then "\b"
  else if n =? 12 then "\f"
  else if n =? 10 then "\n"
  else if n =? 13 then "\r"
  else if n =? 9 then "\t"
  else if (n <? 32) || (126 <? n)
  then String bslash (String "u" (String "0" (String "0"
         (String (hex_digit (n / 16)) (String (hex_digit (n mod 16)) EmptyString)))))
  else String c EmptyString.

Fixpoint escape (s : string) : string :=
  match s with
  | EmptyString => EmptyString
  | String c s' => escape_char c +:+ escape s'
  end.

(** [py_encode_basestring_ascii]: the quoted, escaped string. *)
Definition encode_string (s : string) : string := String dquote (escape s +:+ String dquote EmptyString).

Fixpoint json_dumps (j : json) : string :=
  match j with
  | JNull => "null"
  | JString s => encode_string s
  | JArray items => "[" +:+ String.concat ", " (json_dumps <$> items) +:+ "]"
  | JObject members =>
      "{" +:+ String.concat ", " ((fun kv => encode_string kv.1 +:+ ": " +:+ json_dumps kv.2) <$> members) +:+ "}"
  end.

(** ** [json.loads] *)

(** [WHITESPACE = r'[ \t\n\r]*']. *)
Definition is_json_ws (c : ascii) : bool :=
  let n := nat_of_ascii c in (n =? 32) || (n =? 9) || (n =? 10) || (n =? 13).

Fixpoint skip_ws (s : string) : string :=
  match s with
  | String c s' => if is_json_ws c then skip_ws s' else s
  | EmptyString => s
  end.

(** [BACKSLASH] of json.decoder: the one-character escapes. *)
Definition unescape_simple (e : ascii) : option ascii :=
  let n := nat_of_ascii e in
  if bool_decide (e = dquote) then Some dquote
  else if bool_decide (e = bslash) then Some bslash
  else if n =? 47 then Some e
  else if n =? 98 then Some (ascii_of_nat 8)
  else if n =? 102 then Some (ascii_of_nat 12)
  else if n =? 110 then Some (ascii_of_nat 10)
  else if n =? 114 then Some (ascii_of_nat 13)
  else if n =? 116 then Some (ascii_of_nat 9)
  else None.

Definition hex_val (c : ascii) : option nat :=
  let n := nat_of_ascii c in
  if (48 <=? n) && (n <=? 57) then Some (n - 48)
  else if (97 <=? n) && (n <=? 102) then Some (n - 87)
  else if (65 <=? n) && (n <=? 70) then Some (n - 55)
  else None.

(** [_decode_uXXXX]: the code point, a byte when it is below 256. *)
Definition hex4 (a b c d : ascii) : option ascii :=
  match hex_val a, hex_val b, hex_val c, hex_val d with
  | Some a, Some b, Some c, Some d =>
      let n := ((a * 16 + b) * 16 + c) * 16 + d in
      if n <? 256 then Some (ascii_of_nat n) else None
  | _, _, _, _ => None
  end.

Definition cons_str (c : ascii) (r : option (string * string)) : option (string * string) :=
  (fun p => (String c p.1, p.2)) <$> r.

(** [py_scanstring] with [strict=True], after the opening quote: the
    string and the text after the closing quote. *)
Fixpoint parse_string (s : string) : option (string * string) :=
  match s with
  | EmptyString => None
  | String c s' =>
      if bool_decide (c = dquote) then Some (EmptyString, s')
      else if bool_decide (c = bslash) then
        match s' with
        | String e s'' =>
            match unescape_simple e with
            | Some c' => cons_str c' (parse_string s'')
            | None =>
                if bool_decide (e = "u"%char) then
                  match s'' with
                  | String h1 (String h2 (String h3 (String h4 r))) =>
                      match hex4 h1 h2 h3 h4 with
                      | Some c' => cons_str c' (parse_string r)
                      | None => None
                      end
                  | _ => None
                  end
                else None
            end
        | EmptyString => None
        end
      else if nat_of_ascii c <? 32 then None
      else cons_str c (parse_string s')
  end.

(** [scan_once], [JSONArray] and [JSONObject], with fuel for the nesting. *)
Fixpoint parse_value (fuel : nat) (s : string) : option (json * string) :=
  match fuel with
  | O => None
  | S f =>
      match skip_ws s with
      | String c r =>
          if bool_decide (c = dquote) then (fun p => (JString p.1, p.2)) <$> parse_string r
          else if bool_decide (c = "["%char) then
            match skip_ws r with
            | String c' r' =>
                if bool_decide (c' = "]"%char) then Some (JArray [], r')
                else (fun p => (JArray p.1, p.2)) <$> parse_items f (skip_ws r)
            | EmptyString => None
            end
          else if bool_decide (c = "{"%char) then
            match skip_ws r with
            | String c' r' =>
                if bool_decide (c' = "}"%char) then Some (JObject [], r')
                else (fun p => (JObject p.1, p.2)) <$> parse_members f (skip_ws r)
            | EmptyString => None
            end
          else if bool_decide (c = "n"%char) then
            match r with
            | String "u" (String "l" (String "l" r')) => Some (JNull, r')
            | _ => None
            end
          else None
      | EmptyString => None
      end
  end
with parse_items (fuel : nat) (s : string) : option (list json * string) :=
  match fuel with
  | O => None
  | S f =>
      match parse_value f s with
      | Some (v, r) =>
          match skip_ws r with
          | String c r' =>
              if bool_decide (c = ","%char) then (fun p => (v :: p.1, p.2)) <$> parse_items f r'
              else if bool_decide (c = "]"%char) then Some ([v], r')
              else None
          | EmptyString => None
          end
      | None => None
      end
  end
with parse_members (fuel : nat) (s : string) : option (list (string * json) * string) :=
  match fuel with
  | O => None
  | S f =>
      match s with
      | String q r =>
          if bool_decide (q = dquote) then
            match parse_string r with
            | Some (k, r1) =>
                match skip_ws r1 with
                | String c1 r2 =>
                    if bool_decide (c1 = ":"%char) then
                      match parse_value f r2 with
                      | Some (v, r3) =>
                          match skip_ws r3 with
                          | String c3 r4 =>
                              if bool_decide (c3 = ","%char)
                              then (fun p => ((k, v) :: p.1, p.2)) <$> parse_members f (skip_ws r4)
                              else if bool_decide (c3 = "}"%char) then Some ([(k, v)], r4)
                              else None
                          | EmptyString => None
                          end
                      | None => None
                      end
                    else None
                | EmptyString => None
                end
            | None => None
            end
          else None
      | EmptyString => None
      end
  end.

(** [json.loads]: one value, then only whitespace ("Extra data" otherwise). *)
Definition json_loads (s : string) : option json :=
  match parse_value (S (String.length s)) s with
  | Some (j, r) => if bool_decide (skip_ws r = EmptyString) then Some j else None
  | None => None
  end.

(** ** [json.loads] inverts [json.dumps] *)

Lemma parse_string_escape_char c t :
  parse_string (escape_char c +:+ t) = cons_str c (parse_string t).
Proof. destruct c as [[] [] [] [] [] [] [] []]; reflexivity. Qed.

Lemma parse_string_encode s rest :
  parse_string (escape s +:+ String dquote rest) = Some (s, rest).
Proof.
  induction s as [|c s IH]; [reflexivity |].
  simpl. by rewrite string_app_assoc, parse_string_escape_char, IH.
Qed.

(** The fuel the parser needs: one per value and one per item. *)
Fixpoint json_size (j : json) : nat :=
  match j with
  | JNull | JString _ => 1
  | JArray l => 1 + (fix go l := match l with [] => 0 | v :: l => S (json_size v) + go l end) l
  | JObject l => 1 + (fix go l := match l with [] => 0 | kv :: l => S (json_size kv.2) + go l end) l
  end.

Fixpoint items_size (l : list json) : nat :=
  match l with [] => 0 | v :: l => S (json_size v) + items_size l end.
Fixpoint members_size (l : list (string * json)) : nat :=
  match l with [] => 0 | kv :: l => S (json_size kv.2) + members_size l end.

Lemma json_size_array l : json_size (JArray l) = S (items_size l).
Proof. simpl; f_equal; induction l; simpl; auto. Qed.
Lemma json_size_object l : json_size (JObject l) = S (members_size l).
Proof. simpl; f_equal; induction l; simpl; auto. Qed.

Lemma skip_ws_dumps j rest : skip_ws (json_dumps j +:+ rest) = json_dumps j +:+ rest.
Proof. by destruct j. Qed.

Lemma skip_ws_space s : skip_ws (String " " s) = skip_ws s.
Proof. reflexivity. Qed.

Lemma parse_value_space f s : parse_value f (String " " s) = parse_value f s.
Proof. by destruct f. Qed.

Definition dumps_parses (j : json) : Prop :=
  forall f rest, json_size j <= f -> parse_value f (json_dumps j +:+ rest) = Some (j, rest).

Lemma parse_items_space f s : parse_items f (String " " s) = parse_items f s.
Proof. destruct f; simpl; [done |]. by rewrite parse_value_space. Qed.

Lemma concat_head (x : string) l t :
  exists u, String.concat ", " (x :: l) +:+ t = x +:+ u.
Proof. destruct l; simpl; eexists; [reflexivity | by rewrite string_app_assoc]. Qed.

Lemma dumps_not_close j t : forall u, json_dumps j +:+ t <> String "]" u /\ json_dumps j +:+ t <> String "}" u.
Proof. by destruct j. Qed.

Lemma parse_items_comma f s v r :
  parse_value f s = Some (v, String "," r) ->
  parse_items (S f) s = (fun p => (v :: p.1, p.2)) <$> parse_items f r.
Proof. intros H. cbn [parse_items]. rewrite H. reflexivity. Qed.

Lemma parse_items_close f s v r :
  parse_value f s = Some (v, String "]" r) -> parse_items (S f) s = Some ([v], r).
Proof. intros H. cbn [parse_items]. rewrite H. reflexivity. Qed.

Lemma parse_items_dumps l : forall f rest, l <> [] -> Forall dumps_parses l -> items_size l <= f ->
  parse_items f (String.concat ", " (json_dumps <$> l) +:+ String "]" rest) = Some (l, rest).
Proof.
  induction l as [|v l IH]; intros f rest Hne Hall Hf; [done |].
  apply Forall_cons in Hall as [Hv Hall]. destruct f as [|f]; [simpl in Hf; lia |]. simpl in Hf.
  destruct l as [|v2 l].
  - apply parse_items_close. apply Hv. lia.
  - change (String.concat ", " (json_dumps <$> v :: v2 :: l)) with
      (json_dumps v +:+ String "," (String " " (String.concat ", " (json_dumps <$> v2 :: l)))).
    rewrite string_app_assoc. erewrite parse_items_comma; [| apply Hv; lia].
    rewrite parse_items_space, IH; [done | done | done | simpl in *; lia].
Qed.

Lemma encode_string_app k t : encode_string k +:+ t = String dquote (escape k +:+ String dquote t).
Proof. unfold encode_string. rewrite string_app_cons, string_app_assoc. reflexivity. Qed.

Lemma parse_members_head f k t :
  parse_members (S f) (encode_string k +:+ String ":" t) =
  match parse_value f t with
  | Some (v, r3) =>
      match skip_ws r3 with
      | String c3 r4 =>
          if bool_decide (c3 = ","%char) then (fun p => ((k, v) :: p.1, p.2)) <$> parse_members f (skip_ws r4)
          else if bool_decide (c3 = "}"%char) then Some ([(k, v)], r4) else None
      | EmptyString => None
      end
  | None => None
  end.
Proof. rewrite encode_string_app. cbn [parse_members]. rewrite parse_string_encode. reflexivity. Qed.

(** One member of an object as [json.dumps] writes it. *)
Definition member_str (kv : string * json) : string := encode_string kv.1 +:+ ": " +:+ json_dumps kv.2.

Lemma json_dumps_object l : json_dumps (JObject l) = "{" +:+ String.concat ", " (member_str <$> l) +:+ "}".
Proof. reflexivity. Qed.

Lemma json_dumps_array l : json_dumps (JArray l) = "[" +:+ String.concat ", " (json_dumps <$> l) +:+ "]".
Proof. reflexivity. Qed.

Lemma skip_ws_members kv l t :
  skip_ws (String.concat ", " (member_str <$> kv :: l) +:+ t) = String.concat ", " (member_str <$> kv :: l) +:+ t.
Proof.
  destruct (concat_head (member_str kv) (member_str <$> l) t) as [u Hu].
  change (member_str <$> kv :: l) with (member_str kv :: (member_str <$> l)). rewrite Hu.
  unfold member_str. rewrite !string_app_assoc, encode_string_app. reflexivity.
Qed.

Lemma member_str_app kv t : member_str kv +:+ t = encode_string kv.1 +:+ String ":" (String " " (json_dumps kv.2 +:+ t)).
Proof. unfold member_str. by rewrite !string_app_assoc. Qed.

Lemma parse_members_comma f k t v r :
  parse_value f t = Some (v, String "," r) ->
  parse_members (S f) (encode_string k +:+ String ":" t) = (fun p => ((k, v) :: p.1, p.2)) <$> parse_members f (skip_ws r).
Proof. intros H. rewrite parse_members_head, H. reflexivity. Qed.

Lemma parse_members_close f k t v r :
  parse_value f t = Some (v, String "}" r) -> parse_members (S f) (encode_string k +:+ String ":" t) = Some ([(k, v)], r).
Proof. intros H. rewrite parse_members_head, H. reflexivity. Qed.

Lemma parse_members_dumps l : forall f rest, l <> [] -> Forall (fun kv => dumps_parses kv.2) l ->
  members_size l <= f ->
  parse_members f (String.concat ", " (member_str <$> l) +:+ String "}" rest) = Some (l, rest).
Proof.
  induction l as [|[k v] l IH]; intros f rest Hne Hall Hf; [done |].
  apply Forall_cons in Hall as [Hv Hall]. destruct f as [|f]; [simpl in Hf; lia |]. simpl in Hf, Hv.
  destruct l as [|kv2 l].
  - cbn [fmap list_fmap String.concat]. rewrite member_str_app.
    apply parse_members_close. rewrite parse_value_space. apply Hv. lia.
  - change (String.concat ", " (member_str <$> (k, v) :: kv2 :: l))
      with (member_str (k, v) +:+ String "," (String " " (String.concat ", " (member_str <$> kv2 :: l)))).
    rewrite string_app_assoc, member_str_app.
    rewrite (parse_members_comma _ _ _ v (String " " (String.concat ", " (member_str <$> kv2 :: l) +:+ String "}" rest)));
      [| rewrite parse_value_space, Hv; [done | lia]].
    rewrite skip_ws_space, skip_ws_members, IH; [done | done | done | simpl in *; lia].
Qed.

Lemma parse_value_quote f t : parse_value (S f) (String dquote t) = (fun p => (JString p.1, p.2)) <$> parse_string t.
Proof. reflexivity. Qed.

Lemma parse_value_bracket f s :
  skip_ws s = s -> s <> EmptyString -> (forall u, s <> String "]" u) ->
  parse_value (S f) (String "[" s) = (fun p => (JArray p.1, p.2)) <$> parse_items f s.
Proof.
  intros Hs Hne Hc. cbn [parse_value]. change (skip_ws (String "[" s)) with (String "[" s). cbv iota.
  rewrite bool_decide_eq_false_2 by done. rewrite bool_decide_eq_true_2 by done. rewrite Hs.
  destruct s as [|c t]; [done |]. rewrite bool_decide_eq_false_2; [done |]. intros ->. by apply (Hc t).
Qed.

Lemma parse_value_brace f s :
  skip_ws s = s -> s <> EmptyString -> (forall u, s <> String "}" u) ->
  parse_value (S f) (String "{" s) = (fun p => (JObject p.1, p.2)) <$> parse_members f s.
Proof.
  intros Hs Hne Hc. cbn [parse_value]. change (skip_ws (String "{" s)) with (String "{" s). cbv iota.
  rewrite !bool_decide_eq_false_2 by done. rewrite bool_decide_eq_true_2 by done. rewrite Hs.
  destruct s as [|c t]; [done |]. rewrite bool_decide_eq_false_2; [done |]. intros ->. by apply (Hc t).
Qed.

Lemma members_head kv l t : exists u, String.concat ", " (member_str <$> kv :: l) +:+ t = String dquote u.
Proof.
  destruct (concat_head (member_str kv) (member_str <$> l) t) as [u Hu].
  rewrite fmap_cons, Hu. unfold member_str. rewrite !string_app_assoc, encode_string_app. by eexists.
Qed.

(** Every value [json.dumps] prints is read back by the parser, with
    whatever follows it left over. *)
Lemma json_dumps_parses j : dumps_parses j.
Proof.
  induction j as [| s | l Hl | l Hl] using json_ind'; intros [|f] rest Hf;
    try (rewrite ?json_size_array, ?json_size_object in Hf; simpl in Hf; lia).
  - reflexivity.
  - cbn [json_dumps]. rewrite encode_string_app, parse_value_quote, parse_string_encode. reflexivity.
  - rewrite json_size_array in Hf. destruct l as [|v l]; [reflexivity |].
    rewrite json_dumps_array, !string_app_assoc. change ("[" +:+ ?x) with (String "[" x). change ("]" +:+ ?x) with (String "]" x).
    destruct (concat_head (json_dumps v) (json_dumps <$> l) (String "]" rest)) as [u Hu].
    rewrite parse_value_bracket; [| rewrite fmap_cons, Hu; apply skip_ws_dumps
      | rewrite fmap_cons, Hu; by destruct v | intros u'; rewrite fmap_cons, Hu; apply dumps_not_close].
    rewrite parse_items_dumps; [done | done | done | lia].
  - rewrite json_size_object in Hf. destruct l as [|kv l]; [reflexivity |].
    rewrite json_dumps_object, !string_app_assoc. change ("{" +:+ ?x) with (String "{" x). change ("}" +:+ ?x) with (String "}" x).
    destruct (members_head kv l (String "}" rest)) as [u Hu].
    rewrite parse_value_brace; [| apply skip_ws_members | by rewrite Hu | intros u'; by rewrite Hu].
    rewrite parse_members_dumps; [done | done | done | lia].
Qed.

(** ** The fuel [json_loads] gives is enough *)

Lemma concat_length (l : list string) : l <> [] ->
  String.length (String.concat ", " l) + 2 = sum_list ((fun x => String.length x + 2) <$> l).
Proof.
  induction l as [|x [|y l] IH]; intros Hne; [done | simpl; lia |].
  change (String.concat ", " (x :: y :: l)) with (x +:+ ", " +:+ String.concat ", " (y :: l)).
  rewrite !string_length_app. rewrite fmap_cons. cbn [sum_list]. rewrite <- IH by done. simpl. lia.
Qed.

Lemma items_size_le l : Forall (fun v => S (json_size v) <= String.length (json_dumps v)) l ->
  items_size l + 2 * length l <= sum_list ((fun x => String.length x + 2) <$> (json_dumps <$> l)).
Proof. induction 1 as [|v l Hv _ IH]; [done |]. rewrite !fmap_cons. cbn [items_size sum_list length]. unfold id, fmap in *. lia.
Qed.

Lemma member_str_length kv :
  String.length (member_str kv) = String.length (escape kv.1) + 4 + String.length (json_dumps kv.2).
Proof.
  unfold member_str, encode_string. rewrite !string_length_app. cbn [String.length].
  rewrite string_length_app. cbn [String.length]. lia.
Qed.

Lemma members_size_le l : Forall (fun kv => S (json_size kv.2) <= String.length (json_dumps kv.2)) l ->
  members_size l + 2 * length l <= sum_list ((fun x => String.length x + 2) <$> (member_str <$> l)).
Proof.
  induction 1 as [|kv l Hv _ IH]; [done |]. rewrite !fmap_cons. cbn [members_size sum_list length].
  rewrite member_str_length. unfold sum_list, id, fmap in *. lia.
Qed.

Lemma json_size_dumps j : S (json_size j) <= String.length (json_dumps j).
Proof.
  induction j as [| s | l Hl | l Hl] using json_ind'.
  - simpl; lia.
  - cbn [json_dumps]. unfold encode_string. simpl. rewrite string_length_app. simpl; lia.
  - rewrite json_size_array, json_dumps_array, !string_length_app. destruct l as [|v l]; [simpl; lia |].
    pose proof (items_size_le _ Hl). pose proof (concat_length (json_dumps <$> v :: l)) as Hc. specialize (Hc ltac:(done)).
    cbn [String.length length] in *. lia.
  - rewrite json_size_object, json_dumps_object, !string_length_app. destruct l as [|kv l]; [simpl; lia |].
    pose proof (members_size_le _ Hl). pose proof (concat_length (member_str <$> kv :: l)) as Hc. specialize (Hc ltac:(done)).
    cbn [String.length length] in *. lia.
Qed.

(** [json.loads] reads back every value of the modelled fragment that
    [json.dumps] writes. *)
Theorem json_loads_dumps (j : json) : json_loads (json_dumps j) = Some j.
Proof.
  unfold json_loads. pose proof (json_size_dumps j) as Hs.
  rewrite <- (string_app_nil_r (json_dumps j)) at 2.
  rewrite json_dumps_parses by lia. rewrite bool_decide_eq_true_2; reflexivity.
Qed.

(** ** Paths in the undo file *)

(** Whether [c] occurs in [s]. *)
Fixpoint has_char (c : ascii) (s : string) : bool :=
  match s with EmptyString => false | String a s' => bool_decide (a = c) || has_char c s' end.

Lemma split_on_plain sep x : has_char sep x = false -> split_on sep x = [x].
Proof.
  induction x as [|a x IH]; [done |]. simpl. intros [Ha Hx]%orb_false_iff.
  rewrite decide_False by (intros ->; by rewrite bool_decide_eq_true_2 in Ha). by rewrite IH.
Qed.

Lemma split_on_app sep x t : has_char sep x = false -> split_on sep (x +:+ String sep t) = x :: split_on sep t.
Proof.
  induction x as [|a x IH]; simpl; [by rewrite decide_True |]. intros [Ha Hx]%orb_false_iff.
  rewrite decide_False by (intros ->; by rewrite bool_decide_eq_true_2 in Ha). by rewrite IH.
Qed.

(** A path as [undo_log.json] stores it: absolute, components joined by
    slashes. *)
Definition path_str (p : Path) : string := String "/" (String.concat "/" p).

(** A component [os.listdir] can return and the kernel reads back as itself. *)
Definition component_ok (c : string) : bool :=
  negb (has_char "/" c) && negb (bool_decide (c = "")) && negb (bool_decide (c = ".")) &&
  negb (bool_decide (c = "..")).

Lemma split_on_concat p : p <> [] -> Forall (fun c => has_char "/" c = false) p ->
  split_on "/" (String.concat "/" p) = p.
Proof.
  induction p as [|x [|y l] IH]; intros Hne Hp; [done | |].
  - inversion Hp. by apply split_on_plain.
  - inversion Hp as [|? ? Hx Hl]; subst.
    change (String.concat "/" (x :: y :: l)) with (x +:+ String "/" (String.concat "/" (y :: l))).
    rewrite split_on_app, IH; done.
Qed.

Lemma resolve_go p acc : Forall (fun c => component_ok c = true) p ->
  foldl (fun p c => if bool_decide (c = "") || bool_decide (c = ".") then p
                    else if bool_decide (c = "..") then parent p else p ++ [c]) acc p = acc ++ p.
Proof.
  revert acc. induction p as [|c p IH]; intros acc Hp; simpl; [by rewrite app_nil_r |].
  inversion Hp as [|? ? Hc Hl]; subst. unfold component_ok in Hc.
  repeat (apply andb_true_iff in Hc as [Hc ?]). apply negb_true_iff in H, H0, H1.
  rewrite H1, H0, H. simpl. rewrite IH by done. by rewrite <- app_assoc.
Qed.

(** Paths of components [os.listdir] can return survive the file. *)
Lemma resolve_path_str p : Forall (fun c => component_ok c = true) p -> resolve [] (path_str p) = p.
Proof.
  intros Hp. destruct p as [|x l]; [reflexivity |]. unfold resolve, path_str.
  rewrite bool_decide_eq_true_2 by done. cbn [split_on]. rewrite decide_True by done.
  rewrite split_on_concat; [| done |].
  - change (foldl ?f [] ("" :: ?r)) with (foldl f [] r). by apply resolve_go.
  - eapply Forall_impl; [exact Hp |]. intros c Hc. unfold component_ok in Hc.
    repeat (apply andb_true_iff in Hc as [Hc ?]). by apply negb_true_iff in Hc.
Qed.

(** ** The two stores *)

(** [d[k]] on the dict [json.loads] builds from an object: the last member
    with that key wins. *)
Definition obj_get (k : string) (l : list (string * json)) : option json :=
  foldl (fun acc kv => if bool_decide (kv.1 = k) then Some kv.2 else acc) None l.

(** [users.json] as [register] leaves it: each user maps to
    [{"password": password}] (line 169), dumped by [save_users]. *)
Definition users_to_json (users : gmap string string) : json :=
  JObject ((fun kv => (kv.1, JObject [("password", JString kv.2)])) <$> map_to_list users).

(** [users[username]["password"]] (line 149) when it is a string. *)
Definition user_password (j : json) : option string :=
  match j with
  | JObject l => match obj_get "password" l with Some (JString p) => Some p | _ => None end
  | _ => None
  end.

(** [load_users()] read into the model's map: the members in file order,
    a later duplicate replacing an earlier one as in the dict. *)
Definition users_of_json (j : json) : option (gmap string string) :=
  match j with
  | JObject l => foldl (fun acc kv => m ← acc; p ← user_password kv.2; Some (<[kv.1 := p]> m)) (Some ∅) l
  | _ => None
  end.

(** [json.dump({"user": self.current_user, "files": moved_files}, f)]
    (lines 343-345): each record, a tuple, becomes a two-element array. *)
Definition undo_to_json (d : UndoLog) : json :=
  JObject [("user", match undo_user d with Some u => JString u | None => JNull end);
           ("files", JArray ((fun r => JArray [JString (path_str r.1); JString (path_str r.2)]) <$> undo_files d))].

(** [for new_path, original_folder in data["files"]] (line 383): the
    unpacking takes arrays of exactly two strings. *)
Definition record_of_json (j : json) : option (Path * Path) :=
  match j with
  | JArray [JString a; JString b] => Some (resolve [] a, resolve [] b)
  | _ => None
  end.

(** [data["user"]] and [data["files"]] of [undo_operation] (lines 373-383). *)
Definition undo_of_json (j : json) : option UndoLog :=
  match j with
  | JObject l =>
      match obj_get "user" l, obj_get "files" l with
      | Some u, Some (JArray fs) =>
          user ← match u with JString s => Some (Some s) | JNull => Some None | _ => None end;
          recs ← mapM record_of_json fs;
          Some (mkUndoLog user recs)
      | _, _ => None
      end
  | _ => None
  end.

(** What the application writes to and reads from its two files. *)
Definition read_users (s : string) : option (gmap string string) := json_loads s ≫= users_of_json.
Definition read_undo (s : string) : option UndoLog := json_loads s ≫= undo_of_json.

Lemma foldl_insert_union (l : list (string * string)) (m : gmap string string) :
  NoDup l.*1 -> foldl (fun m kv => <[kv.1 := kv.2]> m) m l = list_to_map l ∪ m.
Proof.
  revert m. induction l as [|[k v] l IH]; intros m Hnd; simpl; [by rewrite map_empty_union |].
  apply NoDup_cons in Hnd as [Hk Hnd]. rewrite IH by done.
  rewrite <- insert_union_r; [by rewrite insert_union_l |]. by apply not_elem_of_list_to_map_1.
Qed.

Lemma users_of_json_fold (l : list (string * string)) (m : gmap string string) :
  foldl (fun acc kv => m ← acc; p ← user_password kv.2; Some (<[kv.1 := p]> m)) (Some m)
    ((fun kv => (kv.1, JObject [("password", JString kv.2)])) <$> l) =
  Some (foldl (fun m kv => <[kv.1 := kv.2]> m) m l).
Proof. revert m. induction l as [|kv l IH]; intros m; [done |]. apply IH. Qed.

Lemma users_of_json_to_json users : users_of_json (users_to_json users) = Some users.
Proof.
  unfold users_of_json, users_to_json. rewrite users_of_json_fold, foldl_insert_union.
  - by rewrite map_union_empty, list_to_map_to_list.
  - apply NoDup_fst_map_to_list.
Qed.

Lemma mapM_records (rs : list (Path * Path)) :
  Forall (fun r => Forall (fun c => component_ok c = true) r.1 /\ Forall (fun c => component_ok c = true) r.2) rs ->
  mapM record_of_json ((fun r => JArray [JString (path_str r.1); JString (path_str r.2)]) <$> rs) = Some rs.
Proof.
  induction 1 as [|[p q] rs [Hp Hq] _ IH]; [done |]. rewrite fmap_cons. cbn [mapM record_of_json fst snd].
  by rewrite IH, !resolve_path_str.
Qed.

(** The paths of an undo entry are made of components the file keeps. *)
Definition undo_paths_ok (d : UndoLog) : Prop :=
  Forall (fun r => Forall (fun c => component_ok c = true) r.1 /\ Forall (fun c => component_ok c = true) r.2)
    (undo_files d).

Lemma undo_of_json_to_json d : undo_paths_ok d -> undo_of_json (undo_to_json d) = Some d.
Proof.
  intros Hd. destruct d as [u rs]. unfold undo_of_json, undo_to_json. simpl.
  rewrite mapM_records by done. by destruct u.
Qed.

(** ** [ensure_ascii] *)

(** Every character is printable ASCII, code 32 to 126. *)
Fixpoint printable (s : string) : bool :=
  match s with
  | EmptyString => true
  | String c s' => (32 <=? nat_of_ascii c) && (nat_of_ascii c <=? 126) && printable s'
  end.

Lemma printable_app a b : printable (a +:+ b) = printable a && printable b.
Proof. induction a as [|c a IH]; simpl; [done |]. rewrite IH. apply andb_assoc. Qed.

Lemma printable_escape_char c : printable (escape_char c) = true.
Proof. destruct c as [[] [] [] [] [] [] [] []]; reflexivity. Qed.

Lemma printable_escape s : printable (escape s) = true.
Proof. induction s as [|c s IH]; [done |]. simpl. by rewrite printable_app, printable_escape_char, IH. Qed.

Lemma printable_encode_string s : printable (encode_string s) = true.
Proof. unfold encode_string. simpl. by rewrite printable_app, printable_escape. Qed.

Lemma printable_concat (l : list string) : Forall (fun x => printable x = true) l ->
  printable (String.concat ", " l) = true.
Proof.
  induction 1 as [|x [|y l] Hx _ IH]; [done | by rewrite <- Hx; simpl; destruct x |].
  change (String.concat ", " (x :: y :: l)) with (x +:+ ", " +:+ String.concat ", " (y :: l)).
  by rewrite !printable_app, Hx, IH.
Qed.

(** [ensure_ascii=True]: whatever the user names, passwords and
    paths hold (any byte, quotes, backslashes, control characters), the
    text [json.dumps] writes to [users.json] and [undo_log.json] is
    printable ASCII, codes 32 to 126, so it has no line break and no
    byte above 126. *)
Theorem json_dumps_printable (j : json) : printable (json_dumps j) = true.
Proof.
  induction j as [| s | l Hl | l Hl] using json_ind'; [done | apply printable_encode_string | |].
  - rewrite json_dumps_array, !printable_app, printable_concat; [done |].
    by apply Forall_fmap.
  - rewrite json_dumps_object, !printable_app, printable_concat; [done |].
    apply Forall_fmap. eapply Forall_impl; [exact Hl |]. intros [k v] Hv. cbn [fst snd] in *.
    unfold compose, member_str. rewrite !printable_app, printable_encode_string. exact Hv.
Qed.

(** ** The codec interface

    What a store promises its readers: a decoder that inverts the encoder
    on the values the application writes.  The file round trip then
    follows once, for every store, from [json_loads_dumps]. *)
Class JsonCodec (A : Type) := {
  codec_ok : A -> Prop;
  encode : A -> json;
  decode : json -> option A;
  decode_encode x : codec_ok x -> decode (encode x) = Some x
}.

Definition read_file `{JsonCodec A} (s : string) : option A := json_loads s ≫= decode.

Lemma read_file_dumps `{JsonCodec A} (x : A) : codec_ok x -> read_file (json_dumps (encode x)) = Some x.
Proof. intros Hx. unfold read_file. rewrite json_loads_dumps. by apply decode_encode. Qed.

#[export] Instance users_codec : JsonCodec (gmap string string) := {|
  codec_ok _ := True; encode := users_to_json; decode := users_of_json;
  decode_encode x _ := users_of_json_to_json x |}.

#[export] Instance undo_codec : JsonCodec UndoLog := {|
  codec_ok := undo_paths_ok; encode := undo_to_json; decode := undo_of_json;
  decode_encode := undo_of_json_to_json |}.

(** ** Properties *)

(** [C11] Round trip of [users.json]: what [save_users] writes,
    [load_users] reads back as the same map of users to passwords, so a
    registered user's password is found by [login] after a restart. *)
Theorem users_store_roundtrip (users : gmap string string) :
  read_users (json_dumps (users_to_json users)) = Some users.
Proof. exact (read_file_dumps (A := gmap string string) users I). Qed.

(** [C12] Round trip of [undo_log.json]: the entry [organize_files_thread]
    dumps is read back by [undo_operation] with the same owner and the
    same move records, in order, when its paths are made of ordinary
    components (non-empty, no slash, not [.] or [..]). *)
Theorem undo_store_roundtrip (d : UndoLog) :
  undo_paths_ok d -> read_undo (json_dumps (undo_to_json d)) = Some d.
Proof. exact (read_file_dumps (A := UndoLog) d). Qed.

Definition ex_undo_entry : UndoLog :=
  mkUndoLog (Some "alice") [(["home"; "dl"; "Images"; "2024"; "01"; "Small"; "a.png"], ["home"; "dl"])].

Lemma undo_store_roundtrip_witness :
  undo_paths_ok ex_undo_entry /\ read_undo (json_dumps (undo_to_json ex_undo_entry)) = Some ex_undo_entry.
Proof.
  assert (H : undo_paths_ok ex_undo_entry) by (repeat constructor).
  split; [exact H | exact (undo_store_roundtrip _ H)].
Defined.
