(* ===== verification/Worker.v ===== *)
(** * The worker thread interleaved with the GUI

    [start_organization] (src/organizer.py lines 277-293) does not run
    the organize pass itself: after its checks it starts a daemon
    [threading.Thread] on [organize_files_thread] (lines 295-353) and
    returns to the Tk main loop, which keeps handling buttons while the
    thread runs.  The thread reads the shared attributes when it reaches
    them: [self.skip_entry.get()] first (line 297; the entry is a widget of
    the organize screen, destroyed when another screen is shown, and then
    [get] raises [TclError]), [self.current_user] in the [backup_folder]
    call (line 302), in each [create_log] call (line 340) and in the
    undo record (line 345).  Its results are shown by callbacks posted
    with [root.after]; [show_organization_results] first stops the
    progress bar of the organize screen, which raises [TclError] when
    that screen is gone.

    The thread is a small-step machine: a [worker] is the folder and the
    [phase] the thread reached; [worker_step] runs one atomic action of
    it (the skip-entry read, the whole backup, the [os.listdir], one
    iteration of the loop, the undo write) against the application state
    at that moment.  [Sys] is the application with the list of running
    threads, and [sys_step] interleaves GUI events (as [Session.step],
    except that the Start button spawns a thread) with turns of any
    thread.  A posted callback runs with the step that posts it.

    The theorems: every turn of a thread ends it or decreases its phase in
    a well-founded order, whatever the GUI did in between, and raises
    only Python's exceptions, never the fuel marker of the naming loop
    (the thread terminates, by finishing or by a Python exception); a thread scheduled alone right after the Start button
    computes exactly the sequential model [Session.start_organization]
    (the sequential model refines to this one); the session invariant
    and the well-formed disk hold in every reachable state of the
    interleaved system; and concrete
    interleavings show the races of the code: a logout during the run
    gives the undo entry to the next user, or to [None], and two runs on
    one folder leave only the last one's entry. *)

From S2P Require Import Prelude PyLib FileSystem World ActivityLog Backup Organizer Undo Session.

(** ** The thread's actions *)

(** [f"{self.current_user}"]: Python formats [None] as ["None"]. *)
Definition py_format_user (cu : option string) : string :=
  match cu with Some u => u | None => "None" end.

(** [backup_folder(self.current_user, folder_path)]: with [None] the
    [os.path.join] of line 63 raises [TypeError] before anything is written. *)
Definition backup_as (cu : option string) (folder_path : Path) : M Path :=
  match cu with Some u => backup_folder u folder_path | None => raise TypeError end.

(** How far the thread got in the [try] of [organize_files_thread]. *)
Inductive phase :=
  | Spawned
  | BackingUp (skip_exts : list string)
  | Listing (skip_exts : list string) (backup_path : Path)
  | Looping (skip_exts : list string) (backup_path : Path) (items : list string) (acc : Acc)
  | Saving (skip_exts : list string) (backup_path : Path) (acc : Acc).

Record worker := mkWorker { wk_folder : Path; wk_phase : phase }.

(** One atomic action of the thread in application state [a]; [skip_entry]
    is what the skip entry holds when it is read.  It returns the next
    phase, or the result the [try] hands to [show_organization_results]. *)
Definition worker_action (a : App) (skip_entry : string) (folder_path : Path) (ph : phase)
    : M (phase + gmap string nat * Path) :=
  match ph with
  | Spawned =>
      if decide (app_screen a = OrganizeScreen)
      then mret (inl (BackingUp (parse_skip_exts skip_entry)))
      else raise TclError
  | BackingUp skip_exts =>
      backup_path ← backup_as (current_user a) folder_path;
      mret (inl (Listing skip_exts backup_path))
  | Listing skip_exts backup_path =>
      items ← fs_query (fun fs => listdir fs folder_path);
      mret (inl (Looping skip_exts backup_path items ([], ∅)))
  | Looping skip_exts backup_path [] acc => mret (inl (Saving skip_exts backup_path acc))
  | Looping skip_exts backup_path (item :: rest) acc =>
      acc' ← organize_item (py_format_user (current_user a)) folder_path skip_exts acc item;
      mret (inl (Looping skip_exts backup_path rest acc'))
  | Saving skip_exts backup_path acc =>
      _ ← save_undo (current_user a) acc.1;
      mret (inr (acc.2, backup_path))
  end.

(** The callbacks of lines 348 and 351, run in state [a]: off the organize
    screen the progress bar is destroyed and [show_organization_results]
    raises before it shows anything. *)
Definition worker_messages (a : App) (r : exn + gmap string nat * Path) : list message :=
  if decide (app_screen a = OrganizeScreen) then thread_messages r else [].

(** A turn of the thread: the application after it, the thread if it
    still runs, and what is shown. *)
Definition worker_step (skip_entry : string) (wk : worker) (a : App)
    : App * option worker * list message :=
  match worker_action a skip_entry (wk_folder wk) (wk_phase wk) (app_world a) with
  | (w', inr (inl ph)) => (set_world a w', Some (mkWorker (wk_folder wk) ph), [])
  | (w', inr (inr res)) => (set_world a w', None, worker_messages a (inr res))
  | (w', inl e) => (set_world a w', None, worker_messages a (inl e))
  end.

(** ** The interleaved system *)

Record Sys := mkSys { sys_app : App; sys_workers : list worker }.

Inductive sys_event :=
  | GuiEvent (ev : event)
  | WorkerTurn (i : nat) (skip_entry : string).

(** [start_organization] as the code has it: the checks, then
    [thread.start()]. *)
Definition spawn (folder_entry : string) (s : Sys) : Sys * list message :=
  match start_checks folder_entry (app_world (sys_app s)) with
  | inl msg => (s, [msg])
  | inr folder_path => (mkSys (sys_app s) (sys_workers s ++ [mkWorker folder_path Spawned]), [])
  end.

Definition sys_step (sev : sys_event) (s : Sys) : option (Sys * list message) :=
  match sev with
  | GuiEvent (StartButton f skip) =>
      match app_screen (sys_app s), current_user (sys_app s) with
      | OrganizeScreen, Some _ => Some (spawn f s)
      | _, _ => None
      end
  | GuiEvent ev =>
      match step ev (sys_app s) with
      | Some (a', ms) => Some (mkSys a' (sys_workers s), ms)
      | None => None
      end
  | WorkerTurn i skip_entry =>
      match sys_workers s !! i with
      | None => None
      | Some wk =>
          let '(a', owk, ms) := worker_step skip_entry wk (sys_app s) in
          Some (mkSys a' (match owk with
                          | Some wk' => <[i := wk']> (sys_workers s)
                          | None => delete i (sys_workers s)
                          end), ms)
      end
  end.

Fixpoint sys_run (evs : list sys_event) (s : Sys) : option (Sys * list message) :=
  match evs with
  | [] => Some (s, [])
  | ev :: evs' =>
      match sys_step ev s with
      | None => None
      | Some (s1, ms) =>
          match sys_run evs' s1 with
          | None => None
          | Some (s2, ms') => Some (s2, ms ++ ms')
          end
      end
  end.

(** The application as started, with no thread yet. *)
Definition sys_init (w : World) : option Sys := (fun a => mkSys a []) <$> init w.

(** The states of the interleaved system started on world [w0]. *)
Inductive sys_reachable (w0 : World) : Sys -> Prop :=
  | sys_reach_init s : sys_init w0 = Some s -> sys_reachable w0 s
  | sys_reach_step s sev s' ms : sys_reachable w0 s -> sys_step sev s = Some (s', ms) -> sys_reachable w0 s'.

(** ** Termination of the thread *)

(** The order in which the thread's phases follow each other, with the
    items left in the loop. *)
Definition phase_stage (ph : phase) : nat :=
  match ph with
  | Spawned => 4 | BackingUp _ => 3 | Listing _ _ => 2 | Looping _ _ _ _ => 1 | Saving _ _ _ => 0
  end.

Definition phase_items (ph : phase) : nat :=
  match ph with Looping _ _ items _ => length items | _ => 0 end.

Definition phase_lt (p q : phase) : Prop :=
  phase_stage p < phase_stage q \/ (phase_stage p = phase_stage q /\ phase_items p < phase_items q).

Lemma phase_lt_wf : well_founded phase_lt.
Proof.
  intros p. remember (phase_stage p) as n eqn:Hn. revert p Hn.
  induction n as [n IHn] using lt_wf_ind. intros p Hn.
  remember (phase_items p) as m eqn:Hm. revert p Hn Hm.
  induction m as [m IHm] using lt_wf_ind. intros p Hn Hm.
  constructor. intros q [Hlt | [Heq Hl]].
  - apply (IHn (phase_stage q)); [lia | done].
  - apply (IHm (phase_items q)); [lia | lia | done].
Qed.

Lemma mret_run {A} (x : A) w w' r : (mret x : M A) w = (w', r) -> w' = w /\ r = inr x.
Proof. by intros [= <- <-]. Qed.

(** Each action that does not end the thread moves it to a smaller phase. *)
Lemma worker_action_next a sk folder ph w w' ph' :
  worker_action a sk folder ph w = (w', inr (inl ph')) -> phase_lt ph' ph.
Proof.
  destruct ph as [| skip | skip bp | skip bp [|item rest] acc | skip bp acc]; simpl; intros H.
  - case_decide; [apply mret_run in H as [_ [= ->]]; left; simpl; lia | discriminate].
  - apply bind_run_inv in H as [(w1 & x & _ & H) | (e & _ & [=])].
    apply mret_run in H as [_ [= ->]]. left. simpl. lia.
  - apply bind_run_inv in H as [(w1 & x & _ & H) | (e & _ & [=])].
    apply mret_run in H as [_ [= ->]]. left. simpl. lia.
  - apply mret_run in H as [_ [= ->]]. left. simpl. lia.
  - apply bind_run_inv in H as [(w1 & x & _ & H) | (e & _ & [=])].
    apply mret_run in H as [_ [= ->]]. right. simpl. lia.
  - apply bind_run_inv in H as [(w1 & x & _ & H) | (e & _ & [=])].
    by apply mret_run in H as [_ [=]].
Qed.

(** ** A thread scheduled alone *)

(** The organize screen of user [u] over world [w]. *)
Definition organizing (u : string) (w : World) : App := mkApp w (Some u) OrganizeScreen.

Lemma sys_run_cons ev evs s s1 ms1 s2 ms2 :
  sys_step ev s = Some (s1, ms1) -> sys_run evs s1 = Some (s2, ms2) ->
  sys_run (ev :: evs) s = Some (s2, ms1 ++ ms2).
Proof. intros H1 H2. simpl. by rewrite H1, H2. Qed.

Lemma sys_run_app evs1 evs2 s s1 ms1 s2 ms2 ms :
  sys_run evs1 s = Some (s1, ms1) -> sys_run evs2 s1 = Some (s2, ms2) -> ms1 ++ ms2 = ms ->
  sys_run (evs1 ++ evs2) s = Some (s2, ms).
Proof.
  intros H1 H2 <-. revert s ms1 H1. induction evs1 as [|ev evs1 IH]; intros s ms1 H1; simpl in H1.
  - by injection H1 as <- <-.
  - destruct (sys_step ev s) as [[s' ms']|] eqn:Hs; [| done].
    destruct (sys_run evs1 s') as [[s'' ms'']|] eqn:Hr; [| done]. injection H1 as <- <-.
    rewrite <- app_assoc. eapply sys_run_cons; [done | by eapply IH].
Qed.

(** The turn of the only thread, on the organize screen of [u]. *)
Lemma sys_turn_single sk wk u w :
  sys_step (WorkerTurn 0 sk) (mkSys (organizing u w) [wk]) =
  Some (match worker_action (organizing u w) sk (wk_folder wk) (wk_phase wk) w with
        | (w', inr (inl ph)) => (mkSys (organizing u w') [mkWorker (wk_folder wk) ph], [])
        | (w', inr (inr res)) => (mkSys (organizing u w') [], thread_messages (inr res))
        | (w', inl e) => (mkSys (organizing u w') [], [])
        end).
Proof. simpl. unfold worker_step. simpl. by destruct (worker_action _ _ _ _ w) as [w' [e|[ph|res]]]. Qed.

(** A turn of the only thread that moves it to phase [ph']. *)
Lemma sys_turn_next sk folder ph u w w' ph' :
  worker_action (organizing u w) sk folder ph w = (w', inr (inl ph')) ->
  sys_run [WorkerTurn 0 sk] (mkSys (organizing u w) [mkWorker folder ph]) =
    Some (mkSys (organizing u w') [mkWorker folder ph'], []).
Proof. intros H. cbn [sys_run]. rewrite (sys_turn_single sk (mkWorker folder ph)). simpl. by rewrite H. Qed.

(** The loop, one turn per item, and one to leave it. *)
Lemma worker_loop_alone sk folder skip bp u items acc w w' r :
  organize_loop u folder skip items acc w = (w', r) ->
  exists n, sys_run (repeat (WorkerTurn 0 sk) n)
              (mkSys (organizing u w) [mkWorker folder (Looping skip bp items acc)]) =
    Some (match r with
          | inr acc' => mkSys (organizing u w') [mkWorker folder (Saving skip bp acc')]
          | inl _ => mkSys (organizing u w') []
          end, []).
Proof.
  revert acc w. induction items as [|item rest IH]; intros acc w H; simpl in H.
  - apply mret_run in H as [-> ->]. exists 1%nat. by apply sys_turn_next.
  - apply bind_run_inv in H as [(w1 & acc1 & H1 & H) | (e & H1 & ->)].
    + destruct (IH _ _ H) as [n Hn]. exists (S n).
      change (repeat _ (S n)) with ([WorkerTurn 0 sk] ++ repeat (WorkerTurn 0 sk) n).
      eapply sys_run_app; [apply sys_turn_next | exact Hn | done].
      simpl. by rewrite (bind_run_inr _ _ _ _ _ H1).
    + exists 1%nat. cbn [sys_run repeat]. rewrite (sys_turn_single sk (mkWorker folder _)). simpl.
      by rewrite (bind_run_inl _ _ _ _ _ H1).
Qed.

Lemma sys_run_turns n m sk s s1 ms1 s2 ms2 ms :
  sys_run (repeat (WorkerTurn 0 sk) n) s = Some (s1, ms1) ->
  sys_run (repeat (WorkerTurn 0 sk) m) s1 = Some (s2, ms2) -> ms1 ++ ms2 = ms ->
  sys_run (repeat (WorkerTurn 0 sk) (n + m)) s = Some (s2, ms).
Proof. rewrite repeat_app. apply sys_run_app. Qed.

(** The end of a thread alone: its last turn, after [n] turns. *)
Lemma sys_turn_last sk folder ph u w w' r n s ms :
  sys_run (repeat (WorkerTurn 0 sk) n) s = Some (mkSys (organizing u w) [mkWorker folder ph], []) ->
  worker_action (organizing u w) sk folder ph w = (w', r) ->
  match r with inr (inl _) => False | _ => True end ->
  ms = match r with inr (inr res) => thread_messages (inr res) | _ => [] end ->
  sys_run (repeat (WorkerTurn 0 sk) (n + 1)) s = Some (mkSys (organizing u w') [], ms).
Proof.
  intros Hn H Hr ->. eapply sys_run_turns; [exact Hn | | done].
  cbn [sys_run repeat]. rewrite (sys_turn_single sk (mkWorker folder ph)). simpl. rewrite H.
  destruct r as [e|[ph'|[sm bp]]]; [| contradiction |]; simpl; by rewrite ?app_nil_r.
Qed.

(** The thread, scheduled alone from its start on the organize screen
    of [u], runs [organize_files_thread] to its end. *)
Lemma worker_alone u sk folder w w' r :
  organize_files_thread u sk folder w = (w', r) ->
  exists n, sys_run (repeat (WorkerTurn 0 sk) n) (mkSys (organizing u w) [mkWorker folder Spawned]) =
    Some (mkSys (organizing u w') [], thread_messages r).
Proof.
  intros H. unfold organize_files_thread in H.
  assert (H1 : sys_run (repeat (WorkerTurn 0 sk) 1) (mkSys (organizing u w) [mkWorker folder Spawned]) =
    Some (mkSys (organizing u w) [mkWorker folder (BackingUp (parse_skip_exts sk))], []))
    by (apply sys_turn_next; reflexivity).
  apply bind_run_inv in H as [(w1 & bp & Hb & H) | (e & Hb & ->)];
    [| exists (1 + 1)%nat; eapply sys_turn_last; [exact H1 | simpl; exact (bind_run_inl _ _ _ _ _ Hb) | done | done]].
  assert (H2 : sys_run (repeat (WorkerTurn 0 sk) (1 + 1)) (mkSys (organizing u w) [mkWorker folder Spawned]) =
    Some (mkSys (organizing u w1) [mkWorker folder (Listing (parse_skip_exts sk) bp)], [])).
  { eapply sys_run_turns; [exact H1 | apply sys_turn_next | done]. simpl. by rewrite (bind_run_inr _ _ _ _ _ Hb). }
  apply bind_run_inv in H as [(w2 & items & Hl & H) | (e & Hl & ->)];
    [| exists (1 + 1 + 1)%nat; eapply sys_turn_last; [exact H2 | simpl; exact (bind_run_inl _ _ _ _ _ Hl) | done | done]].
  assert (H3 : sys_run (repeat (WorkerTurn 0 sk) (1 + 1 + 1)) (mkSys (organizing u w) [mkWorker folder Spawned]) =
    Some (mkSys (organizing u w2) [mkWorker folder (Looping (parse_skip_exts sk) bp items ([], ∅))], [])).
  { eapply sys_run_turns; [exact H2 | apply sys_turn_next | done]. simpl. by rewrite (bind_run_inr _ _ _ _ _ Hl). }
  apply bind_run_inv in H as [(w3 & acc & Hloop & H) | (e & Hloop & ->)];
    destruct (worker_loop_alone sk _ _ bp _ _ _ _ _ _ Hloop) as [n Hn].
  - apply bind_run_inv in H as [(w4 & [] & Hs & H) | (e & Hs & ->)];
      [| unfold save_undo in Hs; by destruct acc.1].
    apply mret_run in H as [-> ->]. exists (1 + 1 + 1 + n + 1)%nat.
    eapply sys_turn_last; [eapply sys_run_turns; [exact H3 | exact Hn | done]
      | simpl; exact (bind_run_inr _ _ _ _ _ Hs) | done | done].
  - exists (1 + 1 + 1 + n)%nat. eapply sys_run_turns; [exact H3 | exact Hn | done].
Qed.

(** ** Invariants of the interleaved system *)

(** A thread's action keeps the environment, only appends to logs and
    keeps the disk well formed, on any state the GUI left. *)
Lemma worker_action_frame a sk folder ph : keeps engine_frame (worker_action a sk folder ph).
Proof.
  destruct ph as [| skip | skip bp | skip bp [|item rest] acc | skip bp acc]; simpl; solve_keeps.
  - unfold backup_as. destruct (current_user a); solve_keeps.
    eapply keeps_weaken; [apply loop_frame_engine | apply backup_folder_frame].
  - eapply keeps_weaken; [apply loop_frame_engine | apply organize_item_frame].
  - intros w w' r H. unfold save_undo in H. by destruct (_ : list _); injection H as <- _.
Qed.

Lemma worker_action_wf a sk folder ph : keeps wf_kept (worker_action a sk folder ph).
Proof.
  destruct ph as [| skip | skip bp | skip bp [|item rest] acc | skip bp acc]; simpl; solve_keeps.
  - unfold backup_as. destruct (current_user a); solve_keeps.
    eapply keeps_weaken; [| apply backup_folder_sound]. intros w w' [H _]. exact H.
  - apply organize_item_wf.
  - intros w w' r H Hwf. unfold save_undo in H. by destruct (_ : list _); injection H as <- _.
Qed.

(** A step of the system is a GUI step, a spawn, which changes nothing
    but the threads, or a thread's turn, which changes only the world. *)
Lemma sys_step_cases sev s s' ms :
  sys_step sev s = Some (s', ms) ->
  (exists ev, step ev (sys_app s) = Some (sys_app s', ms)) \/ sys_app s' = sys_app s \/
  exists sk folder ph, sys_app s' = set_world (sys_app s)
    (worker_action (sys_app s) sk folder ph (app_world (sys_app s))).1.
Proof.
  intros H. destruct s as [a ws]. destruct sev as [ev | i sk]; simpl in H.
  - destruct ev; try (destruct (step _ a) as [[a' ms']|] eqn:Hs; [| done];
                      injection H as <- <-; left; by eexists).
    destruct (app_screen a), (current_user a); try done.
    injection H as Hs. right; left. unfold spawn in Hs. simpl in Hs. by case_match; injection Hs as <- _.
  - destruct (ws !! i) as [[folder ph]|]; [| done].
    unfold worker_step in H. simpl in H.
    right; right. exists sk, folder, ph.
    destruct (worker_action a sk folder ph (app_world a)) as [w' [e|[ph'|res]]] eqn:E;
      injection H as <- _; simpl; by rewrite E.
Qed.

Lemma sys_run_reachable w0 evs s s' ms :
  sys_reachable w0 s -> sys_run evs s = Some (s', ms) -> sys_reachable w0 s'.
Proof.
  revert s ms. induction evs as [|ev evs IH]; intros s ms Hs H; simpl in H; [by injection H as <- _ |].
  destruct (sys_step ev s) as [[s1 ms1]|] eqn:Hst; [| done].
  destruct (sys_run evs s1) as [[s2 ms2]|] eqn:Hr; [| done]. injection H as <- _.
  apply (IH s1 ms2); [by eapply sys_reach_step | done].
Qed.

(** ** Properties *)

(** Every turn that does not end the thread keeps its folder and moves
    it to a smaller phase. *)
Lemma worker_step_decreases sk wk a a' wk' ms :
  worker_step sk wk a = (a', Some wk', ms) ->
  wk_folder wk' = wk_folder wk /\ phase_lt (wk_phase wk') (wk_phase wk).
Proof.
  intros H. unfold worker_step in H.
  destruct (worker_action _ _ _ _ _) as [w' [e|[ph|res]]] eqn:Hact; try discriminate H.
  injection H as _ <- _. split; [done | exact (worker_action_next _ _ _ _ _ _ _ Hact)].
Qed.

(** Every action of the thread raises only Python's exceptions: the
    collision loop of each iteration always finds a name. *)
Lemma worker_action_py a sk folder ph : raises_only py_exn (worker_action a sk folder ph).
Proof.
  destruct ph as [| skip | skip bp | skip bp [|item rest] acc | skip bp acc]; simpl; unfold backup_as;
    solve_raises; try done; [apply backup_folder_py | apply organize_item_py |].
  intros w w' e. unfold save_undo. case_match; by intros [=].
Qed.

(** [C7] Termination of the worker thread: no thread takes infinitely many
    turns, whatever the GUI does between them (another user logs in, the
    screen changes, files are undone) and whatever the skip entry holds:
    there is no infinite sequence of turns each continuing the thread the
    previous one left.  And no turn ends it for lack of fuel: every
    exception a turn raises is one Python raises, so the thread ends by
    finishing its work or by a Python exception, never because a modelled
    [while] loop ran out of iterations. *)
Theorem worker_terminates :
  (~ exists wks : nat -> worker,
      forall i, exists sk a a' ms, worker_step sk (wks i) a = (a', Some (wks (S i)), ms)) /\
  (forall a sk folder ph, raises_only py_exn (worker_action a sk folder ph)).
Proof.
  split; [| exact worker_action_py]. intros [wks Hwks].
  assert (Hno : forall ph, ~ exists i, wk_phase (wks i) = ph).
  { intros ph. induction ph as [ph IH] using (well_founded_induction phase_lt_wf).
    intros [i <-]. destruct (Hwks i) as (sk & a & a' & ms & H).
    apply (IH (wk_phase (wks (S i)))); [exact (proj2 (worker_step_decreases _ _ _ _ _ _ H)) | by exists (S i)]. }
  apply (Hno (wk_phase (wks 0))). by exists 0%nat.
Qed.

(** The sequential model is the concurrent one with the worker
    scheduled alone: from the organize screen of any user over any world,
    the Start button followed by enough turns of the thread it starts,
    with no GUI event in between, gives exactly the state and the
    messages of [Session.start_organization], the thread ended. *)
Theorem start_organization_refines_worker (u f sk : string) (w : World) :
  exists n, sys_run (GuiEvent (StartButton f sk) :: repeat (WorkerTurn 0 sk) n) (mkSys (organizing u w) []) =
    Some (mkSys (start_organization u f sk (organizing u w)).1 [], (start_organization u f sk (organizing u w)).2).
Proof.
  unfold start_organization. simpl app_world.
  destruct (start_checks f w) as [msg|folder] eqn:Hc.
  - exists 0%nat. simpl. unfold spawn. simpl. by rewrite Hc.
  - destruct (organize_files_thread u sk folder w) as [w' r] eqn:Hrun.
    destruct (worker_alone _ _ _ _ _ _ Hrun) as [n Hn]. exists n. simpl fst; simpl snd.
    rewrite <- (app_nil_l (thread_messages r)). eapply sys_run_cons; [| exact Hn]. simpl. unfold spawn. simpl. by rewrite Hc.
Qed.

(** ** Races *)

(** The spec's folder [/home/dl] with two files, on the organize screen of
    [alice]; [bob] is registered too. *)
Definition race_sys : Sys :=
  mkSys (organizing "alice" (set_users ex_w0 {[ "alice" := "pa"; "bob" := "pb" ]})) [].

(** Start, let the thread back up, list and move the first file, run the
    GUI events [gui] (after leaving for the main menu and logging out),
    then let the thread finish. *)
Definition race_events (gui : list event) : list sys_event :=
  [GuiEvent (StartButton "/home/dl" ""); WorkerTurn 0 ""; WorkerTurn 0 ""; WorkerTurn 0 "";
   WorkerTurn 0 ""; GuiEvent BackButton; GuiEvent (LogoutButton true)] ++
  (GuiEvent <$> gui) ++ [WorkerTurn 0 ""; WorkerTurn 0 ""; WorkerTurn 0 ""].

Definition race_undo_of (r : option (Sys * list message)) : option (option UndoLog) :=
  (fun p => w_undo (app_world (sys_app p.1))) <$> r.

(** A logout during an organize run hands its undo entry to the next
    user: [alice] starts the run, logs out after the first file moved and
    [bob] logs in; the thread logs the second move in [bob]'s activity
    log, records the entry under [bob], shows no summary (the organize
    screen is gone), and [bob]'s Undo restores [alice]'s two files. *)
Example worker_race_undo_goes_to_next_user :
  option_map undo_user <$> race_undo_of (sys_run (race_events [LoginButton "bob" "pb"]) race_sys) =
    Some (Some (Some "bob")) /\
  (fun p => p.2) <$> sys_run (race_events [LoginButton "bob" "pb"] ++ [GuiEvent (UndoButton true)]) race_sys =
    Some [ShowInfo "Welcome, bob!"; UndoShown (UndoComplete 2)] /\
  (fun p => bool_decide (is_Some (w_logs (app_world (sys_app p.1)) !! "bob"))) <$>
    sys_run (race_events [LoginButton "bob" "pb"]) race_sys = Some true.
Proof. split_and!; vm_decide. Qed.

(** A logout that no login follows before the run ends writes the
    undo entry with [null] as its user and logs the moves to [None]'s log:
    when [alice] logs in again her Undo is refused, and no user can ever
    undo the run. *)
Example worker_race_undo_unowned :
  option_map undo_user <$> race_undo_of (sys_run (race_events []) race_sys) = Some (Some None) /\
  (fun p => p.2) <$> sys_run (race_events [] ++ (GuiEvent <$> [LoginButton "alice" "pa"; UndoButton true])) race_sys =
    Some [ShowInfo "Welcome, alice!"; UndoShown NotYourOperation] /\
  (fun p => bool_decide (is_Some (w_logs (app_world (sys_app p.1)) !! "None"))) <$> sys_run (race_events []) race_sys = Some true.
Proof. split_and!; vm_decide. Qed.

(** The invariants survive any interleaving: started on a well-formed
    disk, in every state the application reaches through GUI events and
    turns of any number of worker threads in any order, a user is logged
    in exactly off the login screen and is registered, and the disk is
    well formed (a thread's turn only changes the world, and keeps it
    well formed whatever the GUI did to the disk meanwhile). *)
Lemma sys_reachable_session (w0 : World) (s : Sys) : sys_reachable w0 s -> session_inv (sys_app s).
Proof.
  induction 1 as [s Hinit | s sev s' ms _ IHs Hstep].
  - unfold sys_init in Hinit. destruct (init w0) as [a|] eqn:Hi; [| done]. injection Hinit as <-.
    exact (reachable_session w0 a (reach_init w0 a Hi)).
  - destruct (sys_step_cases _ _ _ _ Hstep) as [(ev & Hev) | [-> | (sk & folder & ph & ->)]];
      [exact (step_session_inv _ _ _ _ IHs Hev) | done |].
    destruct (worker_action (sys_app s) sk folder ph (app_world (sys_app s))) as [w' r] eqn:E. simpl.
    destruct (worker_action_frame _ _ _ _ _ _ _ E) as ((Hu & _) & _).
    apply (session_inv_frame _ _ IHs); simpl; [rewrite Hu; reflexivity | done | done].
Qed.

Theorem sys_reachable_inv (w0 : World) (s : Sys) :
  wf (w_fs w0) -> sys_reachable w0 s -> session_inv (sys_app s) /\ wf (w_fs (app_world (sys_app s))).
Proof.
  intros Hwf Hr. split; [exact (sys_reachable_session _ _ Hr) |]. induction Hr as [s Hinit | s sev s' ms _ IHw Hstep].
  - unfold sys_init in Hinit. destruct (init w0) as [a|] eqn:Hi; [| done]. injection Hinit as <-.
    unfold init in Hi. destruct (ensure_data_dirs w0) as [w' [|]] eqn:He; [done |].
    injection Hi as <-. exact (ensure_data_dirs_wf _ _ _ He Hwf).
  - destruct (sys_step_cases _ _ _ _ Hstep) as [(ev & Hev) | [-> | (sk & folder & ph & ->)]];
      [exact (step_wf _ _ _ _ Hev IHw) | done |].
    destruct (worker_action (sys_app s) sk folder ph (app_world (sys_app s))) as [w' r] eqn:E.
    exact (worker_action_wf _ _ _ _ _ _ _ E IHw).
Qed.

(** [alice] registers, logs in, starts organizing [/home/dl], goes back to
    the main menu while the thread backs up, and the thread finishes. *)
Definition ex_sys_events : list sys_event :=
  [GuiEvent (RegisterButton "alice" "pw"); GuiEvent (LoginButton "alice" "pw"); GuiEvent OrganizeButton;
   GuiEvent (StartButton "/home/dl" ""); WorkerTurn 0 ""; WorkerTurn 0 ""; GuiEvent BackButton;
   WorkerTurn 0 ""; WorkerTurn 0 ""; WorkerTurn 0 ""; WorkerTurn 0 ""; WorkerTurn 0 ""].

Definition ex_sys_start : Sys := default (mkSys (organizing "" ex_w0) []) (sys_init ex_w0).
Definition ex_sys_end : Sys * list message :=
  default (ex_sys_start, []) (sys_run ex_sys_events ex_sys_start).

Lemma ex_sys_end_reachable : sys_reachable ex_w0 ex_sys_end.1.
Proof.
  apply (sys_run_reachable ex_w0 ex_sys_events ex_sys_start _ ex_sys_end.2).
  - apply sys_reach_init. apply some_default. vm_decide.
  - rewrite <- surjective_pairing. apply some_default. vm_decide.
Qed.

Lemma sys_reachable_inv_witness :
  wf (w_fs ex_w0) /\ sys_reachable ex_w0 ex_sys_end.1 /\
  session_inv (sys_app ex_sys_end.1) /\ wf (w_fs (app_world (sys_app ex_sys_end.1))).
Proof.
  split; [exact ex_w0_wf | split; [exact ex_sys_end_reachable |
    exact (sys_reachable_inv ex_w0 ex_sys_end.1 ex_w0_wf ex_sys_end_reachable)]].
Defined.

(** Start pressed twice on [/home/dl]: two threads list the same two
    files; the first moves [photo.jpg], the second [report.pdf]; each
    writes the undo entry of its own moves, the second last. *)
Definition double_start_events : list sys_event :=
  [GuiEvent (StartButton "/home/dl" ""); GuiEvent (StartButton "/home/dl" "");
   WorkerTurn 0 ""; WorkerTurn 1 ""; WorkerTurn 0 ""; WorkerTurn 1 ""; WorkerTurn 0 ""; WorkerTurn 1 "";
   WorkerTurn 0 ""; WorkerTurn 1 ""; WorkerTurn 1 ""; WorkerTurn 0 ""; WorkerTurn 0 ""; WorkerTurn 1 "";
   WorkerTurn 0 ""; WorkerTurn 0 ""; GuiEvent BackButton; GuiEvent (UndoButton true)].

Definition double_start : option (Sys * list message) :=
  sys_run double_start_events (mkSys (organizing "alice" ex_w0) []).

Definition double_start_fs (p : Path) : option (option entry) :=
  (fun r => w_fs (app_world (sys_app r.1)) !! p) <$> double_start.

(** Two runs started on the same folder race on the one undo slot
    and the last writer wins (spec section 5): each thread moves one of the
    two files and reports success, the second entry replaces the first,
    and Undo brings back [report.pdf] only, leaving [photo.jpg] in
    [Images/2024/03/Small]. *)
Example worker_double_start_last_writer_wins :
  double_start_fs (ex_folder ++ ["Images"; "2024"; "03"; "Small"; "photo.jpg"]) =
    Some (w_fs ex_w0 !! (ex_folder ++ ["photo.jpg"])) /\
  double_start_fs (ex_folder ++ ["photo.jpg"]) = Some None /\
  double_start_fs (ex_folder ++ ["report.pdf"]) = Some (w_fs ex_w0 !! (ex_folder ++ ["report.pdf"])) /\
  (fun r => (length r.2, last r.2)) <$> double_start = Some (3%nat, Some (UndoShown (UndoComplete 1))).
Proof. split_and!; vm_decide. Qed.
