(* ===== verification/UndoSlot.v ===== *)
(** * The undo slot: the spec's one-entry store and its refinement

    Section 3 of the spec describes the Undo Entry abstractly: at most one
    entry [{user, move records}] exists; an organize run that moves at
    least one file overwrites it with that run's records; an undo by its
    owner deletes it; nothing else touches it.  [slot_step actor s s'] is
    that machine, each transition labelled with the value of
    [self.current_user] when the handler or the thread writes: an entry
    is written under that value, [None] included, and only an undo by a
    logged-in owner deletes it.

    The implementation keeps the entry in [w_undo] (the file
    [undo_log.json] of src/organizer.py), written by [save_undo] at the end
    of [organize_files_thread] (lines 343-345) and deleted by
    [undo_operation] (line 393).  The refinement theorem is stated on the
    interleaved system of [Worker], where the thread's turns run between
    GUI events: every step moves [w_undo] along one transition of the
    abstract machine labelled with the user logged in at that step, so a
    thread's last turn writes the entry of whoever is logged in then, not
    of the user who clicked Start.  Its corollaries: the entry of every
    reachable state holds records and belongs to a registered user or to
    nobody, and an entry that belongs to nobody is never deleted, only
    overwritten. *)

From S2P Require Import Prelude FileSystem World ActivityLog Backup Organizer Undo Session Worker.

(** ** The abstract machine *)

Inductive slot_step (actor : option string) : option UndoLog -> option UndoLog -> Prop :=
  | slot_keep s : slot_step actor s s
  | slot_write recs s : recs <> [] -> slot_step actor s (Some (mkUndoLog actor recs))
  | slot_consume u recs : actor = Some u -> slot_step actor (Some (mkUndoLog (Some u) recs)) None.

(** The slot is kept, or overwritten under [cu] with a non-empty entry:
    what an organize run may do.  Unlike [slot_step] it is transitive. *)
Definition slot_written (cu : option string) (w w' : World) : Prop :=
  w_undo w' = w_undo w \/ exists recs, recs <> [] /\ w_undo w' = Some (mkUndoLog cu recs).

#[export] Instance slot_written_preorder cu : PreOrder (slot_written cu).
Proof.
  split; [intros w; by left |].
  intros w1 w2 w3 H12 [H23 | H23]; unfold slot_written; [rewrite H23; exact H12 | by right].
Qed.

Lemma slot_written_step cu w w' : slot_written cu w w' -> slot_step cu (w_undo w) (w_undo w').
Proof. intros [-> | (recs & Hne & ->)]; [apply slot_keep | by apply slot_write]. Qed.

Lemma loop_frame_slot_written cu w w' : loop_frame w w' -> slot_written cu w w'.
Proof. intros (_ & Hu & _). by left. Qed.

(** A slot holding records, owned by a registered user or by nobody. *)
Definition slot_owned (w : World) : Prop :=
  match w_undo w with
  | None => True
  | Some d => (forall u, undo_user d = Some u -> is_Some (w_users w !! u)) /\ undo_files d <> []
  end.

(** Runs of the machine, labelled with the actor of each transition. *)
Inductive slot_run : list (option string) -> option UndoLog -> option UndoLog -> Prop :=
  | slot_run_nil s : slot_run [] s s
  | slot_run_cons actor actors s s' s'' :
      slot_step actor s s' -> slot_run actors s' s'' -> slot_run (actor :: actors) s s''.

(** The user logged in at each step of a run of the interleaved system. *)
Fixpoint sys_actors (evs : list sys_event) (s : Sys) : list (option string) :=
  match evs with
  | [] => []
  | ev :: evs' =>
      current_user (sys_app s) :: match sys_step ev s with Some (s1, _) => sys_actors evs' s1 | None => [] end
  end.

(** ** The handlers *)

Lemma organize_files_thread_slot user skip_entry folder :
  keeps (slot_written (Some user)) (organize_files_thread user skip_entry folder).
Proof.
  unfold organize_files_thread. solve_keeps.
  - eapply keeps_weaken; [apply loop_frame_slot_written | apply backup_folder_frame].
  - eapply keeps_weaken; [apply loop_frame_slot_written | apply organize_loop_frame].
  - intros w w' r H. unfold save_undo in H.
    destruct (_ : list _) as [|m ms]; injection H as <- _; [by left | right; by exists (m :: ms)].
Qed.

Lemma start_organization_slot u f s a :
  slot_step (Some u) (w_undo (app_world a)) (w_undo (app_world (start_organization u f s a).1)).
Proof.
  destruct (start_organization_cases u f s a) as [-> | (folder & w' & r & Hrun & ->)]; [apply slot_keep |].
  apply organize_files_thread_slot in Hrun. by apply slot_written_step.
Qed.

Lemma undo_operation_slot u confirm w :
  slot_step (Some u) (w_undo w) (w_undo (undo_operation u confirm w).1).
Proof.
  unfold undo_operation. destruct (w_undo w) as [[owner recs]|] eqn:Hw; [| simpl; rewrite Hw; apply slot_keep].
  case_decide as Hne; [simpl; rewrite Hw; apply slot_keep |]. simpl in Hne. subst owner.
  destruct confirm; [| simpl; rewrite Hw; apply slot_keep]. simpl.
  destruct (restore_loop u recs 0 w) as [w' [e|n]] eqn:Hrun; simpl; [| by apply slot_consume].
  destruct (restore_loop_frame _ _ _ _ _ _ Hrun) as (_ & -> & _). rewrite Hw. apply slot_keep.
Qed.

(** [ensure_data_dirs] only creates directories. *)
Lemma ensure_data_dirs_frame : keeps loop_frame ensure_data_dirs.
Proof.
  unfold ensure_data_dirs. solve_keeps; apply keeps_update; try apply _;
    intros w fs' _; unfold loop_frame, env_kept; split_and!; reflexivity.
Qed.

(** Every handler the application runs moves the slot along the machine,
    labelled with the user logged in before the step. *)
Lemma step_slot ev a a' ms :
  step ev a = Some (a', ms) -> slot_step (current_user a) (w_undo (app_world a)) (w_undo (app_world a')).
Proof.
  intros H. step_cases H; try (destruct (undo_operation _ _ _) as [w' r] eqn:Hu in H);
    apply some_pair_fst in H; subst a'; simpl; try apply slot_keep.
  all: try match goal with |- context [login ?u ?p ?a] =>
         destruct (login_spec u p a) as [-> | [-> _]]; apply slot_keep end.
  all: try match goal with |- context [register ?u ?p ?a] =>
         destruct (register_spec u p a) as [-> | [_ ->]]; apply slot_keep end.
  all: try (unfold logout; destruct confirm; apply slot_keep).
  - pose proof (undo_operation_slot s confirm w) as Hs. by rewrite Hu in Hs.
  - apply (start_organization_slot _ _ _ (mkApp _ _ _)).
Qed.

(** A transition of the machine keeps the slot owned by a registered
    user, when the actor is registered and no user is removed. *)
Lemma slot_step_owned actor w w' :
  slot_step actor (w_undo w) (w_undo w') -> w_users w ⊆ w_users w' ->
  (forall u, actor = Some u -> is_Some (w_users w !! u)) ->
  slot_owned w -> slot_owned w'.
Proof.
  intros Hs Hsub Hact. unfold slot_owned.
  remember (w_undo w) as s eqn:Es. remember (w_undo w') as s' eqn:Es'.
  destruct Hs as [s | recs s Hne | u recs Hu]; [| | done].
  - destruct s as [d|]; [| done]. intros [Hd Hf].
    split; [intros v Hv; exact (lookup_weaken_is_Some _ _ _ (Hd v Hv) Hsub) | done].
  - intros _. split; [simpl; intros v Hv; exact (lookup_weaken_is_Some _ _ _ (Hact v Hv) Hsub) | done].
Qed.

(** ** The thread's turns *)

(** An action of the thread keeps the slot, or writes it under the user
    logged in at that turn ([save_undo (current_user a)], line 345). *)
Lemma worker_action_slot a sk folder ph : keeps (slot_written (current_user a)) (worker_action a sk folder ph).
Proof.
  destruct ph as [| skip | skip bp | skip bp [|item rest] acc | skip bp acc]; simpl; solve_keeps.
  - unfold backup_as. destruct (current_user a); solve_keeps.
    eapply keeps_weaken; [apply loop_frame_slot_written | apply backup_folder_frame].
  - eapply keeps_weaken; [apply loop_frame_slot_written | apply organize_item_frame].
  - intros w w' r H. unfold save_undo in H.
    destruct (_ : list _) as [|m ms]; injection H as <- _; [by left | right; by exists (m :: ms)].
Qed.

(** Every step of the interleaved system moves the slot along the
    machine, labelled with the user logged in at that step. *)
Lemma sys_step_slot sev s s' ms :
  sys_step sev s = Some (s', ms) ->
  slot_step (current_user (sys_app s)) (w_undo (app_world (sys_app s))) (w_undo (app_world (sys_app s'))).
Proof.
  intros H. destruct (sys_step_cases _ _ _ _ H) as [(ev & Hev) | [-> | (sk & folder & ph & ->)]];
    [exact (step_slot _ _ _ _ Hev) | apply slot_keep |].
  destruct (worker_action (sys_app s) sk folder ph (app_world (sys_app s))) as [w' r] eqn:E. simpl.
  exact (slot_written_step _ _ _ (worker_action_slot _ _ _ _ _ _ _ E)).
Qed.

(** A step of the interleaved system only adds users. *)
Lemma sys_step_users sev s s' ms :
  sys_step sev s = Some (s', ms) -> w_users (app_world (sys_app s)) ⊆ w_users (app_world (sys_app s')).
Proof.
  intros H. destruct (sys_step_cases _ _ _ _ H) as [(ev & Hev) | [-> | (sk & folder & ph & ->)]];
    [exact (proj1 (step_app_frame _ _ _ _ Hev)) | done |].
  destruct (worker_action (sys_app s) sk folder ph (app_world (sys_app s))) as [w' r] eqn:E. simpl.
  destruct (worker_action_frame _ _ _ _ _ _ _ E) as ((Hu & _) & _). by rewrite Hu.
Qed.

(** ** Properties *)

(** [C3] Refinement of the spec's undo store under any interleaving of
    GUI events and turns of the organize threads: every run of the
    interleaved system moves [undo_log.json] along a run of the abstract
    one-slot machine, each step a transition labelled with the user
    logged in at that step: the slot is kept, overwritten with a
    non-empty entry under that user (the last turn of a thread that moved
    files, whoever clicked Start), or deleted when that user owns it (a
    confirmed undo that completed its pass). *)
Theorem sys_run_refine_undo_slot (evs : list sys_event) (s s' : Sys) (ms : list message) :
  sys_run evs s = Some (s', ms) ->
  slot_run (sys_actors evs s) (w_undo (app_world (sys_app s))) (w_undo (app_world (sys_app s'))).
Proof.
  revert s ms. induction evs as [|ev evs IH]; intros s ms H; simpl in H.
  - injection H as <- _. apply slot_run_nil.
  - destruct (sys_step ev s) as [[s1 ms1]|] eqn:Hs; [| done].
    destruct (sys_run evs s1) as [[s2 ms2]|] eqn:Hr; [| done]. injection H as <- _.
    simpl. rewrite Hs. eapply slot_run_cons; [exact (sys_step_slot _ _ _ _ Hs) | exact (IH _ _ Hr)].
Qed.

(** The logout race of [Worker]: [alice] starts a run and logs out
    before its last turn. *)
Definition race_end : Sys * list message := default (race_sys, []) (sys_run (race_events []) race_sys).

Lemma sys_run_refine_undo_slot_witness :
  sys_run (race_events []) race_sys = Some (race_end.1, race_end.2) /\
  slot_run (sys_actors (race_events []) race_sys) (w_undo (app_world (sys_app race_sys)))
    (w_undo (app_world (sys_app race_end.1))).
Proof.
  assert (H : sys_run (race_events []) race_sys = Some (race_end.1, race_end.2))
    by (rewrite <- surjective_pairing; apply some_default; vm_decide).
  split; [exact H | exact (sys_run_refine_undo_slot _ _ _ _ H)].
Defined.

(** [C14] In every state the interleaved system reaches from a world whose
    entry, if any, lists records of a registered user or of nobody, the
    entry lists records and belongs to a registered user or to nobody
    ([null], written by a thread that ended while nobody was logged in);
    and an entry that belongs to nobody is never deleted by a step, only
    overwritten: no user can undo it. *)
Theorem sys_reachable_slot_owned (w0 : World) (s : Sys) :
  slot_owned w0 -> sys_reachable w0 s ->
  slot_owned (app_world (sys_app s)) /\
  forall sev s' ms recs, w_undo (app_world (sys_app s)) = Some (mkUndoLog None recs) ->
    sys_step sev s = Some (s', ms) -> is_Some (w_undo (app_world (sys_app s'))).
Proof.
  intros H0 Hr. split.
  - induction Hr as [s Hinit | s sev s' ms Hr IH Hstep].
    + unfold sys_init, init in Hinit. destruct (ensure_data_dirs w0) as [w' [|]] eqn:He; [done |].
      injection Hinit as <-. destruct (ensure_data_dirs_frame _ _ _ He) as ((Hus & _) & Hu & _).
      unfold slot_owned in *. simpl. by rewrite Hu, Hus.
    + apply (slot_step_owned _ _ _ (sys_step_slot _ _ _ _ Hstep) (sys_step_users _ _ _ _ Hstep)); [| exact IH].
      exact (proj2 (sys_reachable_session _ _ Hr)).
  - intros sev s' ms recs Hu Hstep. pose proof (sys_step_slot _ _ _ _ Hstep) as Hs. rewrite Hu in Hs.
    inversion Hs; by eexists.
Qed.

Lemma sys_reachable_slot_owned_witness :
  slot_owned ex_w0 /\ sys_reachable ex_w0 ex_sys_end.1 /\
  (slot_owned (app_world (sys_app ex_sys_end.1)) /\
   forall sev s' ms recs, w_undo (app_world (sys_app ex_sys_end.1)) = Some (mkUndoLog None recs) ->
    sys_step sev ex_sys_end.1 = Some (s', ms) -> is_Some (w_undo (app_world (sys_app s')))).
Proof.
  assert (H0 : slot_owned ex_w0) by exact I.
  split; [exact H0 | split; [exact ex_sys_end_reachable | exact (sys_reachable_slot_owned _ _ H0 ex_sys_end_reachable)]].
Defined.
