(* ===== verification/Screens.v ===== *)
(** * The Tk screens and their widgets

    src/organizer.py builds one screen at a time: [clear_window] (lines
    88-90) destroys every widget of the root window, and
    [show_login_screen] (92-138), [show_main_menu] (173-203),
    [show_organize_screen] (205-270) and [show_log_screen] (405-436) build
    the next one.  The state a screen holds is the contents of its entries
    ([username_entry], [password_entry] on the login screen;
    [folder_path_var], shown in a read-only entry, and [skip_entry] on the
    organize screen), the organize screen's [progress_var] text and whether
    its progress bar runs, and the text of the log view; the buttons fix
    the commands the screen can run.  [widgets] is that state, one
    constructor per screen, built by the [show_] functions; labels,
    frames, fonts and colours hold no state and are not modelled.

    [Tk] is the interleaved system of [Worker] with the widgets.  Its
    events are what the user does with the widgets: typing into an
    editable entry, answering the Browse dialog ([browse_folder], lines
    272-275), clicking a button of the screen, pressing [<Return>] (bound
    on the root by [show_login_screen], so on every later screen too), and
    a turn of a worker thread, which reads [self.skip_entry] as it is at
    that moment.  Start sets the progress text and starts the bar once
    its checks pass; a turn runs the [root.after] callbacks the thread
    posts ([turn_callbacks]: the progress texts, [show_results] and the
    [finally]'s [progress_bar.stop()]) on the widgets shown when they run,
    as the callbacks read [self.progress_var] and [self.progress_bar]
    then.  A click runs the handler of [Session] on what the
    entries hold; a handler that changes the screen calls the [show_]
    function of the new screen, and no handler rebuilds the screen it is
    on, so the widgets are rebuilt exactly when the screen changes
    ([redisplay]).

    The theorems: every widget-level step is a step of [Worker.sys_step]
    on the payloads the entries hold, or changes only the entries
    (the payload model is an abstraction of this one); hence every
    reachable widget state shows the widgets of the screen the application
    is on, has a registered user exactly off the login screen and a
    well-formed disk; the progress bar runs only while some thread is
    alive ([tk_bar_has_thread]); and scenarios show that the worker reads
    the skip entry when it starts, not when Start is clicked, and that
    with Start clicked twice the first thread's end stops the bar and
    reports completion while the second still runs. *)

From S2P Require Import Prelude PyLib FileSystem World ActivityLog Organizer Undo Session Worker.

(** ** The widgets of each screen *)

Inductive widgets :=
  | LoginWidgets (username_entry password_entry : string)
  | MenuWidgets
  | OrganizeWidgets (folder_path_var skip_entry progress_var : string) (bar_running : bool)
  | LogWidgets (log_text : string).

#[export] Instance widgets_eq_dec : EqDecision widgets.
Proof. solve_decision. Defined.

(** [show_login_screen()]: two empty entries, the Login and Register
    buttons, and the [<Return>] binding. *)
Definition show_login_screen : widgets := LoginWidgets "" "".

(** [show_main_menu()]: the four menu buttons, no entry. *)
Definition show_main_menu : widgets := MenuWidgets.

(** [show_organize_screen()]: a fresh, empty [folder_path_var] in a
    read-only entry with the Browse button, an empty [skip_entry], a new
    [progress_var] reading "Ready to organize...", an indeterminate
    progress bar that is not running, and the Start and Back buttons. *)
Definition show_organize_screen : widgets := OrganizeWidgets "" "" "Ready to organize..." false.

(** [show_log_screen()]: the log view filled by [load_log] for
    [f"{self.current_user}"], and the Back button. *)
Definition show_log_screen (w : World) (current_user : option string) : widgets :=
  LogWidgets (load_log w (py_format_user current_user)).

(** [browse_folder()]: [askdirectory] returns [""] when cancelled, and the
    variable is only set on a non-empty answer. *)
Definition browse_folder (folder : string) (wd : widgets) : widgets :=
  match wd with
  | OrganizeWidgets folder_path_var skip_entry pv bar =>
      if bool_decide (folder = "") then wd else OrganizeWidgets folder skip_entry pv bar
  | _ => wd
  end.

(** The screen a set of widgets belongs to. *)
Definition widgets_screen (wd : widgets) : screen :=
  match wd with
  | LoginWidgets _ _ => LoginScreen
  | MenuWidgets => MainMenu
  | OrganizeWidgets _ _ _ _ => OrganizeScreen
  | LogWidgets _ => LogScreen
  end.

(** The editable entries: [folder_entry] is [state="readonly"]. *)
Inductive field := UsernameField | PasswordField | SkipField.

Definition type_into (f : field) (text : string) (wd : widgets) : option widgets :=
  match f, wd with
  | UsernameField, LoginWidgets _ p => Some (LoginWidgets text p)
  | PasswordField, LoginWidgets u _ => Some (LoginWidgets u text)
  | SkipField, OrganizeWidgets folder _ pv bar => Some (OrganizeWidgets folder text pv bar)
  | _, _ => None
  end.

Inductive button :=
  | LoginBtn | RegisterBtn
  | OrganizeBtn | UndoBtn (confirm : bool) | ViewLogBtn | LogoutBtn (confirm : bool)
  | StartBtn | BackBtn.

(** The command a button of the current screen runs, with what its
    handler reads from the entries; [None] when the screen has no such
    button.  The answers of the confirmation dialogs are the arguments of
    [UndoBtn] and [LogoutBtn]. *)
Definition button_event (b : button) (wd : widgets) : option event :=
  match b, wd with
  | LoginBtn, LoginWidgets u p => Some (LoginButton u p)
  | RegisterBtn, LoginWidgets u p => Some (RegisterButton u p)
  | OrganizeBtn, MenuWidgets => Some OrganizeButton
  | UndoBtn c, MenuWidgets => Some (UndoButton c)
  | ViewLogBtn, MenuWidgets => Some ViewLogButton
  | LogoutBtn c, MenuWidgets => Some (LogoutButton c)
  | StartBtn, OrganizeWidgets folder skip _ _ => Some (StartButton folder skip)
  | BackBtn, OrganizeWidgets _ _ _ _ => Some BackButton
  | BackBtn, LogWidgets _ => Some BackButton
  | _, _ => None
  end.

(** [<Return>] calls [login()], which reads the entries of the login
    screen; on another screen they are destroyed and [get] raises. *)
Definition return_event (wd : widgets) : event :=
  match wd with
  | LoginWidgets u p => ReturnKey u p
  | _ => ReturnKey "" ""
  end.

(** What the worker's [self.skip_entry.get()] returns, when the entry exists. *)
Definition skip_of (wd : widgets) : string :=
  match wd with OrganizeWidgets _ s _ _ => s | _ => "" end.

(** The [show_] function the handler calls when it changes the screen. *)
Definition redisplay (a a' : App) (wd : widgets) : widgets :=
  if decide (app_screen a' = app_screen a) then wd
  else match app_screen a' with
       | LoginScreen => show_login_screen
       | MainMenu => show_main_menu
       | OrganizeScreen => show_organize_screen
       | LogScreen => show_log_screen (app_world a') (current_user a')
       end.

(** ** The progress bar and its text *)

(** The [root.after(0, ...)] callbacks of [organize_files_thread] that
    touch the organize screen.  Each reads [self.progress_var] and
    [self.progress_bar] when it runs, so it acts on the organize screen
    shown at that moment, a new one if the user came back to it. *)
Inductive callback :=
  | SetProgress (text : string)  (** [self.progress_var.set(text)] (lines 301, 305) *)
  | StopBar                      (** [self.progress_bar.stop()] (line 353) *)
  | ShowResults.                 (** [show_organization_results] (lines 355-357) *)

(** A callback run on the widgets shown.  Off the organize screen the
    bar is destroyed and [stop()] raises [TclError], which ends the
    callback ([show_organization_results] before it sets the text); a
    [set] on the old screen's variable changes nothing visible. *)
Definition run_callback (cb : callback) (wd : widgets) : widgets :=
  match wd, cb with
  | OrganizeWidgets f k _ bar, SetProgress text => OrganizeWidgets f k text bar
  | OrganizeWidgets f k pv _, StopBar => OrganizeWidgets f k pv false
  | OrganizeWidgets f k _ _, ShowResults => OrganizeWidgets f k "Organization complete!" false
  | _, _ => wd
  end.

Definition run_callbacks (cbs : list callback) (wd : widgets) : widgets :=
  foldl (fun wd cb => run_callback cb wd) wd cbs.

(** The callbacks a turn of a thread in phase [ph] posts, given whether
    the thread goes on ([Some]) or its [try] ends ([None]); the [finally]
    of line 353 posts [StopBar] whenever the [try] ends, and the
    [showerror] callback of line 351 raises [NameError] and shows
    nothing. *)
Definition turn_callbacks (ph : phase) (next : option worker) : list callback :=
  match ph, next with
  | BackingUp _, Some _ => [SetProgress "Creating backup..."; SetProgress "Organizing files..."]
  | BackingUp _, None => [SetProgress "Creating backup..."; StopBar]
  | Saving _ _ _, _ => [ShowResults; StopBar]
  | _, Some _ => []
  | _, None => [StopBar]
  end.

(** The widgets after thread [i]'s turn, reading [skip_entry]. *)
Definition turn_widgets (i : nat) (skip_entry : string) (s : Sys) (wd : widgets) : widgets :=
  match sys_workers s !! i with
  | Some wk => run_callbacks (turn_callbacks (wk_phase wk) (worker_step skip_entry wk (sys_app s)).1.2) wd
  | None => wd
  end.

(** [start_organization()] (lines 288-289): once the checks pass, the bar
    starts and the text reads "Creating backup...". *)
Definition start_widgets (folder_entry : string) (w : World) (wd : widgets) : widgets :=
  match start_checks folder_entry w, wd with
  | inr _, OrganizeWidgets f k _ _ => OrganizeWidgets f k "Creating backup..." true
  | _, _ => wd
  end.

(** What a handler does to the widgets of the screen it runs on. *)
Definition handler_widgets (ev : event) (a : App) (wd : widgets) : widgets :=
  match ev with
  | StartButton folder _ => start_widgets folder (app_world a) wd
  | _ => wd
  end.

(** ** The system with its widgets *)

Record Tk := mkTk { tk_sys : Sys; tk_widgets : widgets }.

Inductive tk_event :=
  | TypeInto (f : field) (text : string)
  | Browse (answer : string)
  | Click (b : button)
  | PressReturn
  | Turn (i : nat).

Definition tk_gui (ev : event) (t : Tk) : option (Tk * list message) :=
  match sys_step (GuiEvent ev) (tk_sys t) with
  | Some (s', ms) =>
      Some (mkTk s' (redisplay (sys_app (tk_sys t)) (sys_app s')
                       (handler_widgets ev (sys_app (tk_sys t)) (tk_widgets t))), ms)
  | None => None
  end.

Definition tk_step (ev : tk_event) (t : Tk) : option (Tk * list message) :=
  match ev with
  | TypeInto f text =>
      match type_into f text (tk_widgets t) with
      | Some wd => Some (mkTk (tk_sys t) wd, [])
      | None => None
      end
  | Browse answer =>
      match tk_widgets t with
      | OrganizeWidgets _ _ _ _ => Some (mkTk (tk_sys t) (browse_folder answer (tk_widgets t)), [])
      | _ => None
      end
  | Click b =>
      match button_event b (tk_widgets t) with
      | Some ev => tk_gui ev t
      | None => None
      end
  | PressReturn => tk_gui (return_event (tk_widgets t)) t
  | Turn i =>
      match sys_step (WorkerTurn i (skip_of (tk_widgets t))) (tk_sys t) with
      | Some (s', ms) => Some (mkTk s' (turn_widgets i (skip_of (tk_widgets t)) (tk_sys t) (tk_widgets t)), ms)
      | None => None
      end
  end.

Fixpoint tk_run (evs : list tk_event) (t : Tk) : option (Tk * list message) :=
  match evs with
  | [] => Some (t, [])
  | ev :: evs' =>
      match tk_step ev t with
      | None => None
      | Some (t1, ms) =>
          match tk_run evs' t1 with
          | None => None
          | Some (t2, ms') => Some (t2, ms ++ ms')
          end
      end
  end.

(** [FileOrganizerGUI()]: the data directories, then [show_login_screen]. *)
Definition tk_init (w : World) : option Tk := (fun s => mkTk s show_login_screen) <$> sys_init w.

(** [if __name__ == "__main__": app = FileOrganizerGUI(); app.run()]:
    the window built on the world [w], then the main loop dispatching the
    events [evs]. *)
Definition main (w : World) (evs : list tk_event) : option (Tk * list message) :=
  t ← tk_init w; tk_run evs t.

Inductive tk_reachable (w0 : World) : Tk -> Prop :=
  | tk_reach_init t : tk_init w0 = Some t -> tk_reachable w0 t
  | tk_reach_step t ev t' ms : tk_reachable w0 t -> tk_step ev t = Some (t', ms) -> tk_reachable w0 t'.

(** Whether the progress bar of the organize screen is spinning. *)
Definition bar_running (wd : widgets) : bool :=
  match wd with OrganizeWidgets _ _ _ bar => bar | _ => false end.

(** The widgets shown are those of the application's screen. *)
Definition widgets_match (t : Tk) : Prop :=
  widgets_screen (tk_widgets t) = app_screen (sys_app (tk_sys t)).

(** ** The widget level refines the payload level *)

Lemma type_into_screen f text wd wd' :
  type_into f text wd = Some wd' -> widgets_screen wd' = widgets_screen wd.
Proof. destruct f, wd; simpl; intros H; try discriminate H; by injection H as <-. Qed.

Lemma browse_folder_screen folder wd : widgets_screen (browse_folder folder wd) = widgets_screen wd.
Proof. destruct wd; simpl; try done. by case_bool_decide. Qed.

Lemma redisplay_screen a a' wd :
  widgets_screen wd = app_screen a -> widgets_screen (redisplay a a' wd) = app_screen a'.
Proof. intros H. unfold redisplay. case_decide; [congruence |]. by destruct (app_screen a'). Qed.

Lemma run_callbacks_screen cbs wd : widgets_screen (run_callbacks cbs wd) = widgets_screen wd.
Proof.
  unfold run_callbacks. revert wd. induction cbs as [|cb cbs IH]; intros wd; [done |].
  simpl. rewrite IH. by destruct wd, cb.
Qed.

Lemma handler_widgets_screen ev a wd : widgets_screen (handler_widgets ev a wd) = widgets_screen wd.
Proof. destruct ev; try done. unfold handler_widgets, start_widgets. by repeat case_match. Qed.

Lemma turn_widgets_screen i sk s wd : widgets_screen (turn_widgets i sk s wd) = widgets_screen wd.
Proof. unfold turn_widgets. case_match; [apply run_callbacks_screen | done]. Qed.

(** A thread's turn does not change the screen. *)
Lemma sys_turn_screen i sk s s' ms :
  sys_step (WorkerTurn i sk) s = Some (s', ms) -> app_screen (sys_app s') = app_screen (sys_app s).
Proof.
  simpl. destruct (sys_workers s !! i) as [wk|]; [| done]. unfold worker_step.
  by destruct (worker_action _ _ _ _ _) as [w' [e|[ph|res]]]; intros [= <- _].
Qed.

(** Every step of the widget model is a step of [Worker.sys_step] on the
    payloads the entries hold, or changes only the entries. *)
Lemma tk_step_sys ev t t' ms :
  tk_step ev t = Some (t', ms) ->
  (tk_sys t' = tk_sys t /\ ms = []) \/ exists sev, sys_step sev (tk_sys t) = Some (tk_sys t', ms).
Proof.
  destruct ev as [f text | answer | b | | i]; cbn [tk_step]; unfold tk_gui.
  - destruct (type_into _ _ _); intros H; [injection H as <- <-; by left | done].
  - destruct (tk_widgets t); intros H; try done. injection H as <- <-. by left.
  - destruct (button_event _ _) as [gev|]; [| done].
    destruct (sys_step _ _) as [[s' ms']|] eqn:Hs; intros H; [| done].
    injection H as <- <-. right. by exists (GuiEvent gev).
  - destruct (sys_step _ _) as [[s' ms']|] eqn:Hs; intros H; [| done].
    injection H as <- <-. right. eexists. exact Hs.
  - destruct (sys_step _ _) as [[s' ms']|] eqn:Hs; intros H; [| done].
    injection H as <- <-. right. eexists. exact Hs.
Qed.

(** Every step shows the widgets of the screen it ends on. *)
Lemma tk_step_match ev t t' ms :
  widgets_match t -> tk_step ev t = Some (t', ms) -> widgets_match t'.
Proof.
  unfold widgets_match. intros Hm.
  destruct ev as [f text | answer | b | | i]; cbn [tk_step]; unfold tk_gui.
  - destruct (type_into _ _ _) eqn:Ht; intros H; [| done]. injection H as <- <-. simpl.
    by rewrite (type_into_screen _ _ _ _ Ht).
  - destruct (tk_widgets t) eqn:Hw; intros H; try done. injection H as <- <-. cbn [tk_widgets tk_sys].
    rewrite <- Hm. by case_bool_decide.
  - destruct (button_event _ _) as [gev|]; [| done].
    destruct (sys_step _ _) as [[s' ms']|] eqn:Hs; intros H; [| done].
    injection H as <- <-. apply redisplay_screen. by rewrite handler_widgets_screen.
  - destruct (sys_step _ _) as [[s' ms']|] eqn:Hs; intros H; [| done].
    injection H as <- <-. apply redisplay_screen. by rewrite handler_widgets_screen.
  - destruct (sys_step _ _) as [[s' ms']|] eqn:Hs; intros H; [| done].
    injection H as <- <-. simpl. by rewrite turn_widgets_screen, (sys_turn_screen _ _ _ _ _ Hs).
Qed.

Lemma tk_reachable_sys (w0 : World) (t : Tk) :
  tk_reachable w0 t -> sys_reachable w0 (tk_sys t) /\ widgets_match t.
Proof.
  induction 1 as [t Hinit | t ev t' ms _ [IHs IHm] Hstep].
  - unfold tk_init in Hinit. destruct (sys_init w0) as [s|] eqn:Hs; [| done]. injection Hinit as <-.
    split; [by apply sys_reach_init |]. unfold sys_init, init in Hs.
    destruct (ensure_data_dirs w0) as [w' [|]]; simpl in Hs; [done |]. by injection Hs as <-.
  - split; [| exact (tk_step_match _ _ _ _ IHm Hstep)].
    destruct (tk_step_sys _ _ _ _ Hstep) as [[-> _] | [sev Hs]]; [done | by eapply sys_reach_step].
Qed.

(** ** The progress bar spins only while a thread runs *)

Lemma run_callbacks_bar cbs wd : bar_running (run_callbacks cbs wd) = true -> bar_running wd = true.
Proof.
  unfold run_callbacks. revert wd. induction cbs as [|cb cbs IH]; intros wd; [done |].
  simpl. intros H. apply IH in H. by destruct wd, cb.
Qed.

(** Every [try] that ends posts the [finally]'s [stop()] last. *)
Lemma turn_callbacks_stop ph wd : bar_running (run_callbacks (turn_callbacks ph None) wd) = false.
Proof.
  assert (exists cbs, turn_callbacks ph None = cbs ++ [StopBar]) as [cbs ->].
  { destruct ph; [exists [] | eexists [SetProgress _] | exists [] | exists [] | exists [ShowResults]];
      reflexivity. }
  unfold run_callbacks. rewrite foldl_app. simpl. by destruct (foldl _ _ _).
Qed.

Lemma bar_type_into f text wd wd' : type_into f text wd = Some wd' -> bar_running wd' = bar_running wd.
Proof. destruct f, wd; simpl; intros H; try discriminate H; by injection H as <-. Qed.

Lemma bar_redisplay a a' wd : bar_running (redisplay a a' wd) = true -> bar_running wd = true.
Proof. unfold redisplay. case_decide; [done |]. by destruct (app_screen a'). Qed.

(** Events of the GUI only add threads, [Start] once its checks pass. *)
Lemma sys_gui_workers ev s s' ms :
  sys_step (GuiEvent ev) s = Some (s', ms) -> exists l, sys_workers s' = sys_workers s ++ l.
Proof.
  destruct s as [a ws]. cbn [sys_step sys_app sys_workers]. intros H.
  destruct ev; try (destruct (step _ a) as [[a' ms']|]; [injection H as <- _; exists []; by rewrite app_nil_r | done]).
  destruct (app_screen a), (current_user a); try done. injection H as Hs. unfold spawn in Hs. simpl in Hs.
  case_match; injection Hs as <- _; simpl; [exists []; by rewrite app_nil_r | by eexists].
Qed.

Lemma tk_gui_bar ev t t' ms :
  tk_gui ev t = Some (t', ms) -> bar_running (tk_widgets t') = true ->
  bar_running (tk_widgets t) = true \/ sys_workers (tk_sys t') <> [].
Proof.
  unfold tk_gui. destruct (sys_step _ _) as [[s' ms']|] eqn:Hs; [| done]. intros [= <- _] Hb.
  apply bar_redisplay in Hb. simpl in Hb. destruct ev; try by left.
  unfold handler_widgets, start_widgets in Hb. destruct (start_checks _ _) as [m|fp] eqn:Hc; [by left |].
  destruct (tk_widgets t); try by left. right. destruct (tk_sys t) as [a ws]. simpl in Hc.
  cbn [sys_step sys_app] in Hs. destruct (app_screen a), (current_user a); try done.
  injection Hs as Hs. unfold spawn in Hs. simpl in Hs. rewrite Hc in Hs. injection Hs as <- _.
  simpl. by destruct ws.
Qed.

Lemma tk_step_bar ev t t' ms :
  tk_step ev t = Some (t', ms) ->
  (bar_running (tk_widgets t) = true -> sys_workers (tk_sys t) <> []) ->
  bar_running (tk_widgets t') = true -> sys_workers (tk_sys t') <> [].
Proof.
  intros H IH Hb. destruct ev as [f text | answer | b | | i]; cbn [tk_step] in H.
  - destruct (type_into f text _) as [wd|] eqn:Ht; [injection H as <- _ | done]. apply IH.
    simpl in Hb. by rewrite (bar_type_into _ _ _ _ Ht) in Hb.
  - destruct (tk_widgets t) eqn:Hw; try done. injection H as <- _. apply IH. simpl.
    simpl in Hb. by case_bool_decide.
  - destruct (button_event b _) as [gev|]; [| done].
    pose proof H as H'. unfold tk_gui in H'. destruct (sys_step _ _) as [[s' ms']|] eqn:Hs; [| done].
    injection H' as <- _. destruct (tk_gui_bar _ _ _ _ H Hb) as [Hb0 | Hne]; [| done].
    cbn [tk_sys] in *. destruct (sys_gui_workers _ _ _ _ Hs) as [l ->]. intros Hnil. apply app_nil in Hnil as [? _]. by apply IH.
  - pose proof H as H'. unfold tk_gui in H'. destruct (sys_step _ _) as [[s' ms']|] eqn:Hs; [| done].
    injection H' as <- _. destruct (tk_gui_bar _ _ _ _ H Hb) as [Hb0 | Hne]; [| done].
    cbn [tk_sys] in *. destruct (sys_gui_workers _ _ _ _ Hs) as [l ->]. intros Hnil. apply app_nil in Hnil as [? _]. by apply IH.
  - destruct (tk_sys t) as [a ws] eqn:Ets. cbn [sys_step sys_workers sys_app] in H.
    destruct (ws !! i) as [wk|] eqn:Hi; [| done].
    destruct (worker_step _ wk a) as [[a' owk] ms'] eqn:Hw. injection H as <- _.
    simpl in Hb |- *. unfold turn_widgets in Hb. simpl in Hb. rewrite Hi, Hw in Hb.
    simpl in Hb. destruct owk as [wk'|]; [| by rewrite turn_callbacks_stop in Hb].
    apply run_callbacks_bar in Hb. intros Hnil. apply (f_equal length) in Hnil.
    rewrite length_insert in Hnil. simpl in Hnil. apply IH; [done |]. by destruct ws.
Qed.

(** ** Properties *)

(** The payload model is an abstraction of the widget model: every
    state the application reaches through typing, Browse answers, button
    clicks, [<Return>] and worker turns is a reachable state of
    [Worker.sys_step] (each click runs the handler on what the entries
    hold), and shows the widgets of the screen the application is on. *)
Theorem tk_refines_sys (w0 : World) (t : Tk) :
  tk_reachable w0 t -> sys_reachable w0 (tk_sys t) /\ widgets_match t.
Proof. apply tk_reachable_sys. Qed.

(** [C16] Started on a well-formed disk, every state of the widget-level
    application, under any interleaving of user actions and worker turns,
    has a logged-in, registered user exactly off the login screen, shows
    that screen's widgets, and has a well-formed disk. *)
Theorem tk_reachable_inv (w0 : World) (t : Tk) :
  wf (w_fs w0) -> tk_reachable w0 t ->
  widgets_match t /\ session_inv (sys_app (tk_sys t)) /\ wf (w_fs (app_world (sys_app (tk_sys t)))).
Proof.
  intros Hwf Ht. destruct (tk_reachable_sys _ _ Ht) as [Hs Hm].
  split; [exact Hm | exact (sys_reachable_inv _ _ Hwf Hs)].
Qed.

(** [C15] The progress bar never spins with no thread running: in every
    state reached through typing, Browse answers, clicks, [<Return>] and
    worker turns, a running bar means some organize thread is still
    alive.  Start only starts the bar once its checks pass and the thread
    is spawned, and every thread's [try] ends with the [finally]'s
    [stop()], which reaches the bar of the organize screen shown then. *)
Theorem tk_bar_has_thread (w0 : World) (t : Tk) :
  tk_reachable w0 t -> bar_running (tk_widgets t) = true -> sys_workers (tk_sys t) <> [].
Proof.
  induction 1 as [t Hinit | t ev t' ms _ IH Hstep].
  - unfold tk_init in Hinit. destruct (sys_init w0); [| done]. by injection Hinit as <-.
  - exact (tk_step_bar _ _ _ _ Hstep IH).
Qed.

(** ** A session at the widget level *)

Lemma tk_run_reachable w0 evs t t' ms :
  tk_reachable w0 t -> tk_run evs t = Some (t', ms) -> tk_reachable w0 t'.
Proof.
  revert t ms. induction evs as [|ev evs IH]; intros t ms Ht H; simpl in H; [by injection H as <- _ |].
  destruct (tk_step ev t) as [[t1 ms1]|] eqn:Hs; [| done].
  destruct (tk_run evs t1) as [[t2 ms2]|] eqn:Hr; [| done]. injection H as <- _.
  apply (IH t1 ms2); [by eapply tk_reach_step | done].
Qed.

Definition ex_tk_start : Tk := default (mkTk (mkSys (organizing "" ex_w0) []) show_login_screen) (tk_init ex_w0).

(** [alice] registers and logs in through the entries, opens the organize
    screen, browses to [/home/dl], types [.pdf] in the skip entry and
    clicks Start; [after_start] then runs before the thread's turns. *)
Definition ex_tk_events (after_start : list tk_event) : list tk_event :=
  [TypeInto UsernameField "alice"; TypeInto PasswordField "pw"; Click RegisterBtn; Click LoginBtn;
   Click OrganizeBtn; Browse "/home/dl"; TypeInto SkipField ".pdf"; Click StartBtn] ++ after_start ++
  [Turn 0; Turn 0; Turn 0; Turn 0; Turn 0; Turn 0; Turn 0].

Definition ex_tk_run (after_start : list tk_event) : Tk * list message :=
  default (ex_tk_start, []) (tk_run (ex_tk_events after_start) ex_tk_start).

Lemma ex_tk_reachable : tk_reachable ex_w0 (ex_tk_run []).1.
Proof.
  apply (tk_run_reachable ex_w0 (ex_tk_events []) ex_tk_start _ (ex_tk_run []).2).
  - apply tk_reach_init. apply some_default. vm_decide.
  - rewrite <- surjective_pairing. apply some_default. vm_decide.
Qed.

(** The events of [ex_tk_events] up to the click on Start. *)
Definition ex_tk_prefix : list tk_event :=
  [TypeInto UsernameField "alice"; TypeInto PasswordField "pw"; Click RegisterBtn; Click LoginBtn;
   Click OrganizeBtn; Browse "/home/dl"; TypeInto SkipField ".pdf"; Click StartBtn].

Definition ex_tk_at (evs : list tk_event) : Tk * list message :=
  default (ex_tk_start, []) (tk_run evs ex_tk_start).

Lemma ex_tk_at_reachable evs : is_Some (tk_run evs ex_tk_start) -> tk_reachable ex_w0 (ex_tk_at evs).1.
Proof.
  intros [r Hr]. apply (tk_run_reachable ex_w0 evs ex_tk_start _ (ex_tk_at evs).2).
  - apply tk_reach_init. apply some_default. vm_decide.
  - unfold ex_tk_at. rewrite Hr. by destruct r.
Qed.

Lemma tk_bar_has_thread_witness :
  tk_reachable ex_w0 (ex_tk_at ex_tk_prefix).1 /\ bar_running (tk_widgets (ex_tk_at ex_tk_prefix).1) = true /\
  sys_workers (tk_sys (ex_tk_at ex_tk_prefix).1) <> [].
Proof.
  assert (Hr : tk_reachable ex_w0 (ex_tk_at ex_tk_prefix).1) by (apply ex_tk_at_reachable; vm_decide).
  assert (Hb : bar_running (tk_widgets (ex_tk_at ex_tk_prefix).1) = true) by vm_decide.
  split_and!; [exact Hr | exact Hb | exact (tk_bar_has_thread _ _ Hr Hb)].
Defined.

(** [C25] Any thread's end stops the one progress bar, even while another
    thread still runs: every [try] of [organize_files_thread] that ends
    posts the [finally]'s [self.progress_bar.stop()] (line 353), and all
    threads share [self.progress_bar].  So with Start clicked twice the
    first thread to end leaves the bar stopped while the second keeps
    organizing the folder. *)
Theorem tk_first_thread_stops_shared_bar (t : Tk) (i : nat) (t' : Tk) (ms : list message) :
  tk_step (Turn i) t = Some (t', ms) ->
  length (sys_workers (tk_sys t')) < length (sys_workers (tk_sys t)) ->
  bar_running (tk_widgets t') = false.
Proof.
  intros H Hlen. cbn [tk_step] in H. destruct (tk_sys t) as [a ws] eqn:Ets.
  cbn [sys_step sys_workers sys_app] in H. destruct (ws !! i) as [wk|] eqn:Hi; [| done].
  destruct (worker_step _ wk a) as [[a' owk] ms'] eqn:Hw. injection H as <- _.
  unfold turn_widgets. simpl. rewrite Hi, Hw.
  destruct owk as [wk'|]; [| apply turn_callbacks_stop].
  simpl in Hlen. rewrite length_insert in Hlen. lia.
Qed.

(** Start clicked twice, and six turns of the first thread. *)
Definition ex_tk_two : Tk :=
  (ex_tk_at (ex_tk_prefix ++ [Click StartBtn; Turn 0; Turn 0; Turn 0; Turn 0; Turn 0; Turn 0])).1.
Definition ex_tk_two_end : Tk * list message := default (ex_tk_two, []) (tk_step (Turn 0) ex_tk_two).

Lemma tk_first_thread_stops_shared_bar_witness :
  tk_step (Turn 0) ex_tk_two = Some (ex_tk_two_end.1, ex_tk_two_end.2) /\
  length (sys_workers (tk_sys ex_tk_two_end.1)) < length (sys_workers (tk_sys ex_tk_two)) /\
  length (sys_workers (tk_sys ex_tk_two_end.1)) = 1%nat /\
  bar_running (tk_widgets ex_tk_two_end.1) = false.
Proof.
  assert (H1 : tk_step (Turn 0) ex_tk_two = Some (ex_tk_two_end.1, ex_tk_two_end.2))
    by (rewrite <- surjective_pairing; apply some_default; vm_decide).
  assert (H2 : length (sys_workers (tk_sys ex_tk_two_end.1)) < length (sys_workers (tk_sys ex_tk_two)))
    by vm_decide.
  split_and!; [exact H1 | exact H2 | vm_decide | exact (tk_first_thread_stops_shared_bar _ _ _ _ H1 H2)].
Defined.

(** The same run: the first thread's end also shows "Organization
    complete!" while the second thread is still running. *)
Example tk_double_start_scenario :
  let r := ex_tk_at (ex_tk_prefix ++ [Click StartBtn; Turn 0; Turn 0; Turn 0; Turn 0; Turn 0; Turn 0; Turn 0]) in
  tk_widgets r.1 = OrganizeWidgets "/home/dl" ".pdf" "Organization complete!" false /\
  length (sys_workers (tk_sys r.1)) = 1%nat.
Proof. split; vm_decide. Qed.

Lemma tk_refines_sys_witness :
  tk_reachable ex_w0 (ex_tk_run []).1 /\
  sys_reachable ex_w0 (tk_sys (ex_tk_run []).1) /\ widgets_match (ex_tk_run []).1.
Proof. split; [exact ex_tk_reachable | exact (tk_refines_sys _ _ ex_tk_reachable)]. Defined.

Lemma tk_reachable_inv_witness :
  wf (w_fs ex_w0) /\ tk_reachable ex_w0 (ex_tk_run []).1 /\
  (widgets_match (ex_tk_run []).1 /\ session_inv (sys_app (tk_sys (ex_tk_run []).1)) /\
   wf (w_fs (app_world (sys_app (tk_sys (ex_tk_run []).1))))).
Proof.
  split; [exact ex_w0_wf | split; [exact ex_tk_reachable |
    exact (tk_reachable_inv _ _ ex_w0_wf ex_tk_reachable)]].
Defined.

Definition ex_tk_fs (after_start : list tk_event) (p : Path) : option entry :=
  w_fs (app_world (sys_app (tk_sys (ex_tk_run after_start).1))) !! p.

(** The same, but [alice] goes back to the main menu before the thread's
    first turn. *)
Definition ex_tk_back : option (Tk * list message) :=
  tk_run [TypeInto UsernameField "alice"; TypeInto PasswordField "pw"; Click RegisterBtn; Click LoginBtn;
          Click OrganizeBtn; Browse "/home/dl"; TypeInto SkipField ".pdf"; Click StartBtn;
          Click BackBtn; Turn 0] ex_tk_start.

(** The worker reads the skip entry when it starts, not when Start
    is clicked: with [.pdf] in the entry at the click, [report.pdf] stays
    in [/home/dl], but clearing the entry before the thread's first turn
    gets it moved; and leaving the organize screen before that turn makes
    [self.skip_entry.get()] raise, so nothing is organized, the thread
    ends, and no message says so. *)
Example worker_reads_skip_entry_late :
  ex_tk_fs [] (ex_folder ++ ["report.pdf"]) = w_fs ex_w0 !! (ex_folder ++ ["report.pdf"]) /\
  ex_tk_fs [TypeInto SkipField ""] (ex_folder ++ ["report.pdf"]) = None /\
  (fun r => (r.2, length (sys_workers (tk_sys r.1)),
             w_fs (app_world (sys_app (tk_sys r.1))) !! (ex_folder ++ ["photo.jpg"]))) <$> ex_tk_back =
    Some ([ShowInfo "Registration successful! You can now login."; ShowInfo "Welcome, alice!"], 0%nat,
          w_fs ex_w0 !! (ex_folder ++ ["photo.jpg"])).
Proof. split_and!; vm_decide. Qed.
