(* ===== verification/Gui.v ===== *)
(** * The second front end: src/gui.py

    A small Tk window with a global [username] and two buttons.
    [login_gui] stores the answer of a dialog in [username];
    [select_folder] asks for a folder and a skip list, calls
    [organizer.backup_folder], then [organizer.organize_folder], an
    attribute src/organizer.py does not define.  The state is the world
    and the global; dialog answers are arguments ([None] for a cancelled
    [askstring], [""] for a cancelled [askdirectory]).  An exception of a
    button's command is reported by Tk and the window stays up: it is the
    [inl] outcome of the handler.

    The window (lines 28-41) is [gui_step] on its two buttons and
    [gui_run], its main loop.

    The theorems: once a user is logged in and a folder chosen,
    [select_folder] makes a backup and then raises [AttributeError]; so no
    session of the window, whatever the dialogs are answered, removes an
    entry of the disk or shows its success message. *)

From S2P Require Import Prelude PyLib Calendar FileSystem World ActivityLog Backup Organizer Session.
From Stdlib Require Import Ascii.

(** Python's truth value of [askstring]'s answer: [None] and [""] are false. *)
Definition py_truthy (answer : option string) : option string :=
  match answer with
  | Some s => if bool_decide (s = "") then None else Some s
  | None => None
  end.

(** [login_gui()]: the global takes the answer whatever it is; the result
    is the function's return value. *)
Definition login_gui (answer : option string) : option string * bool * list message :=
  match py_truthy answer with
  | None => (answer, false, [ShowError "Username is required!"])
  | Some _ => (answer, true, [])
  end.

(** [skip_exts = [s.strip().lower() for s in skip_input.split(",")] if skip_input else []]. *)
Definition parse_skip_input (skip_input : option string) : list string :=
  match py_truthy skip_input with
  | None => []
  | Some s => (fun x => lower (strip x)) <$> split_on ","%char s
  end.

(** [select_folder()], given the global [username] and the answers of the
    folder and skip-list dialogs. *)
Definition select_folder (username : option string) (folder_selected : string)
    (skip_input : option string) : M (list message) :=
  match py_truthy username with
  | None => mret [ShowError "You must log in first!"]
  | Some user =>
      if bool_decide (folder_selected = "") then mret []
      else
        let skip_exts := parse_skip_input skip_input in
        w ← get_world;
        _ ← backup_folder user (resolve (w_cwd w) folder_selected);
        (* [organizer.organize_folder]: the module has no such attribute *)
        _ ← @raise unit AttributeError;
        mret [ShowInfo "Files organized successfully!"]
  end.

(** The window (lines 28-41): a Login and a Choose Folder button, and
    [root.mainloop()].  The state is the global [username] and the world;
    an exception of a command is reported by Tk and shows nothing. *)
Inductive gui_event :=
  | LoginClick (answer : option string)
  | ChooseClick (folder_selected : string) (skip_input : option string).

Definition gui_step (ev : gui_event) (st : option string * World) : (option string * World) * list message :=
  match ev with
  | LoginClick answer => let '(username, _, ms) := login_gui answer in ((username, st.2), ms)
  | ChooseClick folder skip =>
      match select_folder st.1 folder skip st.2 with
      | (w', inr ms) => ((st.1, w'), ms)
      | (w', inl _) => ((st.1, w'), [])
      end
  end.

Fixpoint gui_run (evs : list gui_event) (st : option string * World) : (option string * World) * list message :=
  match evs with
  | [] => (st, [])
  | ev :: evs' => let '(st1, ms) := gui_step ev st in let '(st2, ms') := gui_run evs' st1 in (st2, ms ++ ms')
  end.

(** ** Properties *)

Lemma select_folder_entries_kept username folder skip :
  keeps entries_kept (select_folder username folder skip).
Proof. unfold select_folder. solve_keeps. apply backup_folder_entries_kept. Qed.

(** What [select_folder] does once a user is logged in and a folder chosen. *)
Lemma select_folder_run user username folder skip w :
  py_truthy username = Some user -> folder <> "" ->
  select_folder username folder skip w =
    match backup_folder user (resolve (w_cwd w) folder) w with
    | (wb, inr _) => (wb, inl AttributeError)
    | (wb, inl e) => (wb, inl e)
    end.
Proof.
  intros Hu Hf. unfold select_folder. rewrite Hu. rewrite bool_decide_eq_false_2 by done.
  unfold mbind, M_bind at 1, get_world. cbv beta iota.
  unfold mbind, M_bind. destruct (backup_folder _ _ w) as [wb [e|bp]]; reflexivity.
Qed.

(** What [select_folder] shows when it returns: an error, or nothing. *)
Lemma select_folder_returns username folder skip w w' ms :
  select_folder username folder skip w = (w', inr ms) ->
  ms = [ShowError "You must log in first!"] \/ ms = [].
Proof.
  destruct (py_truthy username) as [user|] eqn:Hu; [| unfold select_folder; rewrite Hu; intros [= _ <-]; by left].
  destruct (decide (folder = "")) as [-> | Hf]; [unfold select_folder; rewrite Hu; intros [= _ <-]; by right |].
  rewrite (select_folder_run user) by done. by repeat case_match.
Qed.

Lemma gui_step_kept ev st :
  entries_kept st.2 (gui_step ev st).1.2 /\ ShowInfo "Files organized successfully!" ∉ (gui_step ev st).2.
Proof.
  destruct ev as [answer | folder skip]; simpl.
  - unfold login_gui. destruct (py_truthy answer); simpl; split; [done | set_solver | done | set_solver].
  - destruct (select_folder st.1 folder skip st.2) as [w' [e|ms]] eqn:Hs; simpl;
      (split; [exact (select_folder_entries_kept _ _ _ _ _ _ Hs) |]); [set_solver |].
    destruct (select_folder_returns _ _ _ _ _ _ Hs) as [-> | ->]; set_solver.
Qed.

(** The [Choose Folder] button of src/gui.py never organizes: it never
    shows "Files organized successfully!" and no entry of the disk
    disappears, so every file stays where it was. *)
Theorem select_folder_never_organizes username folder skip w :
  (select_folder username folder skip w).2 <> inr [ShowInfo "Files organized successfully!"] /\
  forall p, is_Some (w_fs w !! p) -> is_Some (w_fs (select_folder username folder skip w).1 !! p).
Proof.
  split; [| intros p; exact (select_folder_entries_kept _ _ _ w _ _ (surjective_pairing _) p)].
  destruct (py_truthy username) as [user|] eqn:Hu; [| unfold select_folder; by rewrite Hu].
  destruct (decide (folder = "")) as [-> | Hf]; [unfold select_folder; by rewrite Hu |].
  rewrite (select_folder_run user); [| done | done]. by repeat case_match.
Qed.

(** With a user logged in and a folder chosen, [select_folder] makes
    the backup of [organizer.backup_folder] and then raises
    [AttributeError] on [organizer.organize_folder]; an exception of the
    backup comes first. *)
Theorem select_folder_raises user username folder skip w :
  py_truthy username = Some user -> folder <> "" ->
  exists e, select_folder username folder skip w = ((backup_folder user (resolve (w_cwd w) folder) w).1, inl e) /\
    (e = AttributeError \/ (backup_folder user (resolve (w_cwd w) folder) w).2 = inl e).
Proof.
  intros Hu Hf. rewrite (select_folder_run user) by done.
  destruct (backup_folder _ _ w) as [wb [e|bp]]; [exists e | exists AttributeError];
    split; [reflexivity | by right | reflexivity | by left].
Qed.

Lemma select_folder_raises_witness :
  py_truthy (Some "alice") = Some "alice" /\ "/home/dl" <> "" /\
  exists e, select_folder (Some "alice") "/home/dl" None ex_w0 =
    ((backup_folder "alice" (resolve (w_cwd ex_w0) "/home/dl") ex_w0).1, inl e) /\
    (e = AttributeError \/ (backup_folder "alice" (resolve (w_cwd ex_w0) "/home/dl") ex_w0).2 = inl e).
Proof.
  assert (H1 : py_truthy (Some "alice") = Some "alice") by reflexivity.
  assert (H2 : "/home/dl" <> "") by discriminate.
  split_and!; [exact H1 | exact H2 | exact (select_folder_raises "alice" _ _ None ex_w0 H1 H2)].
Defined.

(** On the spec's folder, [Choose Folder] raises [AttributeError]
    after copying both files into the backup directory, and leaves them in
    [/home/dl]. *)
Example gui_select_folder_scenario :
  (select_folder (Some "alice") "/home/dl" (Some ".txt") ex_w0).2 = inl AttributeError /\
  w_fs (select_folder (Some "alice") "/home/dl" (Some ".txt") ex_w0).1 !! ["home"; "dl"; "photo.jpg"] =
    w_fs ex_w0 !! ["home"; "dl"; "photo.jpg"] /\
  is_Some (w_fs (select_folder (Some "alice") "/home/dl" (Some ".txt") ex_w0).1 !!
    ["home"; "data"; "backups"; "alice"; "2024-03-10_19-46-40"; "photo.jpg"]).
Proof. split_and!; vm_decide. Qed.

(** [C22] No session of src/gui.py organizes anything: whatever the user
    answers to the Login and Choose Folder dialogs, in any order and any
    number of times, every entry of the disk stays, and "Files organized
    successfully!" is never shown. *)
Theorem gui_session_never_organizes (evs : list gui_event) (st : option string * World) :
  (forall p, is_Some (w_fs st.2 !! p) -> is_Some (w_fs (gui_run evs st).1.2 !! p)) /\
  ShowInfo "Files organized successfully!" ∉ (gui_run evs st).2.
Proof.
  revert st. induction evs as [|ev evs IH]; intros st; simpl; [split; [done | set_solver] |].
  destruct (gui_step_kept ev st) as [Hk Hm].
  destruct (gui_step ev st) as [st1 ms] eqn:E. destruct (gui_run evs st1) as [st2 ms'] eqn:E'.
  specialize (IH st1). rewrite E' in IH. destruct IH as [IHk IHm]. simpl in *.
  split; [intros p Hp; exact (IHk p (Hk p Hp)) | set_solver].
Qed.
